(** * Sangfor SCP API client: a shallow embedding of [client.py]

    The development follows the source file top to bottom: the request
    signer ([_sign], [_get_signature_key], [_EC2RequestAuth.__call__]) and
    the API client ([send_request], [get_vms], [get_all_vms], [find_vm],
    the per-VM lookups and [generate_infrastructure_report]).

    Python values decoded from JSON are an inductive type; a Python [str]
    is a Rocq [string] holding its UTF-8 bytes, so [s.encode('utf-8')] is
    the identity on the representation; Python [int] is [Z]; Python
    [float] is the kernel's binary64 [float].  Exceptions are explicit
    results.  The HTTP transport, the hash functions and the wall clock
    are inputs of the model, and so are three results of built-ins:
    [str] of a float or a container, [int] of a string that holds a
    character outside ASCII, and [sum] of numbers with a float among
    them.  Progress lines written to stderr in verbose mode have no effect
    on any result and are left out. *)

From Stdlib Require Import ZArith List String Ascii Bool Lia DecimalString.
From Stdlib Require Import PrimFloat SpecFloat FloatOps.
Import ListNotations.
Local Open Scope string_scope.
Local Open Scope Z_scope.

(* ===================================================================== *)
(** * Python values and exceptions                                        *)
(* ===================================================================== *)

(** What [json.loads] produces: [None], [bool], [int], [float], [str],
    [list], and [dict] with string keys.  A dict keeps insertion order and
    holds one binding per key; [dict_get] reads the first binding. *)
Inductive pyval : Type :=
| PNone
| PBool (b : bool)
| PInt (z : Z)
| PFloat (f : float)
| PStr (s : string)
| PList (l : list pyval)
| PDict (d : list (string * pyval)).

(** The exceptions the modelled code can raise. *)
Inductive pyexc : Type :=
| AttributeError
| TypeError
| ValueError
| KeyError
| OverflowError
| JSONDecodeError.

(** Result of a pure Python expression: a value or a raised exception. *)
Inductive pyres (A : Type) : Type :=
| Ok (a : A)
| Err (e : pyexc).
Arguments Ok {A} a.
Arguments Err {A} e.

Definition pbind {A B : Type} (c : pyres A) (k : A -> pyres B) : pyres B :=
  match c with
  | Ok a => k a
  | Err e => Err e
  end.

Declare Scope py_scope.
Delimit Scope py_scope with py.
Notation "x <- c ;; k" := (pbind c (fun x => k))
  (at level 61, c at next level, right associativity) : py_scope.

(** [bool(v)]: Python truthiness.  A float is falsy exactly when it
    compares equal to zero, so [nan] is truthy. *)
Definition truthy (v : pyval) : bool :=
  match v with
  | PNone => false
  | PBool b => b
  | PInt z => negb (z =? 0)
  | PFloat f => negb (PrimFloat.eqb f 0%float)
  | PStr s => negb (s =? "")%string
  | PList l => match l with [] => false | _ :: _ => true end
  | PDict d => match d with [] => false | _ :: _ => true end
  end.

Fixpoint dict_get (d : list (string * pyval)) (k : string) : option pyval :=
  match d with
  | [] => None
  | (k', v) :: rest => if (k' =? k)%string then Some v else dict_get rest k
  end.

(** [v.get(k, default)]: only a dict has the method; every other JSON
    value raises [AttributeError]. *)
Definition py_get (v : pyval) (k : string) (default : pyval) : pyres pyval :=
  match v with
  | PDict d => Ok (match dict_get d k with Some x => x | None => default end)
  | _ => Err AttributeError
  end.

(** [for x in v]: the items a [for] loop visits.  A dict yields its keys, a
    string its characters; the remaining JSON values are not iterable. *)
Fixpoint chars_of (s : string) : list pyval :=
  match s with
  | EmptyString => []
  | String c r => PStr (String c EmptyString) :: chars_of r
  end.

Definition py_iter (v : pyval) : pyres (list pyval) :=
  match v with
  | PList l => Ok l
  | PDict d => Ok (map (fun kv => PStr (fst kv)) d)
  | PStr s => Ok (chars_of s)
  | _ => Err TypeError
  end.

(* ===================================================================== *)
(** * Numbers                                                             *)
(* ===================================================================== *)

(** A Python number after [bool] has been read as the [int] it is. *)
Inductive pynum : Type :=
| NInt (z : Z)
| NFloat (f : float).

Definition as_num (v : pyval) : option pynum :=
  match v with
  | PBool b => Some (NInt (if b then 1 else 0))
  | PInt z => Some (NInt z)
  | PFloat f => Some (NFloat f)
  | _ => None
  end.

(** An integer as an exact, unnormalised binary float [m * 2^0]. *)
Definition sf_of_Z (z : Z) : spec_float :=
  match z with
  | Z0 => S754_zero false
  | Zpos p => S754_finite false p 0
  | Zneg p => S754_finite true p 0
  end.

Definition is_inf (f : float) : bool :=
  match Prim2SF f with
  | S754_infinity _ => true
  | _ => false
  end.

(** [float(z)]: the nearest binary64 (ties to even); [OverflowError] when
    the integer is too large. *)
Definition float_of_int (z : Z) : pyres float :=
  let f := SF2Prim (binary_normalize prec emax z 0 false) in
  if is_inf f then Err OverflowError else Ok f.

(** [a / b] on two ints ([b] nonzero): the correctly rounded quotient of
    the exact integers; [OverflowError] when it is too large. *)
Definition int_truediv (a b : Z) : pyres float :=
  let f := SF2Prim (SFdiv prec emax (sf_of_Z a) (sf_of_Z b)) in
  if is_inf f then Err OverflowError else Ok f.

(** [x + y]. *)
Definition py_add (x y : pynum) : pyres pynum :=
  match x, y with
  | NInt a, NInt b => Ok (NInt (a + b))
  | NInt a, NFloat g => f <- float_of_int a ;; Ok (NFloat (f + g)%float)
  | NFloat f, NInt b => g <- float_of_int b ;; Ok (NFloat (f + g)%float)
  | NFloat f, NFloat g => Ok (NFloat (f + g)%float)
  end%py.

(** [acc + v] for a JSON value [v]: a non-number raises [TypeError]. *)
Definition py_add_val (acc : pynum) (v : pyval) : pyres pynum :=
  match as_num v with
  | Some n => py_add acc n
  | None => Err TypeError
  end.

(** [x / d] for a positive int literal [d] (1024 or 1024 * 1024 in the
    source). *)
Definition num_truediv (x : pynum) (d : Z) : pyres pynum :=
  match x with
  | NInt a => q <- int_truediv a d ;; Ok (NFloat q)
  | NFloat f => g <- float_of_int d ;; Ok (NFloat (f / g)%float)
  end%py.

Definition py_truediv (v : pyval) (d : Z) : pyres pynum :=
  match as_num v with
  | Some n => num_truediv n d
  | None => Err TypeError
  end.

(** Round a nonnegative rational [n / d] to the nearest integer, ties to
    the even one. *)
Definition round_half_even (n d : Z) : Z :=
  let q := n / d in
  let r := n mod d in
  match (2 * r) ?= d with
  | Lt => q
  | Gt => q + 1
  | Eq => if Z.even q then q else q + 1
  end.

(** [round(f, 2)] on a float: the exact binary value is rounded to two
    decimals (ties to even) and the decimal is read back as the nearest
    float.  Zeros, infinities and [nan] are returned as they are. *)
Definition float_round2 (f : float) : float :=
  match Prim2SF f with
  | S754_finite s m e =>
      let k := if 0 <=? e
               then 100 * Zpos m * 2 ^ e
               else round_half_even (100 * Zpos m) (2 ^ (- e)) in
      match k with
      | Zpos p => SF2Prim (SFdiv prec emax (S754_finite s p 0) (S754_finite false 100 0))
      | _ => SF2Prim (S754_zero s)
      end
  | _ => f
  end.

(** [round(x, 2)]: an int is returned unchanged. *)
Definition py_round2 (x : pynum) : pynum :=
  match x with
  | NInt z => NInt z
  | NFloat f => NFloat (float_round2 f)
  end.

(** Does the float hold exactly the integer [z]? *)
Definition float_is_int (f : float) (z : Z) : bool :=
  match Prim2SF f with
  | S754_zero _ => z =? 0
  | S754_finite s m e =>
      let v := if s then Zneg m else Zpos m in
      if 0 <=? e then z =? v * 2 ^ e
      else (v mod 2 ^ (- e) =? 0) && (z =? v / 2 ^ (- e))
  | _ => false
  end.

(** [x == y] on numbers: by exact mathematical value; [nan] equals
    nothing. *)
Definition num_eq (x y : pynum) : bool :=
  match x, y with
  | NInt a, NInt b => a =? b
  | NInt a, NFloat g => float_is_int g a
  | NFloat f, NInt b => float_is_int f b
  | NFloat f, NFloat g => PrimFloat.eqb f g
  end.

(** [int(f)] on a float: truncation toward zero. *)
Definition int_of_float (f : float) : pyres Z :=
  match Prim2SF f with
  | S754_zero _ => Ok 0
  | S754_finite s m e =>
      let a := if 0 <=? e then Zpos m * 2 ^ e else Zpos m / 2 ^ (- e) in
      Ok (if s then - a else a)
  | S754_infinity _ => Err OverflowError
  | S754_nan => Err ValueError
  end.

(* ===================================================================== *)
(** * Strings                                                             *)
(* ===================================================================== *)

(** The newline character of ['\n']. *)
Definition nl : string := String (ascii_of_nat 10) EmptyString.

Definition is_digit (c : ascii) : bool :=
  let n := nat_of_ascii c in (48 <=? n)%nat && (n <=? 57)%nat.

Definition is_upper (c : ascii) : bool :=
  let n := nat_of_ascii c in (65 <=? n)%nat && (n <=? 90)%nat.

Definition is_lower (c : ascii) : bool :=
  let n := nat_of_ascii c in (97 <=? n)%nat && (n <=? 122)%nat.

(** [c.lower()] on ASCII; bytes of a multi-byte character stay as they
    are. *)
Definition lower_ascii (c : ascii) : ascii :=
  if is_upper c then ascii_of_nat (nat_of_ascii c + 32) else c.

Fixpoint lower (s : string) : string :=
  match s with
  | EmptyString => EmptyString
  | String c r => String (lower_ascii c) (lower r)
  end.

(** [c in s]. *)
Fixpoint contains (c : ascii) (s : string) : bool :=
  match s with
  | EmptyString => false
  | String a r => Ascii.eqb a c || contains c r
  end.

(** [s.split(c, 1)]: the text before the first [c] and the text after it,
    [None] when [c] does not occur. *)
Fixpoint split_once (c : ascii) (s : string) : string * option string :=
  match s with
  | EmptyString => (EmptyString, None)
  | String a r =>
      if Ascii.eqb a c then (EmptyString, Some r)
      else let (x, y) := split_once c r in (String a x, y)
  end.

(** [s.split(c)]: all the segments, one more than the occurrences of [c]. *)
Fixpoint split_all (c : ascii) (s : string) : list string :=
  match s with
  | EmptyString => [EmptyString]
  | String a r =>
      if Ascii.eqb a c then EmptyString :: split_all c r
      else match split_all c r with
           | seg :: segs => String a seg :: segs
           | [] => [String a EmptyString]
           end
  end.

Definition digit_char (d : Z) : ascii :=
  ascii_of_nat (48 + Z.to_nat (d mod 10)).

(** The [w] low decimal digits of [n], most significant first: the
    zero-padded rendering of a number below [10 ^ w]. *)
Fixpoint digits_fixed (w : nat) (n : Z) : string :=
  match w with
  | O => EmptyString
  | S w' => digits_fixed w' (n / 10) ++ String (digit_char n) EmptyString
  end.

(** [str(z)] for an int. *)
Definition str_of_int (z : Z) : string := NilZero.string_of_int (Z.to_int z).

(** [bytes.hex()]: two lowercase hexadecimal digits per byte. *)
Definition hex_digit (n : nat) : ascii :=
  if (n <? 10)%nat then ascii_of_nat (48 + n) else ascii_of_nat (87 + n).

Fixpoint hex (b : string) : string :=
  match b with
  | EmptyString => EmptyString
  | String c r =>
      let n := nat_of_ascii c in
      String (hex_digit (n / 16)) (String (hex_digit (n mod 16)) (hex r))
  end.

(** [sorted(l)] on strings, by insertion. *)
Fixpoint insert_sorted (s : string) (l : list string) : list string :=
  match l with
  | [] => [s]
  | x :: r => if String.leb s x then s :: l else x :: insert_sorted s r
  end.

Definition sorted (l : list string) : list string :=
  fold_right insert_sorted [] l.

(* ===================================================================== *)
(** * Time stamps                                                         *)
(* ===================================================================== *)

(** The fields of a [datetime] the two format strings read.  A [datetime]
    has its year in 1..9999. *)
Record datetime : Type := {
  year : Z;
  month : Z;
  day : Z;
  hour : Z;
  minute : Z;
  second : Z
}.

(** One [strftime] directive: the character after a [%].  Only the
    numeric directives the source uses, and [%%], are modelled. *)
Definition directive (t : datetime) (c : ascii) : option string :=
  if Ascii.eqb c "Y" then Some (digits_fixed 4 (year t))
  else if Ascii.eqb c "m" then Some (digits_fixed 2 (month t))
  else if Ascii.eqb c "d" then Some (digits_fixed 2 (day t))
  else if Ascii.eqb c "H" then Some (digits_fixed 2 (hour t))
  else if Ascii.eqb c "M" then Some (digits_fixed 2 (minute t))
  else if Ascii.eqb c "S" then Some (digits_fixed 2 (second t))
  else if Ascii.eqb c "%" then Some "%"
  else None.

(** [t.strftime(fmt)], scanning [fmt] left to right; [pct] says that the
    previous character was an unconsumed [%].  A character that follows no
    [%] is copied.  [None] when a directive is outside the modelled set. *)
Fixpoint strftime_from (t : datetime) (pct : bool) (fmt : string) : option string :=
  match fmt with
  | EmptyString => if pct then None else Some EmptyString
  | String c rest =>
      if pct then
        match directive t c, strftime_from t false rest with
        | Some s, Some out => Some (s ++ out)
        | _, _ => None
        end
      else if Ascii.eqb c "%" then strftime_from t true rest
      else option_map (String c) (strftime_from t false rest)
  end.

Definition strftime (t : datetime) (fmt : string) : option string :=
  strftime_from t false fmt.

(** [amzdate = t.strftime('%Y%m%dT%H%M%SZ')] *)
Definition amzdate_of (t : datetime) : option string :=
  strftime t "%Y%m%dT%H%M%SZ".

(** [datestamp = t.strftime('%Ym%d')] *)
Definition datestamp_of (t : datetime) : option string :=
  strftime t "%Ym%d".

(* ===================================================================== *)
(** * URLs: [urllib.parse.urlparse]                                       *)
(* ===================================================================== *)

Record ParseResult : Type := {
  scheme : string;
  netloc : string;
  path : string;
  params : string;
  query : string;
  fragment : string
}.

Definition is_scheme_char (c : ascii) : bool :=
  is_lower c || is_upper c || is_digit c
  || Ascii.eqb c "+" || Ascii.eqb c "-" || Ascii.eqb c ".".

(** The text before the first [:] when it consists of scheme characters
    only, with the text after that [:]. *)
Fixpoint take_scheme (s : string) : option (string * string) :=
  match s with
  | EmptyString => None
  | String c r =>
      if Ascii.eqb c ":" then Some (EmptyString, r)
      else if is_scheme_char c then
        match take_scheme r with
        | Some (a, b) => Some (String c a, b)
        | None => None
        end
      else None
  end.

(** The scheme is split off when it is not empty and starts with a
    letter. *)
Definition split_scheme (url : string) : string * string :=
  match take_scheme url with
  | Some (String c a, rest) =>
      if is_lower c || is_upper c then (lower (String c a), rest)
      else (EmptyString, url)
  | _ => (EmptyString, url)
  end.

(** [_splitnetloc]: the text up to the first of [/], [?], [#]. *)
Fixpoint span_netloc (s : string) : string * string :=
  match s with
  | EmptyString => (EmptyString, EmptyString)
  | String c r =>
      if Ascii.eqb c "/" || Ascii.eqb c "?" || Ascii.eqb c "#"
      then (EmptyString, s)
      else let (a, b) := span_netloc r in (String c a, b)
  end.

(** [if url[:2] == '//': netloc, url = _splitnetloc(url, 2)] *)
Definition split_netloc (url : string) : string * string :=
  match url with
  | String a (String b r) =>
      if Ascii.eqb a "/" && Ascii.eqb b "/" then span_netloc r
      else (EmptyString, url)
  | _ => (EmptyString, url)
  end.

Definition uses_params : list string :=
  [""; "ftp"; "hdl"; "prospero"; "http"; "imap"; "https"; "shttp"; "rtsp";
   "rtsps"; "rtspu"; "sip"; "sips"; "mms"; "sftp"; "tftp"].

(** [_splitparams]: the first [;] at or after the last [/] starts the
    parameters of the last path segment. *)
Fixpoint splitparams (url : string) : string * string :=
  match url with
  | EmptyString => (EmptyString, EmptyString)
  | String c r =>
      if contains "/" r
      then let (p, q) := splitparams r in (String c p, q)
      else match split_once ";" url with
           | (p, Some q) => (p, q)
           | (p, None) => (p, EmptyString)
           end
  end.

Definition or_empty (o : option string) : string :=
  match o with
  | Some s => s
  | None => EmptyString
  end.

(** [urlparse(url)].  The stripping of leading control characters and the
    validation of a bracketed host are left out: the URL comes from a
    request that [requests] has already prepared and quoted. *)
Definition urlparse (url : string) : ParseResult :=
  let (sch, url1) := split_scheme url in
  let (nloc, url2) := split_netloc url1 in
  let (url3, frag) := split_once "#" url2 in
  let (url4, qry) := split_once "?" url3 in
  let (pth, prm) :=
    if existsb (String.eqb sch) uses_params && contains ";" url4
    then splitparams url4 else (url4, EmptyString) in
  {| scheme := sch; netloc := nloc; path := pth; params := prm;
     query := or_empty qry; fragment := or_empty frag |}.

(* ===================================================================== *)
(** * Request signer                                                      *)
(* ===================================================================== *)

(** [requests.structures.CaseInsensitiveDict]: the headers of a request.
    An entry keeps the spelling of the key that was last set; lookups
    compare lower-cased keys. *)
Definition headers_t : Type := list (string * string).

Fixpoint ci_set (k v : string) (h : headers_t) : headers_t :=
  match h with
  | [] => [(k, v)]
  | (k', v') :: rest =>
      if (lower k' =? lower k)%string then (k, v) :: rest
      else (k', v') :: ci_set k v rest
  end.

Fixpoint ci_getitem (k : string) (h : headers_t) : pyres string :=
  match h with
  | [] => Err KeyError
  | (k', v') :: rest =>
      if (lower k' =? lower k)%string then Ok v' else ci_getitem k rest
  end.

(** The body of a prepared request: [None], [bytes] or [str]. *)
Inductive req_body : Type :=
| BodyNone
| BodyBytes (b : string)
| BodyStr (s : string).

(** [requests.PreparedRequest], as the signer reads it.  [r_url] is the
    full URL, query string included. *)
Record prepared_request : Type := {
  r_method : string;
  r_url : string;
  r_headers : headers_t;
  r_body : req_body
}.

(** The [_EC2RequestAuth] object. *)
Record EC2RequestAuth : Type := {
  auth_access_key : string;
  auth_secret_key : string;
  auth_region : string;
  auth_service : string;
  auth_algorithm : string
}.

(** [_EC2RequestAuth.__init__] *)
Definition EC2RequestAuth_init (access_key secret_key region service : string)
  : EC2RequestAuth :=
  {| auth_access_key := access_key;
     auth_secret_key := secret_key;
     auth_region := region;
     auth_service := service;
     auth_algorithm := "AWS4-HMAC-SHA256" |}.

(** The local variables of [__call__], kept for the statements below. *)
Record signing : Type := {
  sg_amzdate : string;
  sg_datestamp : string;
  sg_canonical_uri : string;
  sg_canonical_querystring : string;
  sg_signed_headers_str : string;
  sg_canonical_headers : string;
  sg_body_hash : string;
  sg_canonical_request : string;
  sg_credential_scope : string;
  sg_string_to_sign : string;
  sg_signing_key : string;
  sg_signature : string;
  sg_authorization_header : string;
  sg_headers : headers_t
}.

(** A format string with a directive outside the modelled set is reported
    as [ValueError]; neither format string of the source has one. *)
Definition strftime_res (o : option string) : pyres string :=
  match o with
  | Some s => Ok s
  | None => Err ValueError
  end.

(** [''.join([f"{header}:{headers[header]}\n" for header in l])] *)
Fixpoint canonical_headers_of (headers : headers_t) (l : list string) : pyres string :=
  match l with
  | [] => Ok EmptyString
  | header :: rest =>
      (v <- ci_getitem header headers ;;
       tl <- canonical_headers_of headers rest ;;
       Ok (header ++ ":" ++ v ++ nl ++ tl))%py
  end.

(** [body = r.body or b'']: an empty or absent body becomes [b'']. *)
Definition body_or_empty (b : req_body) : req_body :=
  match b with
  | BodyNone => BodyBytes EmptyString
  | BodyBytes EmptyString => BodyBytes EmptyString
  | BodyStr EmptyString => BodyBytes EmptyString
  | _ => b
  end.

(** [body if isinstance(body, bytes) else body.encode('utf-8')] *)
Definition body_bytes (b : req_body) : string :=
  match body_or_empty b with
  | BodyNone => EmptyString
  | BodyBytes x => x
  | BodyStr s => s
  end.

Section Signer.

(** [hashlib.sha256(b).hexdigest()] and [hmac.new(key, msg,
    hashlib.sha256).digest()], taken as given. *)
Variable sha256_hexdigest : string -> string.
Variable hmac_sha256 : string -> string -> string.

(** [_sign(key, message)] *)
Definition _sign (key message : string) : string :=
  hmac_sha256 key message.

(** [_get_signature_key(key, date_stamp, region_name, service_name)] *)
Definition _get_signature_key (key date_stamp region_name service_name : string)
  : string :=
  let k_date := _sign ("AWS4" ++ key) date_stamp in
  let k_region := _sign k_date region_name in
  let k_service := _sign k_region service_name in
  let k_signing := _sign k_service "aws4_request" in
  k_signing.

(** The body of [_EC2RequestAuth.__call__] up to the new headers; [t] is
    the value of [datetime.datetime.now(datetime.UTC)]. *)
Definition sign_request (self : EC2RequestAuth) (t : datetime)
  (r : prepared_request) : pyres signing :=
  (amzdate <- strftime_res (amzdate_of t) ;;
   datestamp <- strftime_res (datestamp_of t) ;;
   let url := urlparse (r_url r) in
   let host := netloc url in
   let headers := ci_set "Host" host (ci_set "X-Amz-Date" amzdate (r_headers r)) in
   let canonical_uri := if (path url =? "")%string then "/" else path url in
   let canonical_querystring := "" in
   let signed_headers_list := sorted ["host"; "x-amz-date"] in
   let signed_headers_str := String.concat ";" signed_headers_list in
   canonical_headers <- canonical_headers_of headers signed_headers_list ;;
   let body_hash := sha256_hexdigest (body_bytes (r_body r)) in
   let canonical_request :=
     String.concat nl [r_method r; canonical_uri; canonical_querystring;
                       canonical_headers; signed_headers_str; body_hash] in
   let credential_scope :=
     datestamp ++ "/" ++ auth_region self ++ "/" ++ auth_service self
       ++ "/aws4_request" in
   let string_to_sign :=
     String.concat nl [auth_algorithm self; amzdate; credential_scope;
                       sha256_hexdigest canonical_request] in
   let signing_key :=
     _get_signature_key (auth_secret_key self) datestamp
       (auth_region self) (auth_service self) in
   let signature := hex (hmac_sha256 signing_key string_to_sign) in
   let authorization_header :=
     auth_algorithm self ++ " Credential=" ++ auth_access_key self ++ "/"
       ++ credential_scope ++ ", " ++ "SignedHeaders=" ++ signed_headers_str
       ++ ", Signature=" ++ signature in
   Ok {| sg_amzdate := amzdate;
         sg_datestamp := datestamp;
         sg_canonical_uri := canonical_uri;
         sg_canonical_querystring := canonical_querystring;
         sg_signed_headers_str := signed_headers_str;
         sg_canonical_headers := canonical_headers;
         sg_body_hash := body_hash;
         sg_canonical_request := canonical_request;
         sg_credential_scope := credential_scope;
         sg_string_to_sign := string_to_sign;
         sg_signing_key := signing_key;
         sg_signature := signature;
         sg_authorization_header := authorization_header;
         sg_headers := ci_set "Authorization" authorization_header headers |})%py.

(** [_EC2RequestAuth.__call__(self, r)]: the request with its headers
    replaced. *)
Definition EC2RequestAuth_call (self : EC2RequestAuth) (t : datetime)
  (r : prepared_request) : pyres prepared_request :=
  (sg <- sign_request self t r ;;
   Ok {| r_method := r_method r;
         r_url := r_url r;
         r_headers := sg_headers sg;
         r_body := r_body r |})%py.

End Signer.

(* ===================================================================== *)
(** * Report aggregation                                                  *)
(* ===================================================================== *)

(** ["vms_by_status"] *)
Record status_counts : Type := {
  running : Z;
  stopped : Z;
  other : Z
}.

(** ["total_provisioned"]; the memory entry is spelled ["memory_gb"] in
    the overall totals and ["ram_gb"] in a zone. *)
Record provisioned : Type := {
  cpu_cores : pynum;
  prov_memory_gb : pynum;
  disk_tb : pynum
}.

(** ["total_used"]; the memory entry is spelled ["memory_gb"] in the
    overall totals and ["ram_gb"] in a zone. *)
Record used : Type := {
  cpu_mhz : pynum;
  used_memory_gb : pynum;
  disk_gb : pynum
}.

Record totals : Type := {
  total_vms : Z;
  vms_by_status : status_counts;
  total_provisioned : provisioned;
  total_used : used
}.

Definition zero_totals : totals :=
  {| total_vms := 0;
     vms_by_status := {| running := 0; stopped := 0; other := 0 |};
     total_provisioned :=
       {| cpu_cores := NInt 0; prov_memory_gb := NFloat 0; disk_tb := NFloat 0 |};
     total_used :=
       {| cpu_mhz := NFloat 0; used_memory_gb := NFloat 0; disk_gb := NFloat 0 |} |}.

(** [report['by_availability_zone']]: a dict keyed by the zone names, in
    insertion order. *)
Definition zones_t : Type := list (pyval * totals).

Record report : Type := {
  report_generated_at : string;
  overall_totals : totals;
  by_availability_zone : zones_t
}.

(** What [generate_infrastructure_report] returns: the error dict or the
    report. *)
Inductive report_result : Type :=
| NoVMsFound
| Report (r : report).

(** A list or a dict cannot be a dict key. *)
Definition hashable (v : pyval) : bool :=
  match v with
  | PList _ | PDict _ => false
  | _ => true
  end.

(** [a == b] on hashable values, as a dict lookup compares keys. *)
Definition key_eq (a b : pyval) : bool :=
  match a, b with
  | PStr s, PStr t => (s =? t)%string
  | PNone, PNone => true
  | _, _ =>
      match as_num a, as_num b with
      | Some x, Some y => num_eq x y
      | _, _ => false
      end
  end.

Fixpoint zone_find (k : pyval) (z : zones_t) : option totals :=
  match z with
  | [] => None
  | (k', t) :: rest => if key_eq k' k then Some t else zone_find k rest
  end.

(** [z[k] = t]: an existing key keeps its place. *)
Fixpoint zone_set (k : pyval) (t : totals) (z : zones_t) : zones_t :=
  match z with
  | [] => [(k, t)]
  | (k', t') :: rest =>
      if key_eq k' k then (k', t) :: rest else (k', t') :: zone_set k t rest
  end.

(** [k in z]; hashing an unhashable [k] raises [TypeError]. *)
Definition zone_contains (k : pyval) (z : zones_t) : pyres bool :=
  if hashable k
  then Ok (match zone_find k z with Some _ => true | None => false end)
  else Err TypeError.

(** The loop over [az_list] that creates the zone entries. *)
Fixpoint init_zones (azs : list pyval) (z : zones_t) : pyres zones_t :=
  match azs with
  | [] => Ok z
  | az :: rest =>
      (az_name <- py_get az "name" PNone ;;
       if truthy az_name then
         if hashable az_name then init_zones rest (zone_set az_name zero_totals z)
         else Err TypeError
       else init_zones rest z)%py
  end.

Inductive status_bucket : Type :=
| Running
| Stopped
| Other.

(** [status = vm.get('status', 'other')], then ['other'] unless it is
    ['running'] or ['stopped']. *)
Definition bucket_of (status : pyval) : status_bucket :=
  match status with
  | PStr s =>
      if (s =? "running")%string then Running
      else if (s =? "stopped")%string then Stopped
      else Other
  | _ => Other
  end.

(** [t['total_vms'] += 1; t['vms_by_status'][status] += 1] *)
Definition count_vm (b : status_bucket) (t : totals) : totals :=
  let c := vms_by_status t in
  {| total_vms := total_vms t + 1;
     vms_by_status :=
       match b with
       | Running => {| running := running c + 1; stopped := stopped c; other := other c |}
       | Stopped => {| running := running c; stopped := stopped c + 1; other := other c |}
       | Other => {| running := running c; stopped := stopped c; other := other c + 1 |}
       end;
     total_provisioned := total_provisioned t;
     total_used := total_used t |}.

(** The sum of the numbers when they are all ints. *)
Fixpoint int_sum (xs : list pynum) : option Z :=
  match xs with
  | [] => Some 0
  | NInt z :: rest => option_map (Z.add z) (int_sum rest)
  | NFloat _ :: _ => None
  end.

(** The values [disk.get('size_mb', 0.0)] that the generator hands to
    [sum] before it ends or an exception ends the sum: the numbers, and
    that exception, if any: the [AttributeError] of a disk that is not an
    object, or the [TypeError] of a size that is not a number. *)
Fixpoint disk_sizes (disks : list pyval) : list pynum * option pyexc :=
  match disks with
  | [] => ([], None)
  | disk :: rest =>
      match py_get disk "size_mb" (PFloat 0) with
      | Err e => ([], Some e)
      | Ok size =>
          match as_num size with
          | None => ([], Some TypeError)
          | Some x => let (xs, e) := disk_sizes rest in (x :: xs, e)
          end
      end
  end.

Section Report.

(** [sum(xs)] for numbers of which at least one is a float, taken as
    given: the float arithmetic of the built-in [sum] is not the same in
    every version of Python (from 3.12 on it compensates the rounding
    errors of the additions). *)
Variable sum_with_float : list pynum -> pyres pynum.

(** [sum(xs)], from the int 0: exact on ints. *)
Definition py_sum (xs : list pynum) : pyres pynum :=
  match int_sum xs with
  | Some z => Ok (NInt z)
  | None => sum_with_float xs
  end.

(** [sum(disk.get('size_mb', 0.0) for disk in disks)].  The generator is
    consumed as the sum goes on, so an exception of the sum of the values
    before a bad disk comes before the exception of that disk. *)
Definition sum_size_mb (disks : list pyval) : pyres pynum :=
  let (xs, e) := disk_sizes disks in
  match e with
  | None => py_sum xs
  | Some e => match py_sum xs with
              | Err e' => Err e'
              | Ok _ => Err e
              end
  end.

(** The three [total_provisioned] updates of one VM, in source order. *)
Definition add_provisioned (cores memory_mb : pyval) (total_disk_mb : pynum)
  (t : totals) : pyres totals :=
  let p := total_provisioned t in
  (c <- py_add_val (cpu_cores p) cores ;;
   mem_gb <- py_truediv memory_mb 1024 ;;
   m <- py_add (prov_memory_gb p) mem_gb ;;
   dsk_tb <- num_truediv total_disk_mb (1024 * 1024) ;;
   d <- py_add (disk_tb p) dsk_tb ;;
   Ok {| total_vms := total_vms t;
         vms_by_status := vms_by_status t;
         total_provisioned := {| cpu_cores := c; prov_memory_gb := m; disk_tb := d |};
         total_used := total_used t |})%py.

Definition set_used (u : used) (t : totals) : totals :=
  {| total_vms := total_vms t;
     vms_by_status := vms_by_status t;
     total_provisioned := total_provisioned t;
     total_used := u |}.

(** [t['total_used']['cpu_mhz'] += used_mhz] *)
Definition add_used_cpu (used_mhz : pyval) (t : totals) : pyres totals :=
  let u := total_used t in
  (x <- py_add_val (cpu_mhz u) used_mhz ;;
   Ok (set_used {| cpu_mhz := x; used_memory_gb := used_memory_gb u;
                   disk_gb := disk_gb u |} t))%py.

(** [t['total_used'][memory] += used_mem_mb / 1024] *)
Definition add_used_memory (used_mem_mb : pyval) (t : totals) : pyres totals :=
  let u := total_used t in
  (g <- py_truediv used_mem_mb 1024 ;;
   x <- py_add (used_memory_gb u) g ;;
   Ok (set_used {| cpu_mhz := cpu_mhz u; used_memory_gb := x;
                   disk_gb := disk_gb u |} t))%py.

(** [t['total_used']['disk_gb'] += used_disk_mb / 1024] *)
Definition add_used_disk (used_disk_mb : pyval) (t : totals) : pyres totals :=
  let u := total_used t in
  (g <- py_truediv used_disk_mb 1024 ;;
   x <- py_add (disk_gb u) g ;;
   Ok (set_used {| cpu_mhz := cpu_mhz u; used_memory_gb := used_memory_gb u;
                   disk_gb := x |} t))%py.

(** One of the three "used" blocks: when [vm.get(field)] is truthy, read
    [key] from it (default [0.0]) and add it to the overall totals, then to
    the zone's. *)
Definition add_used_block (vm : pyval) (field key : string)
  (add : pyval -> totals -> pyres totals) (o a : totals)
  : pyres (totals * totals) :=
  (st <- py_get vm field PNone ;;
   if truthy st then
     v <- py_get st key (PFloat 0) ;;
     o' <- add v o ;;
     a' <- add v a ;;
     Ok (o', a')
   else Ok (o, a))%py.

(** The running state of the report loop. *)
Record report_acc : Type := {
  acc_overall : totals;
  acc_zones : zones_t
}.


(** One iteration of [for vm in all_vms]. *)
Definition account_vm (rep : report_acc) (vm : pyval) : pyres report_acc :=
  (az_name <- py_get vm "az_name" PNone ;;
   if negb (truthy az_name) then Ok rep else
   present <- zone_contains az_name (acc_zones rep) ;;
   if negb present then Ok rep else
   status <- py_get vm "status" (PStr "other") ;;
   let b := bucket_of status in
   let o1 := count_vm b (acc_overall rep) in
   cores <- py_get vm "cores" (PInt 0) ;;
   memory_mb <- py_get vm "memory_mb" (PFloat 0) ;;
   disks <- py_get vm "disks" (PList []) ;;
   disk_items <- py_iter disks ;;
   total_disk_mb <- sum_size_mb disk_items ;;
   o2 <- add_provisioned cores memory_mb total_disk_mb o1 ;;
   let az_report :=
     match zone_find az_name (acc_zones rep) with
     | Some t => t
     | None => zero_totals
     end in
   let a1 := count_vm b az_report in
   a2 <- add_provisioned cores memory_mb total_disk_mb a1 ;;
   oa3 <- add_used_block vm "cpu_status" "used_mhz" add_used_cpu o2 a2 ;;
   oa4 <- add_used_block vm "memory_status" "used_mb" add_used_memory (fst oa3) (snd oa3) ;;
   oa5 <- add_used_block vm "storage_status" "used_mb" add_used_disk (fst oa4) (snd oa4) ;;
   Ok {| acc_overall := fst oa5;
         acc_zones := zone_set az_name (snd oa5) (acc_zones rep) |})%py.

Fixpoint account_vms (rep : report_acc) (vms : list pyval) : pyres report_acc :=
  match vms with
  | [] => Ok rep
  | vm :: rest => (rep' <- account_vm rep vm ;; account_vms rep' rest)%py
  end.

(** The final pass: every entry of [total_provisioned] and [total_used]
    becomes [round(value, 2)]. *)
Definition round_totals (t : totals) : totals :=
  let p := total_provisioned t in
  let u := total_used t in
  {| total_vms := total_vms t;
     vms_by_status := vms_by_status t;
     total_provisioned :=
       {| cpu_cores := py_round2 (cpu_cores p);
          prov_memory_gb := py_round2 (prov_memory_gb p);
          disk_tb := py_round2 (disk_tb p) |};
     total_used :=
       {| cpu_mhz := py_round2 (cpu_mhz u);
          used_memory_gb := py_round2 (used_memory_gb u);
          disk_gb := py_round2 (disk_gb u) |} |}.

(** [if az_list: for az in az_list: ...]: the zone entries of a fresh
    report. *)
Definition report_zones (az_list : pyval) : pyres zones_t :=
  if truthy az_list
  then (azs <- py_iter az_list ;; init_zones azs [])%py
  else Ok [].

(** [generate_infrastructure_report] from the line that builds [report]
    on, for a non-empty [all_vms]; [now_iso] is
    [datetime.datetime.now().isoformat()]. *)
Definition build_report (now_iso : string) (all_vms : list pyval)
  (az_list : pyval) : pyres report :=
  (zones <- report_zones az_list ;;
   acc <- account_vms {| acc_overall := zero_totals; acc_zones := zones |} all_vms ;;
   Ok {| report_generated_at := now_iso;
         overall_totals := round_totals (acc_overall acc);
         by_availability_zone :=
           map (fun kt => (fst kt, round_totals (snd kt))) (acc_zones acc) |})%py.

End Report.

(** [az_list = az_response.get('data', {}).get('data', []) if az_response
    else []] *)
Definition az_list_of (az_response : pyval) : pyres pyval :=
  if truthy az_response
  then (d <- py_get az_response "data" (PDict []) ;; py_get d "data" (PList []))%py
  else Ok (PList []).

(* ===================================================================== *)
(** * [int(x)]                                                            *)
(* ===================================================================== *)

(** The whitespace that [int] strips from both ends of an ASCII string:
    tab, line feed, vertical tab, form feed, carriage return and space. *)
Definition is_space (c : ascii) : bool :=
  let n := nat_of_ascii c in
  ((9 <=? n)%nat && (n <=? 13)%nat) || (n =? 32)%nat.

Fixpoint lstrip (l : list ascii) : list ascii :=
  match l with
  | c :: r => if is_space c then lstrip r else l
  | [] => []
  end.

Definition strip (l : list ascii) : list ascii :=
  rev (lstrip (rev (lstrip l))).

(** Decimal digits with single underscores between them; [prev] says that
    the previous character was a digit. *)
Fixpoint parse_digits (acc : Z) (prev : bool) (l : list ascii) : option Z :=
  match l with
  | [] => if prev then Some acc else None
  | c :: r =>
      if is_digit c
      then parse_digits (acc * 10 + Z.of_nat (nat_of_ascii c - 48)) true r
      else if Ascii.eqb c "_" then (if prev then parse_digits acc false r else None)
      else None
  end.

(** [sys.get_int_max_str_digits()] *)
Definition int_max_str_digits : nat := 4300.

(** [int(s)] on a string of ASCII characters, base 10. *)
Definition int_of_ascii (s : string) : pyres Z :=
  let body := strip (list_ascii_of_string s) in
  let (neg, ds) :=
    match body with
    | c :: r =>
        if Ascii.eqb c "-" then (true, r)
        else if Ascii.eqb c "+" then (false, r)
        else (false, body)
    | [] => (false, body)
    end in
  if (int_max_str_digits <? List.length (filter is_digit ds))%nat then Err ValueError
  else match parse_digits 0 false ds with
       | Some z => Ok (if neg then - z else z)
       | None => Err ValueError
       end.

(** Whether every character of the string is an ASCII character. *)
Definition is_ascii (s : string) : bool :=
  forallb (fun c => (nat_of_ascii c <? 128)%nat) (list_ascii_of_string s).

Section Int.

(** [int(s)] for a string that holds a character outside ASCII, where the
    spaces and decimal digits of Unicode count too, taken as given. *)
Variable int_of_text : string -> pyres Z.

(** [int(s)] on a string, base 10. *)
Definition int_of_str (s : string) : pyres Z :=
  if is_ascii s then int_of_ascii s else int_of_text s.

(** [int(v)] for a JSON value. *)
Definition py_int (v : pyval) : pyres Z :=
  match v with
  | PBool b => Ok (if b then 1 else 0)
  | PInt z => Ok z
  | PFloat f => int_of_float f
  | PStr s => int_of_str s
  | _ => Err TypeError
  end.

End Int.

(* ===================================================================== *)
(** * API client                                                          *)
(* ===================================================================== *)

(** One call of [session.request]: what is put on the wire. *)
Record request : Type := {
  rq_method : string;
  rq_url : string;
  rq_params : option (list (string * pyval));
  rq_json : option pyval
}.

(** What the transport does with a request: [session.request] raises a
    [RequestException] (connection failure), or a response arrives with a
    status code and a body; [resp_json] is the decoded body, [None] when
    the text is not JSON. *)
Inductive http_result : Type :=
| TransportFailure
| HttpResponse (status_code : Z) (resp_json : option pyval).

(** The [SangforSDKClient] object.  [session.auth] is the signer. *)
Record SangforSDKClient : Type := {
  access_key : string;
  secret_key : string;
  region : string;
  service : string;
  base_url : string;
  verbose : bool;
  session_auth : EC2RequestAuth;
  _all_vms_cache : option (list pyval)
}.

(** [s.rstrip('/')] *)
Fixpoint rstrip_slash (s : string) : string :=
  match s with
  | EmptyString => EmptyString
  | String c r =>
      match rstrip_slash r with
      | EmptyString => if Ascii.eqb c "/" then EmptyString else String c EmptyString
      | r' => String c r'
      end
  end.

(** [SangforSDKClient.__init__] *)
Definition SangforSDKClient_init (access_key secret_key region service
  base_url : string) (verbose : bool) : SangforSDKClient :=
  {| access_key := access_key;
     secret_key := secret_key;
     region := region;
     service := service;
     base_url := rstrip_slash base_url;
     verbose := verbose;
     session_auth := EC2RequestAuth_init access_key secret_key region service;
     _all_vms_cache := None |}.

Definition set_cache (c : option (list pyval)) (self : SangforSDKClient)
  : SangforSDKClient :=
  {| access_key := access_key self;
     secret_key := secret_key self;
     region := region self;
     service := service self;
     base_url := base_url self;
     verbose := verbose self;
     session_auth := session_auth self;
     _all_vms_cache := c |}.

(** The client together with the requests issued so far, oldest first. *)
Record state : Type := {
  client : SangforSDKClient;
  sent : list request
}.

(** The state after one more request has been issued. *)
Definition log_request (rq : request) (st : state) : state :=
  {| client := client st; sent := (sent st ++ [rq])%list |}.

(** A method call ends by returning, by raising, or (for the pagination
    loop run with a bound on its iterations) by exhausting the bound. *)
Inductive outcome (A : Type) : Type :=
| Returns (a : A) (st : state)
| Raises (e : pyexc) (st : state)
| OutOfFuel.
Arguments Returns {A} a st.
Arguments Raises {A} e st.
Arguments OutOfFuel {A}.

Definition M (A : Type) : Type := state -> outcome A.

Definition ret {A : Type} (a : A) : M A := fun st => Returns a st.

Definition raise {A : Type} (e : pyexc) : M A := fun st => Raises e st.

Definition bind {A B : Type} (c : M A) (k : A -> M B) : M B :=
  fun st =>
    match c st with
    | Returns a st' => k a st'
    | Raises e st' => Raises e st'
    | OutOfFuel => OutOfFuel
    end.

Definition lift {A : Type} (c : pyres A) : M A :=
  match c with
  | Ok a => ret a
  | Err e => raise e
  end.

Declare Scope client_scope.
Delimit Scope client_scope with client.
Notation "x <- c ;; k" := (bind c (fun x => k))
  (at level 61, c at next level, right associativity) : client_scope.
Notation "c ;; k" := (bind c (fun _ => k))
  (at level 61, right associativity) : client_scope.

(** [raise_for_status] raises [HTTPError] for these codes. *)
Definition is_http_error (status_code : Z) : bool :=
  (400 <=? status_code) && (status_code <? 600).

Section Client.

(** The transport: the outcome of a request, given the requests already
    issued. *)
Variable transport : list request -> request -> http_result.

(** [int(s)] for a string that holds a character outside ASCII, taken as
    given. *)
Variable int_of_text : string -> pyres Z.

(** [sum(xs)] for numbers of which at least one is a float, taken as
    given. *)
Variable sum_with_float : list pynum -> pyres pynum.

(** [str(v)] for a float, a list or a dict, taken as given. *)
Variable str_other : pyval -> string.

(** [f"{v}"] *)
Definition py_str (v : pyval) : string :=
  match v with
  | PNone => "None"
  | PBool true => "True"
  | PBool false => "False"
  | PInt z => str_of_int z
  | PStr s => s
  | _ => str_other v
  end.

(** [send_request(self, method, path, params=None, json_data=None)].
    The [HTTPError] handler returns [e.response.json()], a call made
    inside the handler: when it raises, no other [except] clause of the
    statement applies. *)
Definition send_request (method path : string)
  (params : option (list (string * pyval))) (json_data : option pyval) : M pyval :=
  fun st =>
    let full_url := base_url (client st) ++ path in
    let rq := {| rq_method := method; rq_url := full_url;
                 rq_params := params; rq_json := json_data |} in
    let st' := log_request rq st in
    match transport (sent st) rq with
    | TransportFailure => Returns PNone st'
    | HttpResponse status_code body =>
        if is_http_error status_code then
          match body with
          | Some v => Returns v st'
          | None => Raises JSONDecodeError st'
          end
        else
          match body with
          | Some v => Returns v st'
          | None => Returns PNone st'
          end
    end.

(** [get_availability_zones(self)] *)
Definition get_availability_zones : M pyval :=
  let path := "/janus/20190725/azs" in
  send_request "GET" path None None.

(** [get_vms(self, page_num=None, page_size=None)] *)
Definition get_vms (page_num page_size : pyval) : M pyval :=
  let path := "/janus/20190725/servers" in
  let params : list (string * pyval) := [] in
  let params :=
    match page_num with
    | PNone => params
    | _ => (params ++ [("page_num", page_num)])%list
    end in
  let params :=
    if truthy page_size then (params ++ [("page_size", page_size)])%list else params in
  send_request "GET" path (Some params) None.

Definition PAGE_SIZE : Z := 100.

(** The [while True] loop of [get_all_vms], run for at most [fuel]
    iterations. *)
Fixpoint scan_pages (fuel : nat) (all_vms : list pyval) (current_page : Z)
  : M (list pyval) :=
  match fuel with
  | O => fun _ => OutOfFuel
  | S fuel' =>
      (response <- get_vms (PInt current_page) (PInt PAGE_SIZE) ;;
       if negb (truthy response) then ret all_vms else
       data <- lift (py_get response "data" PNone) ;;
       if negb (truthy data) then ret all_vms else
       inner <- lift (py_get data "data" PNone) ;;
       match inner with
       | PList vms_on_this_page =>
           let all_vms' := (all_vms ++ vms_on_this_page)%list in
           next_page_info <- lift (py_get data "next_page_num" PNone) ;;
           if negb (truthy next_page_info) || negb (truthy (PList vms_on_this_page))
           then ret all_vms'
           else
             next <- lift (py_int int_of_text next_page_info) ;;
             scan_pages fuel' all_vms' next
       | _ => ret all_vms
       end)%client
  end.

(** [self._all_vms_cache = all_vms] *)
Definition store_cache (all_vms : list pyval) : M unit :=
  fun st =>
    Returns tt {| client := set_cache (Some all_vms) (client st); sent := sent st |}.

(** [get_all_vms(self, use_cache=True)] *)
Definition get_all_vms (fuel : nat) (use_cache : bool) : M (list pyval) :=
  fun st =>
    match use_cache, _all_vms_cache (client st) with
    | true, Some cached => Returns cached st
    | _, _ =>
        (all_vms <- scan_pages fuel [] 0 ;;
         store_cache all_vms ;;
         ret all_vms)%client st
    end.

(** [get_vm_details(self, vm_id)] *)
Definition get_vm_details (vm_id : pyval) : M pyval :=
  if negb (truthy vm_id) then raise ValueError
  else
    let path := "/janus/20190725/servers/" ++ py_str vm_id in
    send_request "GET" path None None.

(** [next((vm for vm in vm_list if vm.get('name') == identifier), None)] *)
Fixpoint first_named (identifier : string) (vm_list : list pyval) : pyres pyval :=
  match vm_list with
  | [] => Ok PNone
  | vm :: rest =>
      (name <- py_get vm "name" PNone ;;
       match name with
       | PStr s => if (s =? identifier)%string then Ok vm else first_named identifier rest
       | _ => first_named identifier rest
       end)%py
  end.

(** [find_vm(self, identifier)] *)
Definition find_vm (fuel : nat) (identifier : string) : M pyval :=
  let is_uuid := (List.length (split_all "-" identifier) =? 5)%nat in
  if is_uuid then get_vm_details (PStr identifier)
  else
    (vm_list <- get_all_vms fuel true ;;
     target_vm <- lift (first_named identifier vm_list) ;;
     if truthy target_vm then
       vm_id <- lift (py_get target_vm "id" PNone) ;;
       get_vm_details vm_id
     else ret PNone)%client.

(** [get_vm_snapshots(self, vm_id)] *)
Definition get_vm_snapshots (vm_id : pyval) : M pyval :=
  if negb (truthy vm_id) then raise ValueError
  else
    let path := "/janus/20190725/servers/" ++ py_str vm_id ++ "/snapshots" in
    send_request "GET" path None None.

(** [get_vm_backups(self, vm_id)] *)
Definition get_vm_backups (vm_id : pyval) : M pyval :=
  if negb (truthy vm_id) then raise ValueError
  else
    let path := "/janus/20190725/servers/" ++ py_str vm_id ++ "/backups" in
    send_request "GET" path None None.

(** [generate_infrastructure_report(self)] *)
Definition generate_infrastructure_report (fuel : nat) (now_iso : string)
  : M report_result :=
  (all_vms <- get_all_vms fuel false ;;
   az_response <- get_availability_zones ;;
   az_list <- lift (az_list_of az_response) ;;
   match all_vms with
   | [] => ret NoVMsFound
   | _ :: _ =>
       r <- lift (build_report sum_with_float now_iso all_vms az_list) ;;
       ret (Report r)
   end)%client.

End Client.

(* ===================================================================== *)
(** * Scenarios                                                           *)
(* ===================================================================== *)

(** The request [get_all_vms] issues for page [p]. *)
Definition page_request (base : string) (p : Z) : request :=
  {| rq_method := "GET";
     rq_url := base ++ "/janus/20190725/servers";
     rq_params := Some [("page_num", PInt p); ("page_size", PInt 100)];
     rq_json := None |}.

(** The single request of a per-VM lookup. *)
Definition get_request (base path : string) : request :=
  {| rq_method := "GET"; rq_url := base ++ path;
     rq_params := None; rq_json := None |}.

(** A well-formed page: [{"data": {"data": records, "next_page_num": n}}],
    the token left out when there is none. *)
Definition page_response (records : list pyval) (next : option Z) : pyval :=
  PDict [("data",
          PDict (("data", PList records)
                 :: match next with
                    | Some n => [("next_page_num", PInt n)]
                    | None => []
                    end))].

(** The VM record number [i]. *)
Definition vm_record (i : nat) : pyval :=
  PDict [("id", PStr ("id-" ++ str_of_int (Z.of_nat i)));
         ("name", PStr ("vm-" ++ str_of_int (Z.of_nat i)))].

(** [count] VM records numbered from [start]. *)
Definition vm_records (start count : nat) : list pyval :=
  map vm_record (seq start count).

(** A backend that serves page [p] from a table and answers 404 with an
    empty object to anything else. *)
Definition paged_transport (pages : list (list pyval * option Z))
  : list request -> request -> http_result :=
  fun _ rq =>
    match rq_params rq with
    | Some ps =>
        match dict_get ps "page_num" with
        | Some (PInt p) =>
            match nth_error pages (Z.to_nat p) with
            | Some (records, next) => HttpResponse 200 (Some (page_response records next))
            | None => HttpResponse 404 (Some (PDict []))
            end
        | _ => HttpResponse 404 (Some (PDict []))
        end
    | None => HttpResponse 404 (Some (PDict []))
    end.

(** Pages of sizes 100, 100, 37 and 0, the first three with a token. *)
Definition four_pages : list (list pyval * option Z) :=
  [(vm_records 0 100, Some 1);
   (vm_records 100 100, Some 2);
   (vm_records 200 37, Some 3);
   ([], None)].

Definition fresh_client : SangforSDKClient :=
  SangforSDKClient_init "AK" "SK" "region" "service" "https://scp.example/" false.

Definition fresh_state : state := {| client := fresh_client; sent := [] |}.

(** A VM that has only a zone and a memory size. *)
Definition vm_with_memory (zone : string) (memory_mb : Z) : pyval :=
  PDict [("az_name", PStr zone); ("memory_mb", PInt memory_mb)].

(** The zone list [[{"name": zone}]]. *)
Definition one_zone (zone : string) : pyval :=
  PList [PDict [("name", PStr zone)]].

Definition three_vms : list pyval :=
  [vm_with_memory "az1" 1536; vm_with_memory "az1" 2048; vm_with_memory "az1" 513].

(* ===================================================================== *)
(** * Vocabulary of the statements                                        *)
(* ===================================================================== *)

(** The URL of a prepared request: [u] up to the end of the path, then the
    encoded query string, when there is one, after a [?]. *)
Definition with_query (u : string) (q : option string) : string :=
  match q with
  | Some s => u ++ String "?" s
  | None => u
  end.

(** The responses at which the guard of the pagination loop,
    [if not (response and response.get('data') and
    isinstance(response['data'].get('data'), list)): break], breaks the
    loop: a falsy response ([None] among them), an object without a truthy
    ["data"], or an object whose ["data"] is an object whose ["data"] is
    not a list.  A truthy response that is not an object, and a truthy
    ["data"] that is not an object, are not among them: there [.get]
    raises. *)
Definition guard_stops (response : pyval) : bool :=
  match response with
  | PDict d =>
      match dict_get d "data" with
      | Some (PDict d2) =>
          match dict_get d2 "data" with
          | Some (PList _) => false
          | _ => true
          end
      | Some v => negb (truthy v)
      | None => true
      end
  | v => negb (truthy v)
  end.

(** The records and the next-page token of a well-formed page. *)
Definition page_of (response : pyval) : option (list pyval * pyval) :=
  match response with
  | PDict d =>
      match dict_get d "data" with
      | Some (PDict d2) =>
          match dict_get d2 "data" with
          | Some (PList vms) =>
              Some (vms, match dict_get d2 "next_page_num" with
                         | Some n => n
                         | None => PNone
                         end)
          | _ => None
          end
      | _ => None
      end
  | _ => None
  end.

(** A VM record the report leaves out: its [az_name] is absent or falsy,
    or is a key that the zone table does not hold. *)
Definition zone_excluded (zones : zones_t) (vm : pyval) : bool :=
  match vm with
  | PDict d =>
      match dict_get d "az_name" with
      | None => true
      | Some a =>
          negb (truthy a)
          || (hashable a
              && match zone_find a zones with
                 | None => true
                 | Some _ => false
                 end)
      end
  | _ => false
  end.

(** The name of a VM record, when it is a string. *)
Definition has_name (identifier : string) (vm : pyval) : bool :=
  match vm with
  | PDict d =>
      match dict_get d "name" with
      | Some (PStr s) => (s =? identifier)%string
      | _ => false
      end
  | _ => false
  end.

(** [vm.get('id')] of a VM record. *)
Definition vm_id_of (vm : pyval) : pyval :=
  match vm with
  | PDict d =>
      match dict_get d "id" with
      | Some v => v
      | None => PNone
      end
  | _ => PNone
  end.

(** What an uncached [get_all_vms] does: the loop from page 0 with nothing
    accumulated, then the store into the cache. *)
Definition full_scan (transport : list request -> request -> http_result)
  (int_of_text : string -> pyres Z)
  (fuel : nat) : M (list pyval) :=
  (all_vms <- scan_pages transport int_of_text fuel [] 0 ;;
   store_cache all_vms ;;
   ret all_vms)%client.

(** What [find_vm] does with the VM list once it has it: the first record
    whose name is [identifier], then the detail lookup with its [id], or
    [None] when there is no such record. *)
Definition lookup_by_name (transport : list request -> request -> http_result)
  (str_other : pyval -> string) (identifier : string) (vm_list : list pyval)
  : M pyval :=
  (target_vm <- lift (first_named identifier vm_list) ;;
   if truthy target_vm then
     vm_id <- lift (py_get target_vm "id" PNone) ;;
     get_vm_details transport str_other vm_id
   else ret PNone)%client.

(** A transport on which every request fails to connect. *)
Definition dead_transport : list request -> request -> http_result :=
  fun _ _ => TransportFailure.

(** A transport that answers every request with status 200 and the JSON
    array [[1]]. *)
Definition array_transport : list request -> request -> http_result :=
  fun _ _ => HttpResponse 200 (Some (PList [PInt 1])).

(** A transport that answers every request with status 500 and a body
    that is not JSON. *)
Definition plain_500_transport : list request -> request -> http_result :=
  fun _ _ => HttpResponse 500 None.

(** A backend whose page 0 holds two records and the token 1, and which
    answers every other request with the object [{"data": "oops"}]. *)
Definition oops_transport : list request -> request -> http_result :=
  fun _ rq =>
    match rq_params rq with
    | Some ps =>
        match dict_get ps "page_num" with
        | Some (PInt 0) =>
            HttpResponse 200 (Some (page_response (vm_records 0 2) (Some 1)))
        | _ => HttpResponse 200 (Some (PDict [("data", PStr "oops")]))
        end
    | None => HttpResponse 200 (Some (PDict [("data", PStr "oops")]))
    end.

(** A backend that is down for the first request and serves the four
    pages from then on. *)
Definition flaky_transport : list request -> request -> http_result :=
  fun hist rq =>
    match hist with
    | [] => TransportFailure
    | _ :: _ => paged_transport four_pages hist rq
    end.

Definition is_dict (v : pyval) : bool :=
  match v with
  | PDict _ => true
  | _ => false
  end.

(** Four digits of the year, the letter [m], two digits of the day. *)
Definition year_m_day (t : datetime) : string :=
  digits_fixed 4 (year t) ++ "m" ++ digits_fixed 2 (day t).

(** The totals hold [x] as their provisioned memory, an int as their
    core count and a float as their provisioned disk size. *)
Definition memory_is (x : float) (t : totals) : Prop :=
  prov_memory_gb (total_provisioned t) = NFloat x
  /\ (exists c, cpu_cores (total_provisioned t) = NInt c)
  /\ (exists d, disk_tb (total_provisioned t) = NFloat d).

(** The float that Python reads the literal [3.99] as. *)
Definition float_3_99 : float := 0x1.feb851eb851ecp+1%float.

(** [x += used_mhz] *)
Definition plus_mhz (v : pyval) (x : pynum) : pyres pynum := py_add_val x v.

(** [x += used_mb / 1024] *)
Definition plus_gb_of_mb (v : pyval) (x : pynum) : pyres pynum :=
  (g <- py_truediv v 1024 ;; py_add x g)%py.

(** One "used" sum of a VM: when [vm.get(field)] is truthy, [x'] is [x]
    with what the status holds under [key] (default [0.0]) added as [plus]
    adds it; otherwise [x'] is [x]. *)
Definition used_added (vm : pyval) (field key : string)
  (plus : pyval -> pynum -> pyres pynum) (x x' : pynum) : Prop :=
  exists status,
    py_get vm field PNone = Ok status
    /\ if truthy status
       then exists v, py_get status key (PFloat 0) = Ok v /\ plus v x = Ok x'
       else x' = x.

(** The six sums of [t'] are those of [t] with the quantities of the VM
    added, as they are: the cores, [memory_mb / 1024], the sum of the disk
    sizes over [1024 * 1024], and the three "used" quantities. *)
Definition vm_added (sum_with_float : list pynum -> pyres pynum) (vm : pyval)
  (t t' : totals) : Prop :=
  (exists cores,
      py_get vm "cores" (PInt 0) = Ok cores
      /\ py_add_val (cpu_cores (total_provisioned t)) cores
         = Ok (cpu_cores (total_provisioned t')))
  /\ (exists memory_mb g,
         py_get vm "memory_mb" (PFloat 0) = Ok memory_mb
         /\ py_truediv memory_mb 1024 = Ok g
         /\ py_add (prov_memory_gb (total_provisioned t)) g
            = Ok (prov_memory_gb (total_provisioned t')))
  /\ (exists disks disk_items total_disk_mb g,
         py_get vm "disks" (PList []) = Ok disks
         /\ py_iter disks = Ok disk_items
         /\ sum_size_mb sum_with_float disk_items = Ok total_disk_mb
         /\ num_truediv total_disk_mb (1024 * 1024) = Ok g
         /\ py_add (disk_tb (total_provisioned t)) g
            = Ok (disk_tb (total_provisioned t')))
  /\ used_added vm "cpu_status" "used_mhz" plus_mhz
       (cpu_mhz (total_used t)) (cpu_mhz (total_used t'))
  /\ used_added vm "memory_status" "used_mb" plus_gb_of_mb
       (used_memory_gb (total_used t)) (used_memory_gb (total_used t'))
  /\ used_added vm "storage_status" "used_mb" plus_gb_of_mb
       (disk_gb (total_used t)) (disk_gb (total_used t')).

(** One "used" block on one of the two totals it updates. *)
Definition block_step (vm : pyval) (field key : string)
  (add : pyval -> totals -> pyres totals) (t t' : totals) : Prop :=
  exists status,
    py_get vm field PNone = Ok status
    /\ if truthy status
       then exists v, py_get status key (PFloat 0) = Ok v /\ add v t = Ok t'
       else t' = t.

(** The floats that Python reads the literals [0.004] and [0.01] as. *)
Definition float_0_004 : float := 0x1.0624dd2f1a9fcp-8%float.

Definition float_0_01 : float := 0x1.47ae147ae147bp-7%float.

(** A running VM of zone [az1] with two cores, 5 MB of memory and a disk
    of 5242 MB, of which 0.004 MHz, 5 MB of memory and 5 MB of storage are
    in use: each of its five float quantities rounds to 0.0 on its own. *)
Definition small_vm : pyval :=
  PDict [("az_name", PStr "az1"); ("status", PStr "running");
         ("cores", PInt 2); ("memory_mb", PInt 5);
         ("disks", PList [PDict [("size_mb", PInt 5242)]]);
         ("cpu_status", PDict [("used_mhz", PFloat float_0_004)]);
         ("memory_status", PDict [("used_mb", PInt 5)]);
         ("storage_status", PDict [("used_mb", PInt 5)])].

(** The rounded sums of a report of [n] VMs, [c] cores among them, whose
    five float sums are all [x]. *)
Definition sums_are (c : Z) (x : float) (t : totals) : Prop :=
  total_provisioned t
  = {| cpu_cores := NInt c; prov_memory_gb := NFloat x; disk_tb := NFloat x |}
  /\ total_used t
     = {| cpu_mhz := NFloat x; used_memory_gb := NFloat x; disk_gb := NFloat x |}.

(** Stand-ins for the two hash functions, for closed instances of the
    statements about the signer, which hold for every pair of functions. *)
Definition toy_sha256 (b : string) : string := "sha256(" ++ b ++ ")".

Definition toy_hmac (key msg : string) : string := "hmac(" ++ key ++ "," ++ msg ++ ")".

(** The URL of the VM list, without a query string. *)
Definition servers_url : string := "https://scp.example/janus/20190725/servers".

(** A signer and a request for the closed instances. *)
Definition toy_auth : EC2RequestAuth := EC2RequestAuth_init "AK" "SK" "region" "service".

Definition servers_request (q : option string) : prepared_request :=
  {| r_method := "GET"; r_url := with_query servers_url q;
     r_headers := [("Accept", "*/*")]; r_body := BodyNone |}.

(** [str(v)] for floats and containers in the closed instances, where no
    such value is formatted. *)
Definition no_str (v : pyval) : string := "".

(** [int(s)] for strings outside ASCII in the closed instances, where no
    such string is converted. *)
Definition no_int (s : string) : pyres Z := Err ValueError.

(** [sum(xs)] for numbers with a float among them in the closed
    instances, where every disk size is an int: the numbers added from
    left to right. *)
Definition plain_sum (xs : list pynum) : pyres pynum :=
  fold_left (fun acc x => (a <- acc ;; py_add a x)%py) xs (Ok (NInt 0)).

(** A VM of a zone that the zone list does not hold. *)
Definition stray_vm : pyval := vm_with_memory "az9" 4096.

(** The instant 2025-03-07 04:05:06 UTC. *)
Definition march_7 : datetime :=
  {| year := 2025; month := 3; day := 7; hour := 4; minute := 5; second := 6 |}.

(* ===================================================================== *)
(** * Vocabulary of the further properties                                *)
(* ===================================================================== *)

(** The instant 2025-04-07 23:59:59 UTC. *)
Definition april_7 : datetime :=
  {| year := 2025; month := 4; day := 7; hour := 23; minute := 59; second := 59 |}.

(** Every character of [s] may stand in a URL scheme. *)
Fixpoint all_scheme_chars (s : string) : bool :=
  match s with
  | EmptyString => true
  | String c r => is_scheme_char c && all_scheme_chars r
  end.

(** A scheme: not empty, a letter first, scheme characters throughout. *)
Definition is_scheme (s : string) : bool :=
  match s with
  | EmptyString => false
  | String c _ => (is_lower c || is_upper c) && all_scheme_chars s
  end.

(** A host with port: none of the characters that end it. *)
Definition is_authority (s : string) : bool :=
  negb (contains "/" s || contains "?" s || contains "#" s).

(** An API path: empty or starting with a slash, and without the
    characters that start a query string, a fragment or path parameters. *)
Definition is_plain_path (s : string) : bool :=
  match s with
  | EmptyString => true
  | String c _ =>
      Ascii.eqb c "/"
      && negb (contains "?" s || contains "#" s || contains ";" s)
  end.

(** The number of occurrences of [c] in [s]. *)
Fixpoint count_char (c : ascii) (s : string) : nat :=
  match s with
  | EmptyString => O
  | String a r => if Ascii.eqb a c then S (count_char c r) else count_char c r
  end.

(** [k] slashes. *)
Fixpoint slashes (k : nat) : string :=
  match k with
  | O => EmptyString
  | S k' => String "/" (slashes k')
  end.

(** Does [s] end with a slash? *)
Fixpoint ends_with_slash (s : string) : bool :=
  match s with
  | EmptyString => false
  | String c EmptyString => Ascii.eqb c "/"
  | String _ r => ends_with_slash r
  end.

(** The requests for [n] consecutive pages from page [i] on. *)
Definition page_requests (base : string) (i n : nat) : list request :=
  map (fun j => page_request base (Z.of_nat j)) (seq i n).

(** A page table, served from page number [i] on, that the pagination
    loop reads to its end: every page but the last has records and carries
    the number of the page after it, and the last page carries no token. *)
Fixpoint chain_ok (i : nat) (pages : list (list pyval * option Z)) : bool :=
  match pages with
  | [] => false
  | (_, None) :: rest => match rest with [] => true | _ :: _ => false end
  | (records, Some n) :: rest =>
      match records, rest with
      | _ :: _, _ :: _ => (n =? Z.of_nat (S i)) && chain_ok (S i) rest
      | _, _ => false
      end
  end.

(** A transport that answers every request with a page that has records
    and a token that [int] converts. *)
Definition always_more (transport : list request -> request -> http_result)
  (int_of_text : string -> pyres Z)
  : Prop :=
  forall hist rq,
  exists code response vms next n,
    transport hist rq = HttpResponse code (Some response)
    /\ page_of response = Some (vms, next)
    /\ vms <> []
    /\ truthy next = true
    /\ py_int int_of_text next = Ok n.

(** A backend that serves the same one-record page, with the token 1, for
    every request. *)
Definition looping_transport : list request -> request -> http_result :=
  fun _ _ => HttpResponse 200 (Some (page_response [vm_record 0] (Some 1))).

(** The status counts of the totals add up to their VM count. *)
Definition counts_add_up (t : totals) : Prop :=
  total_vms t
  = running (vms_by_status t) + stopped (vms_by_status t) + other (vms_by_status t).

(** The VM count and the status counts are the same in both totals. *)
Definition same_counts (t t' : totals) : Prop :=
  total_vms t' = total_vms t /\ vms_by_status t' = vms_by_status t.

(** The VM counts of all the zones together. *)
Fixpoint zone_vm_sum (z : zones_t) : Z :=
  match z with
  | [] => 0
  | (_, t) :: rest => total_vms t + zone_vm_sum rest
  end.

(** No key of the list equals a later one. *)
Fixpoint keys_distinct (keys : list pyval) : bool :=
  match keys with
  | [] => true
  | k :: rest => forallb (fun k2 => negb (key_eq k k2)) rest && keys_distinct rest
  end.

(** A key a zone entry can have: truthy and hashable. *)
Definition zone_key_ok (k : pyval) : bool := truthy k && hashable k.

(** The VMs of a list that the report counts, given the zone table. *)
Definition counted_vms (zones : zones_t) (vms : list pyval) : list pyval :=
  filter (fun vm => negb (zone_excluded zones vm)) vms.

(** A zone list that names [az1] twice and holds a record without a
    name. *)
Definition zone_list_with_repeat : pyval :=
  PList [PDict [("name", PStr "az1")];
         PDict [("name", PStr "az2")];
         PDict [("name", PStr "az1")];
         PDict [("id", PStr "unnamed")]].

(** Five VM records: two of [az1], one of [az2], one of a zone that the
    list does not name and one without a zone. *)
Definition mixed_vms : list pyval :=
  [PDict [("az_name", PStr "az1"); ("status", PStr "running");
          ("cores", PInt 4); ("memory_mb", PInt 2048);
          ("disks", PList [PDict [("size_mb", PInt 51200)]])];
   PDict [("az_name", PStr "az2"); ("status", PStr "stopped")];
   stray_vm;
   PDict [("az_name", PStr "az1"); ("status", PStr "paused")];
   PDict [("name", PStr "no-zone")]].

(** A VM record named with four hyphens. *)
Definition hyphened_vm : pyval :=
  PDict [("id", PStr "id-7"); ("name", PStr "my-web-server-01-prod")].

(** [vm.get('cores', 0)] when it is an int (a bool is one). *)
Definition int_cores (vm : pyval) : option Z :=
  match vm with
  | PDict d =>
      match dict_get d "cores" with
      | None => Some 0
      | Some v =>
          match as_num v with
          | Some (NInt z) => Some z
          | _ => None
          end
      end
  | _ => None
  end.

(** The sum of the int core counts of a list of VMs. *)
Fixpoint sum_cores (vms : list pyval) : Z :=
  match vms with
  | [] => 0
  | vm :: rest =>
      match int_cores vm with
      | Some z => z + sum_cores rest
      | None => sum_cores rest
      end
  end.

(** A VM of zone [zone] whose [cores] is the string [s]. *)
Definition vm_with_cores_text (zone s : string) : pyval :=
  PDict [("az_name", PStr zone); ("cores", PStr s)].

(** A state whose cache holds [cached]. *)
Definition cached_state (cached : list pyval) : state :=
  {| client := set_cache (Some cached) fresh_client; sent := [] |}.

(* ===================================================================== *)
(** * Properties of the string functions                                  *)
(* ===================================================================== *)

Lemma append_empty_r (s : string) : s ++ "" = s.
Proof.
  induction s as [|c s IH]; simpl; [reflexivity | now rewrite IH].
Qed.

Lemma length_append (a b : string) :
  String.length (a ++ b) = (String.length a + String.length b)%nat.
Proof.
  induction a as [|x a IH]; simpl; [reflexivity | now rewrite IH].
Qed.

Lemma digits_fixed_length (w : nat) (n : Z) :
  String.length (digits_fixed w n) = w.
Proof.
  revert n; induction w as [|w IH]; intro n; simpl.
  - reflexivity.
  - rewrite length_append, IH. simpl. lia.
Qed.

Lemma contains_append (c : ascii) (a b : string) :
  contains c (a ++ b) = contains c a || contains c b.
Proof.
  induction a as [|x a IH]; simpl; [reflexivity |].
  rewrite IH. now rewrite orb_assoc.
Qed.

(** Splitting at a character that the first part does not hold. *)
Lemma split_once_absent (c : ascii) (w : string) :
  contains c w = false -> split_once c w = (w, None).
Proof.
  induction w as [|x w IH]; simpl; intro H; [reflexivity |].
  apply orb_false_iff in H as [Hx Hw].
  rewrite Hx, (IH Hw). reflexivity.
Qed.

Lemma split_once_at (c : ascii) (w x : string) :
  contains c w = false -> split_once c (w ++ String c x) = (w, Some x).
Proof.
  induction w as [|a w IH]; simpl; intro H.
  - now rewrite Ascii.eqb_refl.
  - apply orb_false_iff in H as [Ha Hw].
    rewrite Ha, (IH Hw). reflexivity.
Qed.

Lemma split_once_past (c : ascii) (w s : string) :
  contains c w = false ->
  split_once c (w ++ s) = (w ++ fst (split_once c s), snd (split_once c s)).
Proof.
  induction w as [|a w IH]; simpl; intro H.
  - now destruct (split_once c s).
  - apply orb_false_iff in H as [Ha Hw].
    rewrite Ha, (IH Hw). reflexivity.
Qed.

(** What [take_scheme] returns are the two sides of a [:] of its input. *)
Lemma take_scheme_parts (u a b : string) :
  take_scheme u = Some (a, b) -> u = a ++ String ":" b.
Proof.
  revert a b; induction u as [|c u IH]; simpl; intros a b H; [discriminate |].
  destruct (Ascii.eqb c ":") eqn:Ec.
  - apply Ascii.eqb_eq in Ec. injection H as <- <-. now subst c.
  - destruct (is_scheme_char c); [| discriminate].
    destruct (take_scheme u) as [[a' b'] |]; [| discriminate].
    injection H as <- <-. simpl. now rewrite (IH a' b' eq_refl).
Qed.

(** A [?] ends the scan for a scheme: the text after it plays no part. *)
Lemma take_scheme_query (u q : string) :
  take_scheme (u ++ String "?" q) =
  match take_scheme u with
  | Some (a, b) => Some (a, b ++ String "?" q)
  | None => None
  end.
Proof.
  induction u as [|c u IH]; simpl; [reflexivity |].
  destruct (Ascii.eqb c ":"); [reflexivity |].
  destruct (is_scheme_char c); [| reflexivity].
  rewrite IH. now destruct (take_scheme u) as [[a b] |].
Qed.

Lemma split_scheme_query (u q : string) :
  split_scheme (u ++ String "?" q) =
  (fst (split_scheme u), snd (split_scheme u) ++ String "?" q).
Proof.
  unfold split_scheme. rewrite take_scheme_query.
  destruct (take_scheme u) as [[[|c a] b] |]; simpl; try reflexivity.
  now destruct (is_lower c || is_upper c).
Qed.

(** The rest that [split_scheme] leaves holds no character that the URL
    does not hold. *)
Lemma split_scheme_rest (c : ascii) (u : string) :
  contains c u = false -> contains c (snd (split_scheme u)) = false.
Proof.
  intro H. unfold split_scheme.
  destruct (take_scheme u) as [[[|x a] b] |] eqn:E; simpl; try exact H.
  destruct (is_lower x || is_upper x); simpl; [| exact H].
  apply take_scheme_parts in E. subst u.
  rewrite contains_append in H. apply orb_false_iff in H as [_ H].
  simpl in H. now apply orb_false_iff in H as [_ H].
Qed.

Lemma span_netloc_query (r q : string) :
  span_netloc (r ++ String "?" q) =
  (fst (span_netloc r), snd (span_netloc r) ++ String "?" q).
Proof.
  induction r as [|c r IH]; simpl; [reflexivity |].
  destruct (Ascii.eqb c "/" || Ascii.eqb c "?" || Ascii.eqb c "#"); [reflexivity |].
  rewrite IH. now destruct (span_netloc r).
Qed.

Lemma span_netloc_rest (c : ascii) (r : string) :
  contains c r = false -> contains c (snd (span_netloc r)) = false.
Proof.
  induction r as [|x r IH]; simpl; intro H; [reflexivity |].
  destruct (Ascii.eqb x "/" || Ascii.eqb x "?" || Ascii.eqb x "#"); [exact H |].
  apply orb_false_iff in H as [_ H].
  specialize (IH H). now destruct (span_netloc r).
Qed.

Lemma split_netloc_query (v q : string) :
  split_netloc (v ++ String "?" q) =
  (fst (split_netloc v), snd (split_netloc v) ++ String "?" q).
Proof.
  destruct v as [|a [|b r]]; simpl.
  - now destruct q.
  - now rewrite andb_false_r.
  - destruct (Ascii.eqb a "/" && Ascii.eqb b "/"); [| reflexivity].
    apply span_netloc_query.
Qed.

Lemma split_netloc_rest (c : ascii) (v : string) :
  contains c v = false -> contains c (snd (split_netloc v)) = false.
Proof.
  intro H. destruct v as [|a [|b r]]; simpl; try exact H.
  destruct (Ascii.eqb a "/" && Ascii.eqb b "/"); [| exact H].
  apply span_netloc_rest. simpl in H.
  apply orb_false_iff in H as [_ H]. now apply orb_false_iff in H as [_ H].
Qed.

(** [urlparse] reads the scheme, the host and the path before the query
    string: a URL with a query string appended parses to the same three. *)
Lemma urlparse_query (u q : string) :
  contains "?" u = false -> contains "#" u = false ->
  scheme (urlparse (u ++ String "?" q)) = scheme (urlparse u)
  /\ netloc (urlparse (u ++ String "?" q)) = netloc (urlparse u)
  /\ path (urlparse (u ++ String "?" q)) = path (urlparse u).
Proof.
  intros Hq Hf. unfold urlparse.
  rewrite split_scheme_query.
  pose proof (split_scheme_rest "?" u Hq) as Hq1.
  pose proof (split_scheme_rest "#" u Hf) as Hf1.
  destruct (split_scheme u) as [sch u1]. simpl in *.
  rewrite split_netloc_query.
  pose proof (split_netloc_rest "?" u1 Hq1) as Hq2.
  pose proof (split_netloc_rest "#" u1 Hf1) as Hf2.
  destruct (split_netloc u1) as [nloc u2]. simpl in *.
  rewrite (split_once_past "#" u2 (String "?" q) Hf2).
  rewrite (split_once_absent "#" u2 Hf2).
  simpl. destruct (split_once "#" q) as [x y]. simpl.
  rewrite (split_once_at "?" u2 x Hq2).
  rewrite (split_once_absent "?" u2 Hq2).
  match goal with
  | |- context [let (_, _) := ?e in _] => destruct e as [pth prm]
  end.
  simpl. auto.
Qed.

Lemma urlparse_with_query (u : string) (q : option string) :
  contains "?" u = false -> contains "#" u = false ->
  netloc (urlparse (with_query u q)) = netloc (urlparse u)
  /\ path (urlparse (with_query u q)) = path (urlparse u).
Proof.
  intros Hq Hf. destruct q as [s |]; simpl; [| split; reflexivity].
  destruct (urlparse_query u s Hq Hf) as (_ & H1 & H2). now split.
Qed.

(* ===================================================================== *)
(** * Properties of the request signer                                    *)
(* ===================================================================== *)

Lemma ci_get_set_same (k k' v : string) (h : headers_t) :
  lower k = lower k' -> ci_getitem k' (ci_set k v h) = Ok v.
Proof.
  intro E. induction h as [|[k0 v0] h IH]; simpl.
  - rewrite E, String.eqb_refl. reflexivity.
  - destruct (lower k0 =? lower k)%string eqn:E0; simpl.
    + rewrite E, String.eqb_refl. reflexivity.
    + rewrite <- E, E0. exact IH.
Qed.

Lemma ci_get_set_other (k k' v : string) (h : headers_t) :
  lower k <> lower k' -> ci_getitem k' (ci_set k v h) = ci_getitem k' h.
Proof.
  intro N. apply String.eqb_neq in N.
  induction h as [|[k0 v0] h IH]; simpl.
  - now rewrite N.
  - destruct (lower k0 =? lower k)%string eqn:E0; simpl.
    + apply String.eqb_eq in E0. rewrite E0, N. reflexivity.
    + now rewrite IH.
Qed.

Lemma amzdate_of_eq (t : datetime) :
  amzdate_of t =
  Some (digits_fixed 4 (year t) ++ digits_fixed 2 (month t)
        ++ digits_fixed 2 (day t) ++ "T" ++ digits_fixed 2 (hour t)
        ++ digits_fixed 2 (minute t) ++ digits_fixed 2 (second t) ++ "Z").
Proof. reflexivity. Qed.

Lemma datestamp_of_eq (t : datetime) : datestamp_of t = Some (year_m_day t).
Proof.
  transitivity
    (Some (digits_fixed 4 (year t) ++ String "m" (digits_fixed 2 (day t) ++ "")));
    [reflexivity |].
  now rewrite append_empty_r.
Qed.

(** The two signed headers are read back as they were just set. *)
Lemma canonical_headers_eq (h : headers_t) (host amzdate : string) :
  canonical_headers_of
    (ci_set "Host" host (ci_set "X-Amz-Date" amzdate h))
    (sorted ["host"; "x-amz-date"])
  = Ok ("host:" ++ host ++ nl ++ "x-amz-date:" ++ amzdate ++ nl).
Proof.
  change (sorted ["host"; "x-amz-date"]) with ["host"; "x-amz-date"].
  unfold canonical_headers_of.
  rewrite (ci_get_set_same "Host" "host") by reflexivity.
  rewrite (ci_get_set_other "Host" "x-amz-date") by (cbv; discriminate).
  rewrite (ci_get_set_same "X-Amz-Date" "x-amz-date") by reflexivity.
  cbn [pbind]. now rewrite append_empty_r.
Qed.

Section SignerProperties.

Variable sha256_hexdigest : string -> string.
Variable hmac_sha256 : string -> string -> string.

(** The signer never raises. *)
Lemma sign_request_returns (self : EC2RequestAuth) (t : datetime)
  (r : prepared_request) :
  exists sg, sign_request sha256_hexdigest hmac_sha256 self t r = Ok sg.
Proof.
  unfold sign_request.
  rewrite amzdate_of_eq, datestamp_of_eq. cbn [strftime_res pbind].
  rewrite canonical_headers_eq. cbn [pbind]. eexists. reflexivity.
Qed.

(** The signer reads the URL of the request through its host and its path
    only. *)
Lemma sign_request_url (self : EC2RequestAuth) (t : datetime)
  (m : string) (h : headers_t) (b : req_body) (u1 u2 : string) :
  netloc (urlparse u1) = netloc (urlparse u2) ->
  path (urlparse u1) = path (urlparse u2) ->
  sign_request sha256_hexdigest hmac_sha256 self t
    {| r_method := m; r_url := u1; r_headers := h; r_body := b |}
  = sign_request sha256_hexdigest hmac_sha256 self t
      {| r_method := m; r_url := u2; r_headers := h; r_body := b |}.
Proof.
  intros Hn Hp. unfold sign_request. cbn [r_url r_method r_headers r_body].
  rewrite Hn, Hp. reflexivity.
Qed.

(** C1 (as amended): the date stamp is the four digits of the year, the
    letter [m] and the two digits of the day of the month; the month is not
    part of it.  That stamp is the one in the credential scope and the one
    the signing key is derived from. *)
Theorem C1_datestamp_year_m_day (self : EC2RequestAuth) (t : datetime)
  (r : prepared_request) :
  datestamp_of t = Some (year_m_day t)
  /\ year_m_day t = digits_fixed 4 (year t) ++ String "m" (digits_fixed 2 (day t))
  /\ String.length (digits_fixed 4 (year t)) = 4%nat
  /\ String.length (digits_fixed 2 (day t)) = 2%nat
  /\ exists sg,
       sign_request sha256_hexdigest hmac_sha256 self t r = Ok sg
       /\ sg_datestamp sg = year_m_day t
       /\ sg_credential_scope sg =
            year_m_day t ++ "/" ++ auth_region self ++ "/" ++ auth_service self
              ++ "/aws4_request"
       /\ sg_signing_key sg =
            _get_signature_key hmac_sha256 (auth_secret_key self) (year_m_day t)
              (auth_region self) (auth_service self).
Proof.
  split; [apply datestamp_of_eq |].
  split; [reflexivity |].
  split; [apply digits_fixed_length |].
  split; [apply digits_fixed_length |].
  unfold sign_request.
  rewrite amzdate_of_eq, datestamp_of_eq. cbn [strftime_res pbind].
  rewrite canonical_headers_eq. cbn [pbind].
  eexists. split; [reflexivity |].
  cbn [sg_datestamp sg_credential_scope sg_signing_key]. auto.
Qed.

(** C4: two requests that differ in their query strings only get the same
    signature at the same instant: the canonical query string is empty for
    both, every value the signer computes is the same, and so is the
    [Authorization] header it sets. *)
Theorem C4_signature_ignores_query (self : EC2RequestAuth) (t : datetime)
  (m : string) (h : headers_t) (b : req_body) (u : string)
  (q1 q2 : option string) :
  contains "?" u = false ->
  contains "#" u = false ->
  exists sg,
    sign_request sha256_hexdigest hmac_sha256 self t
      {| r_method := m; r_url := with_query u q1; r_headers := h; r_body := b |}
    = Ok sg
    /\ sign_request sha256_hexdigest hmac_sha256 self t
         {| r_method := m; r_url := with_query u q2; r_headers := h; r_body := b |}
       = Ok sg
    /\ sg_canonical_querystring sg = ""
    /\ EC2RequestAuth_call sha256_hexdigest hmac_sha256 self t
         {| r_method := m; r_url := with_query u q1; r_headers := h; r_body := b |}
       = Ok {| r_method := m; r_url := with_query u q1;
               r_headers := sg_headers sg; r_body := b |}
    /\ EC2RequestAuth_call sha256_hexdigest hmac_sha256 self t
         {| r_method := m; r_url := with_query u q2; r_headers := h; r_body := b |}
       = Ok {| r_method := m; r_url := with_query u q2;
               r_headers := sg_headers sg; r_body := b |}
    /\ ci_getitem "Authorization" (sg_headers sg) = Ok (sg_authorization_header sg).
Proof.
  intros Hq Hf.
  destruct (urlparse_with_query u q1 Hq Hf) as [Hn1 Hp1].
  destruct (urlparse_with_query u q2 Hq Hf) as [Hn2 Hp2].
  pose proof (sign_request_url self t m h b (with_query u q1) (with_query u q2)
                (eq_trans Hn1 (eq_sym Hn2)) (eq_trans Hp1 (eq_sym Hp2))) as E.
  unfold EC2RequestAuth_call. rewrite <- E. clear E.
  unfold sign_request.
  rewrite amzdate_of_eq, datestamp_of_eq. cbn [strftime_res pbind].
  rewrite canonical_headers_eq. cbn [pbind].
  eexists. split; [reflexivity |]. split; [reflexivity |].
  cbn [sg_canonical_querystring sg_headers sg_authorization_header
       r_method r_url r_headers r_body].
  repeat split.
  apply ci_get_set_same. reflexivity.
Qed.

End SignerProperties.

(* ===================================================================== *)
(** * Properties of the API client                                        *)
(* ===================================================================== *)

Lemma truthy_dict_get (d : list (string * pyval)) (k : string) (v : pyval) :
  dict_get d k = Some v -> truthy (PDict d) = true.
Proof. destruct d; [discriminate | reflexivity]. Qed.

(** Two continuations that agree wherever the second one ends give the
    same computation wherever that one ends. *)
Lemma bind_more (A B : Type) (c : M A) (k1 k2 : A -> M B) (st : state) :
  (forall a st', k2 a st' <> OutOfFuel -> k1 a st' = k2 a st') ->
  bind c k2 st <> OutOfFuel ->
  bind c k1 st = bind c k2 st.
Proof.
  intros Hk H. unfold bind in *.
  destruct (c st) as [a st' | e st' |]; auto.
Qed.

Section ClientProperties.

Variable transport : list request -> request -> http_result.
Variable int_of_text : string -> pyres Z.
Variable sum_with_float : list pynum -> pyres pynum.
Variable str_other : pyval -> string.

(** [send_request] always ends, and by then exactly one request has been
    issued: the one for its arguments. *)
Lemma send_request_logs (method path : string)
  (params : option (list (string * pyval))) (json_data : option pyval) (st : state) :
  let rq := {| rq_method := method; rq_url := base_url (client st) ++ path;
               rq_params := params; rq_json := json_data |} in
  (exists v, send_request transport method path params json_data st
             = Returns v (log_request rq st))
  \/ send_request transport method path params json_data st
     = Raises JSONDecodeError (log_request rq st).
Proof.
  unfold send_request. cbv zeta.
  destruct (transport _ _) as [|code [v|]]; try destruct (is_http_error code); eauto.
Qed.

(** The four outcomes of [send_request] by what the transport did. *)
Lemma send_request_cases (method path : string)
  (params : option (list (string * pyval))) (json_data : option pyval) (st : state) :
  let rq := {| rq_method := method; rq_url := base_url (client st) ++ path;
               rq_params := params; rq_json := json_data |} in
  send_request transport method path params json_data st =
  match transport (sent st) rq with
  | TransportFailure => Returns PNone (log_request rq st)
  | HttpResponse code (Some v) => Returns v (log_request rq st)
  | HttpResponse code None =>
      if is_http_error code then Raises JSONDecodeError (log_request rq st)
      else Returns PNone (log_request rq st)
  end.
Proof.
  unfold send_request. cbv zeta.
  destruct (transport _ _) as [|code [v|]]; try destruct (is_http_error code); reflexivity.
Qed.

(** [get_vms(page_num=p, page_size=100)] is the request [page_request p]. *)
Lemma get_vms_page (p : Z) (st : state) :
  get_vms transport (PInt p) (PInt PAGE_SIZE) st =
  send_request transport "GET" "/janus/20190725/servers"
    (Some [("page_num", PInt p); ("page_size", PInt 100)]) None st.
Proof. reflexivity. Qed.

Lemma get_vms_logs (p : Z) (st : state) (response : pyval) (st' : state) :
  get_vms transport (PInt p) (PInt PAGE_SIZE) st = Returns response st' ->
  st' = log_request (page_request (base_url (client st)) p) st.
Proof.
  rewrite get_vms_page. intro H.
  destruct (send_request_logs "GET" "/janus/20190725/servers"
              (Some [("page_num", PInt p); ("page_size", PInt 100)]) None st)
    as [[v E] | E]; rewrite E in H; [| discriminate].
  now injection H as _ <-.
Qed.

(** One iteration that stops at a guard_stops response. *)
Lemma scan_stops_at_guard (fuel : nat) (acc : list pyval) (p : Z)
  (st : state) (response : pyval) (st' : state) :
  get_vms transport (PInt p) (PInt PAGE_SIZE) st = Returns response st' ->
  guard_stops response = true ->
  scan_pages transport int_of_text (S fuel) acc p st = Returns acc st'.
Proof.
  intros Hg Hm. cbn [scan_pages]. unfold bind at 1. rewrite Hg.
  destruct response as [| b | z | f | s | l | d];
    try (replace (negb (truthy _)) with true by (symmetry; exact Hm); reflexivity).
  destruct d as [|kv d]; [reflexivity |].
  unfold guard_stops in Hm.
  cbn [truthy negb py_get lift]. unfold bind at 1, ret at 1.
  destruct (dict_get (kv :: d) "data") as [data |]; [| reflexivity].
  destruct data as [| b | z | f | s | l | d2];
    try (replace (negb (truthy _)) with true by (symmetry; exact Hm); reflexivity).
  destruct d2 as [|kv2 d2]; [reflexivity |].
  cbn [truthy negb py_get lift]. unfold bind at 1, ret at 1.
  destruct (dict_get (kv2 :: d2) "data") as [[| b | z | f | s | l | d3] |];
    try reflexivity; discriminate.
Qed.

(** One iteration on a well-formed page: the records are appended, and the
    loop stops when the page is empty or carries no token, else goes on at
    the page the token names. *)
Lemma scan_reads_page (fuel : nat) (acc : list pyval) (p : Z)
  (st : state) (response : pyval) (st' : state) (vms : list pyval) (next : pyval) :
  get_vms transport (PInt p) (PInt PAGE_SIZE) st = Returns response st' ->
  page_of response = Some (vms, next) ->
  scan_pages transport int_of_text (S fuel) acc p st =
  if negb (truthy next) || negb (truthy (PList vms))
  then Returns (acc ++ vms)%list st'
  else bind (lift (py_int int_of_text next))
         (scan_pages transport int_of_text fuel (acc ++ vms)%list) st'.
Proof.
  intros Hg Hp. cbn [scan_pages]. unfold bind at 1. rewrite Hg.
  destruct response as [| | | | | | d]; try discriminate. cbn [page_of] in Hp.
  destruct (dict_get d "data") as [[| | | | | | d2] |] eqn:E1; try discriminate.
  rewrite (truthy_dict_get d "data" _ E1). cbn [negb py_get lift].
  rewrite E1. unfold bind at 1, ret at 1.
  destruct (dict_get d2 "data") as [[| | | | | vms' |] |] eqn:E2; try discriminate.
  injection Hp as <- <-.
  rewrite (truthy_dict_get d2 "data" _ E2). cbn [negb py_get lift].
  rewrite E2. unfold bind at 1, ret at 1. unfold bind at 1, ret at 1.
  destruct (negb _ || negb _); reflexivity.
Qed.

(** The loop changes nothing of the client and only adds requests, the
    first of them the one for the page it starts at. *)
Lemma scan_pages_sent (fuel : nat) :
  forall (acc : list pyval) (p : Z) (st : state),
    match scan_pages transport int_of_text fuel acc p st with
    | Returns _ st' | Raises _ st' =>
        client st' = client st
        /\ exists more,
             sent st' = (sent st ++ page_request (base_url (client st)) p :: more)%list
    | OutOfFuel => True
    end.
Proof.
  induction fuel as [|fuel IH]; intros acc p st; [exact I |].
  cbn [scan_pages]. unfold bind at 1. rewrite get_vms_page.
  set (rq := page_request (base_url (client st)) p).
  assert (Hlog : forall st1, st1 = log_request rq st ->
             client st1 = client st
             /\ exists more, sent st1 = (sent st ++ rq :: more)%list)
    by (intros st1 ->; split; [reflexivity | exists []; reflexivity]).
  destruct (send_request_logs "GET" "/janus/20190725/servers"
              (Some [("page_num", PInt p); ("page_size", PInt 100)]) None st)
    as [[response E] | E]; rewrite E; clear E; [| now apply Hlog].
  set (st1 := log_request _ st).
  assert (Hst1 : client st1 = client st
                 /\ exists more, sent st1 = (sent st ++ rq :: more)%list)
    by (apply Hlog; reflexivity).
  clearbody st1. clear Hlog.
  assert (Hthen : forall (T : Type) (c : pyres T) (k : T -> M (list pyval)),
             (forall a, match k a st1 with
                        | Returns _ st' | Raises _ st' =>
                            client st' = client st
                            /\ exists more, sent st' = (sent st ++ rq :: more)%list
                        | OutOfFuel => True
                        end) ->
             match bind (lift c) k st1 with
             | Returns _ st' | Raises _ st' =>
                 client st' = client st
                 /\ exists more, sent st' = (sent st ++ rq :: more)%list
             | OutOfFuel => True
             end).
  { intros T [a | e] k Hk; unfold bind, lift, ret, raise; [apply Hk | exact Hst1]. }
  destruct (negb (truthy response)); [exact Hst1 |].
  apply Hthen. intro data.
  destruct (negb (truthy data)); [exact Hst1 |].
  apply Hthen. intro inner.
  destruct inner; try exact Hst1.
  apply Hthen. intro next.
  destruct (negb (truthy next) || negb (truthy (PList l))); [exact Hst1 |].
  apply Hthen. intro n.
  specialize (IH (acc ++ l)%list n st1).
  destruct (scan_pages transport int_of_text fuel (acc ++ l)%list n st1)
    as [r st2 | e st2 |];
    [| | exact I];
    destruct IH as [Hc [more Hs]]; destruct Hst1 as [Hc1 [more1 Hs1]];
    (split; [congruence |]);
    exists (more1 ++ page_request (base_url (client st1)) n :: more)%list;
    rewrite Hs, Hs1, <- app_assoc; reflexivity.
Qed.

(** More fuel does not change a result that was reached. *)
Lemma scan_pages_more_fuel (fuel : nat) :
  forall (k : nat) (acc : list pyval) (p : Z) (st : state),
    scan_pages transport int_of_text fuel acc p st <> OutOfFuel ->
    scan_pages transport int_of_text (fuel + k) acc p st
    = scan_pages transport int_of_text fuel acc p st.
Proof.
  induction fuel as [|fuel IH]; intros k acc p st H; [now contradiction H |].
  cbn [Nat.add]. revert st H. cbn [scan_pages].
  intros st H. apply bind_more; [| exact H]. clear st H. intros response st H.
  destruct (negb (truthy response)); [reflexivity |].
  apply bind_more; [| exact H]. clear st H. intros data st H.
  destruct (negb (truthy data)); [reflexivity |].
  apply bind_more; [| exact H]. clear st H. intros inner st H.
  destruct inner; try reflexivity.
  apply bind_more; [| exact H]. clear st H. intros next st H.
  destruct (negb (truthy next) || negb (truthy (PList l))); [reflexivity |].
  apply bind_more; [| exact H]. clear st H. intros n st H.
  now apply IH.
Qed.

(** An uncached call is the full scan. *)
Lemma get_all_vms_uncached (fuel : nat) (use_cache : bool) (st : state) :
  use_cache = false \/ _all_vms_cache (client st) = None ->
  get_all_vms transport int_of_text fuel use_cache st
  = full_scan transport int_of_text fuel st.
Proof.
  unfold get_all_vms, full_scan. intros [-> | ->]; [reflexivity |].
  now destruct use_cache.
Qed.

(** A full scan that returns has stored what it returns. *)
Lemma full_scan_stores (fuel : nat) (st : state) (l : list pyval) (st' : state) :
  full_scan transport int_of_text fuel st = Returns l st' ->
  _all_vms_cache (client st') = Some l
  /\ exists st1, scan_pages transport int_of_text fuel [] 0 st = Returns l st1
                 /\ st' = {| client := set_cache (Some l) (client st1);
                             sent := sent st1 |}.
Proof.
  unfold full_scan, bind, store_cache, ret.
  destruct (scan_pages transport int_of_text fuel [] 0 st) as [r st1 | |];
    try discriminate.
  intro H. injection H as <- <-. split; [reflexivity |].
  exists st1. split; reflexivity.
Qed.

(** The pagination loop: an uncached [get_all_vms] runs the loop from page
    0; each iteration requests its page with page size 100; the loop ends
    with what it has accumulated at a response the guard stops at, at a
    page without records and at a page without a next-page token, and
    otherwise goes on at the page [int] reads from the token.  On the
    backend with pages of 100, 100, 37 and 0 records it returns the 237
    records in the order served and issues the four page requests 0, 1, 2,
    3. *)
Theorem pagination_stop_rules :
  (forall fuel use_cache st,
      use_cache = false \/ _all_vms_cache (client st) = None ->
      get_all_vms transport int_of_text fuel use_cache st
      = full_scan transport int_of_text fuel st)
  /\ (forall p st response st',
         get_vms transport (PInt p) (PInt PAGE_SIZE) st = Returns response st' ->
         st' = log_request (page_request (base_url (client st)) p) st)
  /\ (forall fuel acc p st response st',
         get_vms transport (PInt p) (PInt PAGE_SIZE) st = Returns response st' ->
         guard_stops response = true ->
         scan_pages transport int_of_text (S fuel) acc p st = Returns acc st')
  /\ (forall fuel acc p st response st' next,
         get_vms transport (PInt p) (PInt PAGE_SIZE) st = Returns response st' ->
         page_of response = Some ([], next) ->
         scan_pages transport int_of_text (S fuel) acc p st = Returns acc st')
  /\ (forall fuel acc p st response st' vms next,
         get_vms transport (PInt p) (PInt PAGE_SIZE) st = Returns response st' ->
         page_of response = Some (vms, next) ->
         truthy next = false ->
         scan_pages transport int_of_text (S fuel) acc p st
         = Returns (acc ++ vms)%list st')
  /\ (forall fuel acc p st response st' vms next n,
         get_vms transport (PInt p) (PInt PAGE_SIZE) st = Returns response st' ->
         page_of response = Some (vms, next) ->
         vms <> [] ->
         truthy next = true ->
         py_int int_of_text next = Ok n ->
         scan_pages transport int_of_text (S fuel) acc p st
         = scan_pages transport int_of_text fuel (acc ++ vms)%list n st')
  /\ (forall k,
         get_all_vms (paged_transport four_pages) no_int (4 + k) false fresh_state
         = Returns (vm_records 0 237)
             {| client := set_cache (Some (vm_records 0 237)) fresh_client;
                sent := map (page_request "https://scp.example") [0; 1; 2; 3] |})
  /\ List.length (vm_records 0 237) = 237%nat
  /\ vm_records 0 237
     = (vm_records 0 100 ++ vm_records 100 100 ++ vm_records 200 37 ++ [])%list.
Proof.
  split; [exact get_all_vms_uncached |].
  split; [exact get_vms_logs |].
  split; [exact scan_stops_at_guard |].
  split.
  { intros fuel acc p st response st' next Hg Hp.
    rewrite (scan_reads_page fuel acc p st response st' [] next Hg Hp).
    cbn [truthy negb]. rewrite orb_true_r, app_nil_r. reflexivity. }
  split.
  { intros fuel acc p st response st' vms next Hg Hp Hn.
    rewrite (scan_reads_page fuel acc p st response st' vms next Hg Hp).
    now rewrite Hn. }
  split.
  { intros fuel acc p st response st' vms next n Hg Hp Hv Hn Hi.
    rewrite (scan_reads_page fuel acc p st response st' vms next Hg Hp).
    rewrite Hn. destruct vms as [|v vms]; [now contradiction Hv |].
    cbn [truthy negb orb]. unfold bind, lift. rewrite Hi. reflexivity. }
  split; [intro k; vm_compute; reflexivity |].
  split; vm_compute; reflexivity.
Qed.

(** C5: with a populated cache [get_all_vms(use_cache=True)] returns the
    cached list and leaves the state, the request log included, as it was;
    whenever [get_all_vms] returns, whatever [use_cache] was, the cache
    holds the list it returned; so a second cached call returns the same
    list and issues no request. *)
Theorem C5_cached_list_is_reused :
  (forall fuel st cached,
      _all_vms_cache (client st) = Some cached ->
      get_all_vms transport int_of_text fuel true st = Returns cached st)
  /\ (forall fuel use_cache st l st',
         get_all_vms transport int_of_text fuel use_cache st = Returns l st' ->
         _all_vms_cache (client st') = Some l)
  /\ (forall fuel fuel' st l st',
         get_all_vms transport int_of_text fuel true st = Returns l st' ->
         get_all_vms transport int_of_text fuel' true st' = Returns l st'
         /\ (_all_vms_cache (client st) = None ->
             exists st1, scan_pages transport int_of_text fuel [] 0 st = Returns l st1
                         /\ sent st' = sent st1)).
Proof.
  assert (Hhit : forall fuel st cached,
             _all_vms_cache (client st) = Some cached ->
             get_all_vms transport int_of_text fuel true st = Returns cached st).
  { intros fuel st cached H. unfold get_all_vms. now rewrite H. }
  assert (Hstore : forall fuel use_cache st l st',
             get_all_vms transport int_of_text fuel use_cache st = Returns l st' ->
             _all_vms_cache (client st') = Some l).
  { intros fuel use_cache st l st' H.
    destruct use_cache; [destruct (_all_vms_cache (client st)) as [c |] eqn:Ec |].
    - rewrite (Hhit fuel st c Ec) in H. injection H as <- <-. exact Ec.
    - rewrite get_all_vms_uncached in H by (right; exact Ec).
      now apply full_scan_stores in H.
    - rewrite get_all_vms_uncached in H by (left; reflexivity).
      now apply full_scan_stores in H. }
  split; [exact Hhit |]. split; [exact Hstore |].
  intros fuel fuel' st l st' H.
  split; [apply Hhit; exact (Hstore _ _ _ _ _ H) |].
  intro Ec. rewrite get_all_vms_uncached in H by (right; exact Ec).
  apply full_scan_stores in H as [_ [st1 [Hs ->]]].
  exists st1. split; [exact Hs | reflexivity].
Qed.

(** The requests of a full scan start with the one for page 0. *)
Lemma full_scan_sent (fuel : nat) (st : state) :
  match full_scan transport int_of_text fuel st with
  | Returns _ st' | Raises _ st' =>
      exists more,
        sent st' = (sent st ++ page_request (base_url (client st)) 0 :: more)%list
  | OutOfFuel => True
  end.
Proof.
  unfold full_scan, bind, store_cache, ret.
  pose proof (scan_pages_sent fuel [] 0 st) as H.
  destruct (scan_pages transport int_of_text fuel [] 0 st) as [l st1 | e st1 |];
    [| | exact I]; destruct H as [_ H]; exact H.
Qed.

(** C10: an uncached [get_all_vms] that returns the empty list has stored
    the empty list; the cache test is on [None], so from then on every
    cached call returns the empty list and leaves the state, the request
    log included, as it is, until a call with [use_cache=False] scans
    again, from page 0, and stores what it returns.  The scan does return
    the empty list, after its one request, when the first response is one
    the guard stops at, when the transport fails, and when the first page
    is well formed and has no records.  On a backend that is down for the
    first request and up from then on, the cached calls go on returning
    the empty list until an uncached call reads the 237 records. *)
Theorem C10_empty_scan_is_cached :
  (forall fuel use_cache st st',
      use_cache = false \/ _all_vms_cache (client st) = None ->
      get_all_vms transport int_of_text fuel use_cache st = Returns [] st' ->
      _all_vms_cache (client st') = Some []
      /\ (forall fuel', get_all_vms transport int_of_text fuel' true st' = Returns [] st')
      /\ (forall fuel',
             get_all_vms transport int_of_text fuel' false st'
             = full_scan transport int_of_text fuel' st')
      /\ (forall fuel' l st2,
             get_all_vms transport int_of_text fuel' false st' = Returns l st2 ->
             _all_vms_cache (client st2) = Some l
             /\ (forall fuel'',
                    get_all_vms transport int_of_text fuel'' true st2 = Returns l st2)
             /\ exists more,
                  sent st2
                  = (sent st' ++ page_request (base_url (client st')) 0 :: more)%list))
  /\ (forall fuel use_cache st response st1,
         use_cache = false \/ _all_vms_cache (client st) = None ->
         get_vms transport (PInt 0) (PInt PAGE_SIZE) st = Returns response st1 ->
         guard_stops response = true
         \/ (exists next, page_of response = Some ([], next)) ->
         get_all_vms transport int_of_text (S fuel) use_cache st
         = Returns []
             {| client := set_cache (Some []) (client st);
                sent := (sent st ++ [page_request (base_url (client st)) 0])%list |})
  /\ (forall fuel use_cache st,
         use_cache = false \/ _all_vms_cache (client st) = None ->
         transport (sent st) (page_request (base_url (client st)) 0) = TransportFailure ->
         get_all_vms transport int_of_text (S fuel) use_cache st
         = Returns []
             {| client := set_cache (Some []) (client st);
                sent := (sent st ++ [page_request (base_url (client st)) 0])%list |})
  /\ (forall k,
         get_all_vms flaky_transport no_int (S k) true fresh_state
         = Returns []
             {| client := set_cache (Some []) fresh_client;
                sent := [page_request "https://scp.example" 0] |})
  /\ (forall fuel,
         get_all_vms flaky_transport no_int fuel true
           {| client := set_cache (Some []) fresh_client;
              sent := [page_request "https://scp.example" 0] |}
         = Returns []
             {| client := set_cache (Some []) fresh_client;
                sent := [page_request "https://scp.example" 0] |})
  /\ (forall k,
         get_all_vms flaky_transport no_int (4 + k) false
           {| client := set_cache (Some []) fresh_client;
              sent := [page_request "https://scp.example" 0] |}
         = Returns (vm_records 0 237)
             {| client := set_cache (Some (vm_records 0 237)) fresh_client;
                sent := page_request "https://scp.example" 0
                        :: map (page_request "https://scp.example") [0; 1; 2; 3] |}).
Proof.
  assert (Hstop : forall fuel use_cache st response st1,
             use_cache = false \/ _all_vms_cache (client st) = None ->
             get_vms transport (PInt 0) (PInt PAGE_SIZE) st = Returns response st1 ->
             guard_stops response = true
             \/ (exists next, page_of response = Some ([], next)) ->
             get_all_vms transport int_of_text (S fuel) use_cache st
             = Returns []
                 {| client := set_cache (Some []) (client st);
                    sent := (sent st ++ [page_request (base_url (client st)) 0])%list |}).
  { intros fuel use_cache st response st1 Hu Hg Hr.
    rewrite (get_all_vms_uncached _ _ _ Hu). unfold full_scan. unfold bind at 1.
    assert (Hs : scan_pages transport int_of_text (S fuel) [] 0 st = Returns [] st1).
    { destruct Hr as [Hm | [next Hp]].
      - exact (scan_stops_at_guard fuel [] 0 st response st1 Hg Hm).
      - rewrite (scan_reads_page fuel [] 0 st response st1 [] next Hg Hp).
        cbn [truthy negb]. now rewrite orb_true_r. }
    rewrite Hs. rewrite (get_vms_logs 0 st response st1 Hg). reflexivity. }
  split.
  { intros fuel use_cache st st' Hu H.
    rewrite (get_all_vms_uncached _ _ _ Hu) in H.
    apply full_scan_stores in H as [Hc _].
    assert (Hhit : forall l st2, _all_vms_cache (client st2) = Some l ->
               forall fuel', get_all_vms transport int_of_text fuel' true st2
                             = Returns l st2).
    { intros l st2 E fuel'. unfold get_all_vms. now rewrite E. }
    split; [exact Hc |]. split; [exact (Hhit [] st' Hc) |].
    split; [intro fuel'; apply get_all_vms_uncached; now left |].
    intros fuel' l st2 H.
    rewrite get_all_vms_uncached in H by (now left).
    pose proof (full_scan_sent fuel' st') as Hx. rewrite H in Hx.
    apply full_scan_stores in H as [Hc2 _].
    split; [exact Hc2 |]. split; [exact (Hhit l st2 Hc2) | exact Hx]. }
  split; [exact Hstop |].
  split.
  { intros fuel use_cache st Hu Ht.
    apply (Hstop fuel use_cache st PNone
             (log_request (page_request (base_url (client st)) 0) st) Hu);
      [| left; reflexivity].
    rewrite get_vms_page, send_request_cases. cbv zeta.
    unfold page_request in Ht. rewrite Ht. reflexivity. }
  split; [intro k; reflexivity |].
  split; [intro fuel; reflexivity |].
  intro k. vm_compute. reflexivity.
Qed.

(** The generator of [find_vm] over a list of dicts none of which has the
    name. *)
Lemma first_named_none (identifier : string) (l : list pyval) :
  (forall vm, In vm l -> is_dict vm = true /\ has_name identifier vm = false) ->
  first_named identifier l = Ok PNone.
Proof.
  induction l as [|vm l IH]; intro H; [reflexivity |].
  destruct (H vm (or_introl eq_refl)) as [Hd Hn].
  destruct vm as [| | | | | | d]; try discriminate.
  cbn [first_named py_get pbind]. cbn [has_name] in Hn.
  assert (IH' := IH (fun x Hx => H x (or_intror Hx))).
  destruct (dict_get d "name") as [[| | | | s | |] |]; try exact IH'.
  now rewrite Hn.
Qed.

(** The generator stops at the first dict that has the name. *)
Lemma first_named_found (identifier : string) (pre post : list pyval) (vm : pyval) :
  (forall x, In x pre -> is_dict x = true /\ has_name identifier x = false) ->
  has_name identifier vm = true ->
  first_named identifier (pre ++ vm :: post) = Ok vm.
Proof.
  induction pre as [|x pre IH]; intros H Hv.
  - destruct vm as [| | | | | | d]; try discriminate.
    cbn [app first_named py_get pbind]. cbn [has_name] in Hv.
    destruct (dict_get d "name") as [[| | | | s | |] |]; try discriminate.
    now rewrite Hv.
  - destruct (H x (or_introl eq_refl)) as [Hd Hn].
    destruct x as [| | | | | | d]; try discriminate.
    cbn [app first_named py_get pbind]. cbn [has_name] in Hn.
    assert (IH' := IH (fun y Hy => H y (or_intror Hy)) Hv).
    destruct (dict_get d "name") as [[| | | | s | |] |]; try exact IH'.
    now rewrite Hn.
Qed.

(** C9: each of the three per-VM lookups raises [ValueError] on a falsy
    [vm_id] ([None] and the empty string among them) and leaves the state
    as it was, so that no request is issued; on any other [vm_id] it is the
    single GET with the id written into the path, after which exactly that
    one request has been added to the log. *)
Theorem C9_vm_id_required (vm_id : pyval) (st : state) :
  (truthy vm_id = false ->
   get_vm_details transport str_other vm_id st = Raises ValueError st
   /\ get_vm_snapshots transport str_other vm_id st = Raises ValueError st
   /\ get_vm_backups transport str_other vm_id st = Raises ValueError st)
  /\ (truthy vm_id = true ->
      let id := py_str str_other vm_id in
      get_vm_details transport str_other vm_id st
      = send_request transport "GET" ("/janus/20190725/servers/" ++ id) None None st
      /\ get_vm_snapshots transport str_other vm_id st
         = send_request transport "GET"
             ("/janus/20190725/servers/" ++ id ++ "/snapshots") None None st
      /\ get_vm_backups transport str_other vm_id st
         = send_request transport "GET"
             ("/janus/20190725/servers/" ++ id ++ "/backups") None None st
      /\ forall path,
           exists r,
             (send_request transport "GET" path None None st
              = Returns r (log_request (get_request (base_url (client st)) path) st)
              \/ send_request transport "GET" path None None st
                 = Raises JSONDecodeError
                     (log_request (get_request (base_url (client st)) path) st)))
  /\ truthy PNone = false
  /\ truthy (PStr "") = false
  /\ (forall s, py_str str_other (PStr s) = s).
Proof.
  split.
  { intro H. unfold get_vm_details, get_vm_snapshots, get_vm_backups.
    rewrite H. repeat split. }
  split.
  { intro H. cbv zeta. unfold get_vm_details, get_vm_snapshots, get_vm_backups.
    rewrite H. cbn [negb]. repeat split.
    intro path.
    destruct (send_request_logs "GET" path None None st) as [[v E] | E].
    - exists v. left. exact E.
    - exists PNone. right. exact E. }
  repeat split.
Qed.

End ClientProperties.

Lemma page_of_page_response (records : list pyval) (next : option Z) :
  page_of (page_response records next)
  = Some (records, match next with Some n => PInt n | None => PNone end).
Proof. destruct next; reflexivity. Qed.

Lemma get_vms_paged (pages : list (list pyval * option Z)) (i : nat)
  (records : list pyval) (next : option Z) (st : state) :
  nth_error pages i = Some (records, next) ->
  get_vms (paged_transport pages) (PInt (Z.of_nat i)) (PInt PAGE_SIZE) st
  = Returns (page_response records next)
      (log_request (page_request (base_url (client st)) (Z.of_nat i)) st).
Proof.
  intro H. rewrite get_vms_page, send_request_cases. cbv zeta.
  unfold paged_transport. cbn [rq_params].
  change (dict_get [("page_num", PInt (Z.of_nat i)); ("page_size", PInt 100)]
            "page_num")
    with (Some (PInt (Z.of_nat i))).
  cbv iota beta. rewrite Nat2Z.id, H. reflexivity.
Qed.

(** The loop from page [i] on, on the rest of a page table that it reads
    to its end. *)
Lemma scan_reads_chain (int_of_text : string -> pyres Z)
  (pages : list (list pyval * option Z)) :
  forall (rest prefix : list (list pyval * option Z)) (k : nat)
         (acc : list pyval) (st : state),
    pages = (prefix ++ rest)%list ->
    chain_ok (List.length prefix) rest = true ->
    scan_pages (paged_transport pages) int_of_text (List.length rest + k) acc
      (Z.of_nat (List.length prefix)) st
    = Returns (acc ++ List.concat (map fst rest))%list
        {| client := client st;
           sent := (sent st
                    ++ page_requests (base_url (client st)) (List.length prefix)
                         (List.length rest))%list |}.
Proof.
  induction rest as [|[records next] rest IH]; intros prefix k acc st Hp Hc;
    [discriminate Hc |].
  assert (Hn : nth_error pages (List.length prefix) = Some (records, next)).
  { rewrite Hp, nth_error_app2 by apply Nat.le_refl.
    now rewrite Nat.sub_diag. }
  pose proof (get_vms_paged pages _ records next st Hn) as Hg.
  pose proof (page_of_page_response records next) as Hpage.
  cbn [List.length Nat.add].
  rewrite (scan_reads_page (paged_transport pages) int_of_text (List.length rest + k) acc _ st
             _ _ records _ Hg Hpage).
  cbn [chain_ok] in Hc. destruct next as [n |].
  - destruct records as [|v records]; [discriminate Hc |].
    destruct rest as [|pg rest']; [discriminate Hc |].
    apply andb_true_iff in Hc as [En Hc]. apply Z.eqb_eq in En.
    assert (Ht : truthy (PInt n) = true).
    { cbn [truthy]. rewrite En. apply negb_true_iff. apply Z.eqb_neq. lia. }
    rewrite Ht. cbn [truthy negb orb]. unfold bind, lift, py_int, ret.
    assert (Hp' : pages = ((prefix ++ [(v :: records, Some n)]) ++ pg :: rest')%list)
      by (rewrite <- app_assoc; exact Hp).
    assert (Hl : List.length (prefix ++ [(v :: records, Some n)]) = S (List.length prefix))
      by (rewrite length_app; cbn [List.length]; lia).
    specialize (IH (prefix ++ [(v :: records, Some n)])%list k
                  (acc ++ v :: records)%list
                  (log_request (page_request (base_url (client st))
                                  (Z.of_nat (List.length prefix))) st) Hp').
    rewrite Hl in IH. rewrite En. rewrite (IH Hc).
    unfold log_request, page_requests. cbn [client sent map fst List.concat seq].
    rewrite <- !app_assoc. reflexivity.
  - destruct rest as [|pg rest']; [| discriminate Hc].
    cbn [truthy negb orb]. unfold log_request, page_requests.
    cbn [List.length seq map fst List.concat]. now rewrite app_nil_r.
Qed.

(** The lookup in a list of records none of which has the name. *)
Lemma lookup_by_name_none (transport : list request -> request -> http_result)
  (str_other : pyval -> string) (identifier : string) (vm_list : list pyval)
  (st : state) :
  (forall vm, In vm vm_list -> is_dict vm = true /\ has_name identifier vm = false) ->
  lookup_by_name transport str_other identifier vm_list st = Returns PNone st.
Proof.
  intro Hall. unfold lookup_by_name, bind.
  rewrite (first_named_none identifier vm_list Hall). reflexivity.
Qed.

(** The lookup in a list that holds a record of the name. *)
Lemma lookup_by_name_found (transport : list request -> request -> http_result)
  (str_other : pyval -> string) (identifier : string) (pre post : list pyval)
  (vm : pyval) (st : state) :
  (forall x, In x pre -> is_dict x = true /\ has_name identifier x = false) ->
  has_name identifier vm = true ->
  lookup_by_name transport str_other identifier (pre ++ vm :: post)%list st
  = get_vm_details transport str_other (vm_id_of vm) st.
Proof.
  intros Hpre Hv. unfold lookup_by_name. unfold bind at 1.
  rewrite (first_named_found identifier pre post vm Hpre Hv). cbn [lift ret].
  destruct vm as [| | | | | | d]; try discriminate.
  cbn [has_name] in Hv.
  destruct d as [|kv d]; [discriminate |]. reflexivity.
Qed.

(** C7 (as amended): an identifier with exactly five hyphen-delimited
    segments goes straight to the detail lookup, a single GET of
    [/janus/20190725/servers/<identifier>], whatever the cache holds.  Any
    other identifier goes through [get_all_vms()], whose [use_cache] is
    [True]: with a populated cache the lookup is made in the cached list
    and no page is requested; with an empty cache [find_vm] is the full
    scan followed by the lookup in the list the scan returned, and it
    raises what the scan raises.  The lookup, in a list of records that
    are objects, returns [None] when no record has exactly that name, and
    otherwise is the detail lookup with the [id] of the first record that
    has it; names are compared as strings, so the comparison is
    case-sensitive.  Against a backend that serves a
    chain of pages the scan does return, after one request per page.  On
    the four pages, the name [vm-205] is found after the four page
    requests and one detail request. *)
Theorem C7_find_vm_routing :
  (forall transport int_of_text str_other fuel identifier st,
      List.length (split_all "-" identifier) = 5%nat ->
      find_vm transport int_of_text str_other fuel identifier st
      = send_request transport "GET" ("/janus/20190725/servers/" ++ identifier)
          None None st)
  /\ (forall transport int_of_text str_other fuel identifier st cached,
         List.length (split_all "-" identifier) <> 5%nat ->
         _all_vms_cache (client st) = Some cached ->
         find_vm transport int_of_text str_other fuel identifier st
         = lookup_by_name transport str_other identifier cached st)
  /\ (forall transport int_of_text str_other fuel identifier st,
         List.length (split_all "-" identifier) <> 5%nat ->
         _all_vms_cache (client st) = None ->
         find_vm transport int_of_text str_other fuel identifier st
         = match full_scan transport int_of_text fuel st with
           | Returns vm_list st' =>
               lookup_by_name transport str_other identifier vm_list st'
           | Raises e st' => Raises e st'
           | OutOfFuel => OutOfFuel
           end)
  /\ (forall transport str_other identifier vm_list st,
         (forall vm, In vm vm_list ->
                     is_dict vm = true /\ has_name identifier vm = false) ->
         lookup_by_name transport str_other identifier vm_list st = Returns PNone st)
  /\ (forall transport str_other identifier pre vm post st,
         (forall x, In x pre -> is_dict x = true /\ has_name identifier x = false) ->
         has_name identifier vm = true ->
         lookup_by_name transport str_other identifier (pre ++ vm :: post)%list st
         = get_vm_details transport str_other (vm_id_of vm) st)
  /\ (forall int_of_text str_other pages k identifier st,
         chain_ok 0 pages = true ->
         List.length (split_all "-" identifier) <> 5%nat ->
         _all_vms_cache (client st) = None ->
         find_vm (paged_transport pages) int_of_text str_other
           (List.length pages + k) identifier st
         = lookup_by_name (paged_transport pages) str_other identifier
             (List.concat (map fst pages))
             {| client := set_cache (Some (List.concat (map fst pages))) (client st);
                sent := (sent st
                         ++ page_requests (base_url (client st)) 0
                              (List.length pages))%list |})
  /\ (forall k,
         find_vm (paged_transport four_pages) no_int no_str (4 + k) "vm-205" fresh_state
         = Returns (PDict [])
             {| client := set_cache (Some (vm_records 0 237)) fresh_client;
                sent := (map (page_request "https://scp.example") [0; 1; 2; 3]
                         ++ [get_request "https://scp.example"
                               "/janus/20190725/servers/id-205"])%list |})
  /\ List.length (split_all "-" "550e8400-e29b-41d4-a716-446655440000") = 5%nat
  /\ List.length (split_all "-" "web-server-01") = 3%nat
  /\ has_name "web-server-01" (PDict [("name", PStr "Web-Server-01")]) = false.
Proof.
  assert (Hname : forall transport int_of_text str_other fuel identifier st,
             List.length (split_all "-" identifier) <> 5%nat ->
             find_vm transport int_of_text str_other fuel identifier st
             = bind (get_all_vms transport int_of_text fuel true)
                 (lookup_by_name transport str_other identifier) st).
  { intros transport int_of_text str_other fuel identifier st Hn.
    unfold find_vm. apply Nat.eqb_neq in Hn. rewrite Hn. reflexivity. }
  assert (Hscan : forall transport int_of_text str_other fuel identifier st,
             List.length (split_all "-" identifier) <> 5%nat ->
             _all_vms_cache (client st) = None ->
             find_vm transport int_of_text str_other fuel identifier st
             = match full_scan transport int_of_text fuel st with
               | Returns vm_list st' =>
                   lookup_by_name transport str_other identifier vm_list st'
               | Raises e st' => Raises e st'
               | OutOfFuel => OutOfFuel
               end).
  { intros transport int_of_text str_other fuel identifier st Hn Hc.
    rewrite (Hname _ _ _ _ _ _ Hn). unfold bind at 1.
    rewrite get_all_vms_uncached by (right; exact Hc). reflexivity. }
  split.
  { intros transport int_of_text str_other fuel identifier st H.
    unfold find_vm. rewrite H, Nat.eqb_refl.
    unfold get_vm_details. destruct identifier as [|c s]; [discriminate |].
    reflexivity. }
  split.
  { intros transport int_of_text str_other fuel identifier st cached Hn Hc.
    rewrite (Hname _ _ _ _ _ _ Hn). unfold bind at 1, get_all_vms.
    rewrite Hc. reflexivity. }
  split; [exact Hscan |].
  split; [exact lookup_by_name_none |].
  split; [intros transport str_other identifier pre vm post st;
          apply lookup_by_name_found |].
  split.
  { intros int_of_text str_other pages k identifier st Hch Hn Hc.
    rewrite (Hscan _ _ _ _ _ _ Hn Hc). unfold full_scan, bind.
    pose proof (scan_reads_chain int_of_text pages pages [] k [] st eq_refl Hch) as E.
    cbn [List.length Z.of_nat app] in E. rewrite E. reflexivity. }
  split; [intro k; vm_compute; reflexivity |].
  repeat split; reflexivity.
Qed.

(** C2, at the failing input: page 0 holds two records and the token 1,
    and the answer for page 1 is the object [{"data": "oops"}].  The guard
    of the loop calls [.get] on the string: [AttributeError] is raised out
    of [get_all_vms] after the two requests, the two records read from
    page 0 are not returned, and the cache is not written.  So it is at
    every page whose ["data"] is truthy and not an object. *)
Theorem C2_malformed_page_raises :
  (forall k,
      get_all_vms oops_transport no_int (2 + k) false fresh_state
      = Raises AttributeError
          {| client := fresh_client;
             sent := map (page_request "https://scp.example") [0; 1] |})
  /\ _all_vms_cache fresh_client = None
  /\ (forall transport int_of_text fuel acc p st d data st',
         get_vms transport (PInt p) (PInt PAGE_SIZE) st = Returns (PDict d) st' ->
         dict_get d "data" = Some data ->
         truthy data = true ->
         is_dict data = false ->
         scan_pages transport int_of_text (S fuel) acc p st = Raises AttributeError st').
Proof.
  split; [intro k; reflexivity |]. split; [reflexivity |].
  intros transport int_of_text fuel acc p st d data st' Hg Hd Ht Hn.
  cbn [scan_pages]. unfold bind at 1. rewrite Hg.
  rewrite (truthy_dict_get d "data" data Hd). cbn [negb py_get lift].
  rewrite Hd. unfold bind at 1, ret at 1. rewrite Ht. cbn [negb].
  destruct data; try discriminate; reflexivity.
Qed.

(** C6, at the failing input: a response with status 500 whose body is not
    JSON makes [send_request] raise [JSONDecodeError] out of the handler of
    the HTTP error, after the request has been issued. *)
Theorem C6_error_body_decode_failure_propagates :
  send_request plain_500_transport "GET" "/janus/20190725/azs" None None fresh_state
  = Raises JSONDecodeError
      (log_request (get_request "https://scp.example" "/janus/20190725/azs")
         fresh_state).
Proof. reflexivity. Qed.

(** A truthy response that is not an object, such as a non-empty array,
    is not one the pagination loop stops at: [response.get] raises
    [AttributeError], out of [get_all_vms], and the cache is left as it
    was. *)
Theorem scan_raises_on_non_object :
  (forall transport int_of_text fuel acc p st response st',
      get_vms transport (PInt p) (PInt PAGE_SIZE) st = Returns response st' ->
      truthy response = true ->
      is_dict response = false ->
      scan_pages transport int_of_text (S fuel) acc p st = Raises AttributeError st')
  /\ (forall k,
         get_all_vms array_transport no_int (S k) false fresh_state
         = Raises AttributeError
             (log_request (page_request "https://scp.example" 0) fresh_state)).
Proof.
  split; [| intro k; reflexivity].
  intros transport int_of_text fuel acc p st response st' Hg Ht Hd.
  cbn [scan_pages]. unfold bind at 1. rewrite Hg, Ht. cbn [negb].
  destruct response; try discriminate; reflexivity.
Qed.

(** When the scan returns no VM and the zone request returns a response
    that the zone list can be read from, the report is the "no virtual
    machines" result; the zone request has been issued all the same. *)
Theorem empty_fleet_no_vms_found :
  (forall transport int_of_text sum_with_float fuel now_iso st st1 az_response
          st2 az_list,
      get_all_vms transport int_of_text fuel false st = Returns [] st1 ->
      get_availability_zones transport st1 = Returns az_response st2 ->
      az_list_of az_response = Ok az_list ->
      generate_infrastructure_report transport int_of_text sum_with_float fuel
        now_iso st
      = Returns NoVMsFound st2)
  /\ (forall k,
         generate_infrastructure_report dead_transport no_int plain_sum (S k) "now"
           fresh_state
         = Returns NoVMsFound
             {| client := set_cache (Some []) fresh_client;
                sent := [page_request "https://scp.example" 0;
                         get_request "https://scp.example" "/janus/20190725/azs"] |}).
Proof.
  split; [| intro k; reflexivity].
  intros transport int_of_text sum_with_float fuel now_iso st st1 az_response st2
    az_list Hg Hz Ha.
  unfold generate_infrastructure_report. unfold bind at 1. rewrite Hg.
  unfold bind at 1. rewrite Hz. unfold bind, lift. rewrite Ha. reflexivity.
Qed.

(* ===================================================================== *)
(** * Further properties of the request signer                            *)
(* ===================================================================== *)

Lemma append_assoc_r (a b c : string) : (a ++ b) ++ c = a ++ b ++ c.
Proof.
  induction a as [|x a IH]; cbn [append]; [reflexivity | now rewrite IH].
Qed.

Lemma scheme_char_not_colon (c : ascii) :
  is_scheme_char c = true -> Ascii.eqb c ":" = false.
Proof.
  intro H. destruct (Ascii.eqb c ":") eqn:E; [| reflexivity].
  apply Ascii.eqb_eq in E. subst c. discriminate H.
Qed.

Lemma take_scheme_prefix (sch rest : string) :
  all_scheme_chars sch = true ->
  take_scheme (sch ++ String ":" rest) = Some (sch, rest).
Proof.
  induction sch as [|c sch IH]; cbn [all_scheme_chars append take_scheme]; intro H.
  - reflexivity.
  - apply andb_true_iff in H as [Hc Hs].
    rewrite (scheme_char_not_colon c Hc), Hc, (IH Hs). reflexivity.
Qed.

Lemma span_netloc_authority (host p : string) :
  is_authority host = true ->
  is_plain_path p = true ->
  span_netloc (host ++ p) = (host, p).
Proof.
  unfold is_authority. intros Hh Hp.
  apply negb_true_iff in Hh.
  induction host as [|c host IH]; cbn [append].
  - destruct p as [|a p]; [reflexivity |].
    cbn [is_plain_path] in Hp. apply andb_true_iff in Hp as [Ha _].
    cbn [span_netloc]. now rewrite Ha.
  - cbn [contains] in Hh.
    apply orb_false_iff in Hh as [Hh H3]. apply orb_false_iff in Hh as [H1 H2].
    apply orb_false_iff in H1 as [H1 H1']. apply orb_false_iff in H2 as [H2 H2'].
    apply orb_false_iff in H3 as [H3 H3'].
    cbn [span_netloc]. rewrite H1, H2, H3. cbn [orb].
    rewrite IH; [reflexivity |].
    now rewrite H1', H2', H3'.
Qed.

(** [urlparse] on a URL made of a scheme, a host and a plain path gives
    these three back and nothing else. *)
Lemma urlparse_plain (sch host p : string) :
  is_scheme sch = true ->
  is_authority host = true ->
  is_plain_path p = true ->
  urlparse (sch ++ "://" ++ host ++ p)
  = {| scheme := lower sch; netloc := host; path := p;
       params := ""; query := ""; fragment := "" |}.
Proof.
  intros Hs Hh Hp. unfold urlparse.
  destruct sch as [|c sch]; [discriminate |].
  cbn [is_scheme] in Hs. apply andb_true_iff in Hs as [Hc Hall].
  unfold split_scheme.
  change (String c sch ++ "://" ++ host ++ p)
    with (String c sch ++ String ":" ("//" ++ host ++ p)).
  rewrite (take_scheme_prefix (String c sch) _ Hall). rewrite Hc.
  change (split_netloc ("//" ++ host ++ p)) with (span_netloc (host ++ p)).
  rewrite (span_netloc_authority host p Hh Hp).
  assert (Hq : contains "?" p = false /\ contains "#" p = false
               /\ contains ";" p = false).
  { destruct p as [|a p]; [repeat split |].
    cbn [is_plain_path] in Hp. apply andb_true_iff in Hp as [_ Hp].
    apply negb_true_iff in Hp.
    apply orb_false_iff in Hp as [Hp H3]. apply orb_false_iff in Hp as [H1 H2].
    repeat split; assumption. }
  destruct Hq as (H1 & H2 & H3).
  rewrite (split_once_absent "#" p H2), (split_once_absent "?" p H1).
  rewrite H3, andb_false_r. reflexivity.
Qed.

Section SignerFurther.

Variable sha256_hexdigest : string -> string.
Variable hmac_sha256 : string -> string -> string.

(** Headers and signature: the signature covers the [Host] and
    [X-Amz-Date] values that the signer itself sets and no header of the
    request, so two requests that differ in their headers only (a
    [Content-Type], a [Host] in any letter case) get the same canonical
    request, signature and [Authorization] value. *)
Theorem signature_covers_no_request_header (self : EC2RequestAuth) (t : datetime)
  (m u : string) (b : req_body) (h1 h2 : headers_t) :
  exists sg1 sg2,
    sign_request sha256_hexdigest hmac_sha256 self t
      {| r_method := m; r_url := u; r_headers := h1; r_body := b |} = Ok sg1
    /\ sign_request sha256_hexdigest hmac_sha256 self t
         {| r_method := m; r_url := u; r_headers := h2; r_body := b |} = Ok sg2
    /\ sg_canonical_headers sg1 = sg_canonical_headers sg2
    /\ sg_canonical_request sg1 = sg_canonical_request sg2
    /\ sg_signature sg1 = sg_signature sg2
    /\ sg_authorization_header sg1 = sg_authorization_header sg2.
Proof.
  unfold sign_request. cbn [r_method r_url r_headers r_body].
  rewrite amzdate_of_eq, datestamp_of_eq. cbn [strftime_res pbind].
  rewrite !canonical_headers_eq. cbn [pbind].
  eexists. eexists. split; [reflexivity |]. split; [reflexivity |].
  repeat split.
Qed.

(** The headers after signing: [Host] is the host of the URL, [X-Amz-Date]
    the time stamp and [Authorization] the computed value, whatever the
    request carried under these names in any letter case; every other
    header is as the request had it. *)
Theorem signer_sets_three_headers_and_keeps_the_rest (self : EC2RequestAuth)
  (t : datetime) (r : prepared_request) :
  exists sg amzdate,
    sign_request sha256_hexdigest hmac_sha256 self t r = Ok sg
    /\ amzdate_of t = Some amzdate
    /\ ci_getitem "host" (sg_headers sg) = Ok (netloc (urlparse (r_url r)))
    /\ ci_getitem "x-amz-date" (sg_headers sg) = Ok amzdate
    /\ ci_getitem "authorization" (sg_headers sg) = Ok (sg_authorization_header sg)
    /\ forall k,
         lower k <> "host" ->
         lower k <> "x-amz-date" ->
         lower k <> "authorization" ->
         ci_getitem k (sg_headers sg) = ci_getitem k (r_headers r).
Proof.
  unfold sign_request.
  rewrite amzdate_of_eq, datestamp_of_eq. cbn [strftime_res pbind].
  rewrite canonical_headers_eq. cbn [pbind].
  eexists. eexists. split; [reflexivity |]. split; [reflexivity |].
  cbn [sg_headers sg_authorization_header].
  split.
  { rewrite (ci_get_set_other "Authorization" "host") by (cbv; discriminate).
    apply ci_get_set_same. reflexivity. }
  split.
  { rewrite (ci_get_set_other "Authorization" "x-amz-date") by (cbv; discriminate).
    rewrite (ci_get_set_other "Host" "x-amz-date") by (cbv; discriminate).
    apply ci_get_set_same. reflexivity. }
  split; [apply ci_get_set_same; reflexivity |].
  intros k H1 H2 H3.
  rewrite (ci_get_set_other "Authorization" k) by (intro E; apply H3; now rewrite <- E).
  rewrite (ci_get_set_other "Host" k) by (intro E; apply H1; now rewrite <- E).
  rewrite (ci_get_set_other "X-Amz-Date" k) by (intro E; apply H2; now rewrite <- E).
  reflexivity.
Qed.

(** The month is in no part of the key derivation: at two instants of the
    same year and day of the month, whatever their months, the date stamp,
    the credential scope and the signing key are the same. *)
Theorem signing_key_ignores_the_month (self : EC2RequestAuth) (t1 t2 : datetime)
  (r1 r2 : prepared_request) :
  year t1 = year t2 ->
  day t1 = day t2 ->
  exists sg1 sg2,
    sign_request sha256_hexdigest hmac_sha256 self t1 r1 = Ok sg1
    /\ sign_request sha256_hexdigest hmac_sha256 self t2 r2 = Ok sg2
    /\ sg_datestamp sg1 = sg_datestamp sg2
    /\ sg_credential_scope sg1 = sg_credential_scope sg2
    /\ sg_signing_key sg1 = sg_signing_key sg2.
Proof.
  intros Hy Hd.
  assert (E : year_m_day t1 = year_m_day t2)
    by (unfold year_m_day; now rewrite Hy, Hd).
  unfold sign_request.
  rewrite !amzdate_of_eq, !datestamp_of_eq. cbn [strftime_res pbind].
  rewrite !canonical_headers_eq. cbn [pbind].
  eexists. eexists. split; [reflexivity |]. split; [reflexivity |].
  cbn [sg_datestamp sg_credential_scope sg_signing_key].
  rewrite E. repeat split.
Qed.

(** For a URL made of a scheme, a host and an API path, the signed host is
    that host and the canonical URI is that path, or [/] when the path is
    empty; the canonical request is the method, the URI, an empty line for
    the query string, the two header lines, the header names and the hash
    of the body. *)
Theorem signed_host_and_uri (self : EC2RequestAuth) (t : datetime)
  (m sch host p : string) (h : headers_t) (b : req_body) :
  is_scheme sch = true ->
  is_authority host = true ->
  is_plain_path p = true ->
  exists sg amzdate,
    sign_request sha256_hexdigest hmac_sha256 self t
      {| r_method := m; r_url := sch ++ "://" ++ host ++ p;
         r_headers := h; r_body := b |} = Ok sg
    /\ amzdate_of t = Some amzdate
    /\ sg_canonical_uri sg = (if (p =? "")%string then "/" else p)
    /\ sg_canonical_uri sg <> ""
    /\ ci_getitem "Host" (sg_headers sg) = Ok host
    /\ sg_canonical_request sg
       = m ++ nl ++ sg_canonical_uri sg ++ nl ++ nl
           ++ "host:" ++ host ++ nl ++ "x-amz-date:" ++ amzdate ++ nl ++ nl
           ++ "host;x-amz-date" ++ nl ++ sha256_hexdigest (body_bytes b).
Proof.
  intros Hs Hh Hp. unfold sign_request. cbn [r_method r_url r_headers r_body].
  rewrite (urlparse_plain sch host p Hs Hh Hp). cbn [netloc path].
  rewrite amzdate_of_eq, datestamp_of_eq. cbn [strftime_res pbind].
  rewrite canonical_headers_eq. cbn [pbind].
  eexists. eexists. split; [reflexivity |]. split; [reflexivity |].
  cbn [sg_canonical_uri sg_headers sg_canonical_request].
  split; [reflexivity |].
  split; [destruct p; discriminate |].
  split.
  { rewrite (ci_get_set_other "Authorization" "Host") by (cbv; discriminate).
    apply ci_get_set_same. reflexivity. }
  change (String.concat ";" (sorted ["host"; "x-amz-date"])) with "host;x-amz-date".
  cbn [String.concat]. rewrite !append_assoc_r. reflexivity.
Qed.

End SignerFurther.

(* ===================================================================== *)
(** * Further properties of the API client                                *)
(* ===================================================================== *)

Lemma rstrip_slash_fixed (s : string) :
  ends_with_slash s = false -> rstrip_slash s = s.
Proof.
  induction s as [|c r IH]; [reflexivity |].
  destruct r as [|a r'].
  - cbn [ends_with_slash rstrip_slash]. intros ->. reflexivity.
  - intro H. change (ends_with_slash (String a r') = false) in H.
    cbn [rstrip_slash]. cbn [rstrip_slash] in IH. rewrite (IH H). reflexivity.
Qed.

Lemma rstrip_slash_spec (s : string) :
  ends_with_slash (rstrip_slash s) = false
  /\ exists k, s = rstrip_slash s ++ slashes k.
Proof.
  induction s as [|c r [IHe [k IHk]]]; [split; [reflexivity | now exists O] |].
  cbn [rstrip_slash]. destruct (rstrip_slash r) as [|a r'] eqn:E.
  - destruct (Ascii.eqb c "/") eqn:Ec.
    + split; [reflexivity |]. apply Ascii.eqb_eq in Ec. subst c.
      exists (S k). cbn [append slashes]. now rewrite IHk at 1.
    + split; [cbn [ends_with_slash]; exact Ec |].
      exists k. cbn [append]. now rewrite IHk at 1.
  - split; [exact IHe |]. exists k. cbn [append]. now rewrite IHk at 1.
Qed.

(** The client's base URL: the trailing slashes of the URL given to the
    constructor, however many, are removed and nothing else is, so that a
    path that starts with a slash is joined to it by exactly one slash;
    removing them again changes nothing. *)
Theorem base_url_has_no_trailing_slash (access_key secret_key region service
  url : string) (verbose : bool) :
  ends_with_slash
    (base_url (SangforSDKClient_init access_key secret_key region service url verbose))
  = false
  /\ (exists k,
        url = base_url (SangforSDKClient_init access_key secret_key region service
                          url verbose) ++ slashes k)
  /\ rstrip_slash (rstrip_slash url) = rstrip_slash url
  /\ _all_vms_cache
       (SangforSDKClient_init access_key secret_key region service url verbose)
     = None.
Proof.
  cbn [SangforSDKClient_init base_url _all_vms_cache].
  destruct (rstrip_slash_spec url) as [He Hk].
  split; [exact He |]. split; [exact Hk |].
  split; [apply rstrip_slash_fixed; exact He | reflexivity].
Qed.

(** [s.split(c)] has one segment more than [s] has occurrences of [c]. *)
Lemma split_all_count (c : ascii) (s : string) :
  List.length (split_all c s) = S (count_char c s).
Proof.
  induction s as [|a r IH]; [reflexivity |].
  cbn [split_all count_char]. destruct (Ascii.eqb a c); cbn [List.length].
  - now rewrite IH.
  - destruct (split_all c r) as [|seg segs]; [discriminate IH | exact IH].
Qed.

Lemma has_name_truthy (identifier : string) (vm : pyval) :
  has_name identifier vm = true ->
  truthy vm = true /\ py_get vm "id" PNone = Ok (vm_id_of vm).
Proof.
  destruct vm as [| | | | | | d]; try discriminate.
  cbn [has_name]. destruct d as [|kv d]; [discriminate |].
  intros _. split; reflexivity.
Qed.

Section ClientFurther.

Variable transport : list request -> request -> http_result.
Variable int_of_text : string -> pyres Z.
Variable sum_with_float : list pynum -> pyres pynum.
Variable str_other : pyval -> string.

(** [find_vm] decides between an id and a name by the hyphens alone: an
    identifier with exactly four hyphens is looked up as an id, with one
    GET and without a look at the VM list, also when a VM of that name is
    in the cache. *)
Theorem find_vm_takes_four_hyphens_for_an_id (fuel : nat) (identifier : string)
  (st : state) :
  count_char "-" identifier = 4%nat ->
  find_vm transport int_of_text str_other fuel identifier st
  = send_request transport "GET" ("/janus/20190725/servers/" ++ identifier)
      None None st.
Proof.
  intro H. unfold find_vm. rewrite split_all_count, H. cbn [Nat.eqb].
  unfold get_vm_details. destruct identifier as [|c s]; [discriminate H |].
  reflexivity.
Qed.

(** With a populated cache a lookup by name reads the cached list: when no
    record has the name it returns [None] and issues no request; when one
    has, the only request is the detail lookup with the [id] of the first
    such record. *)
Theorem find_vm_by_name_reads_the_cache (fuel : nat) (identifier : string)
  (st : state) (cached : list pyval) :
  count_char "-" identifier <> 4%nat ->
  _all_vms_cache (client st) = Some cached ->
  ((forall vm, In vm cached -> is_dict vm = true /\ has_name identifier vm = false) ->
   find_vm transport int_of_text str_other fuel identifier st = Returns PNone st)
  /\ (forall pre vm post,
         cached = (pre ++ vm :: post)%list ->
         (forall x, In x pre -> is_dict x = true /\ has_name identifier x = false) ->
         has_name identifier vm = true ->
         find_vm transport int_of_text str_other fuel identifier st
         = get_vm_details transport str_other (vm_id_of vm) st).
Proof.
  intros Hn Hc.
  assert (E : find_vm transport int_of_text str_other fuel identifier st
              = bind (lift (first_named identifier cached))
                  (fun target_vm =>
                     if truthy target_vm
                     then bind (lift (py_get target_vm "id" PNone))
                            (get_vm_details transport str_other)
                     else ret PNone) st).
  { unfold find_vm. rewrite split_all_count.
    replace (S (count_char "-" identifier) =? 5)%nat with false
      by (symmetry; apply Nat.eqb_neq; intro E; apply Hn; now injection E).
    unfold bind at 1. unfold get_all_vms. rewrite Hc. reflexivity. }
  split.
  - intro Hall. rewrite E. unfold bind.
    rewrite (first_named_none identifier cached Hall). reflexivity.
  - intros pre vm post -> Hpre Hv. rewrite E. unfold bind at 1.
    rewrite (first_named_found identifier pre post vm Hpre Hv). cbn [lift ret].
    destruct (has_name_truthy identifier vm Hv) as [Ht Hi].
    rewrite Ht. unfold bind. rewrite Hi. reflexivity.
Qed.

(** The pagination loop has no bound of its own: against a backend that
    answers every request with a page that has records and a token, no
    number of iterations brings it to an end, and so neither
    [get_all_vms] without a cached list nor the report ever returns. *)
Theorem pagination_never_ends_on_endless_pages :
  always_more transport int_of_text ->
  (forall fuel acc p st, scan_pages transport int_of_text fuel acc p st = OutOfFuel)
  /\ (forall fuel st, get_all_vms transport int_of_text fuel false st = OutOfFuel)
  /\ (forall fuel now_iso st,
         generate_infrastructure_report transport int_of_text sum_with_float fuel
           now_iso st
         = OutOfFuel).
Proof.
  intro H.
  assert (Hs : forall fuel acc p st,
             scan_pages transport int_of_text fuel acc p st = OutOfFuel).
  { induction fuel as [|fuel IH]; intros acc p st; [reflexivity |].
    destruct (H (sent st) (page_request (base_url (client st)) p))
      as (code & response & vms & next & n & Ht & Hp & Hv & Hn & Hi).
    assert (Hg : get_vms transport (PInt p) (PInt PAGE_SIZE) st
                 = Returns response
                     (log_request (page_request (base_url (client st)) p) st)).
    { rewrite get_vms_page, send_request_cases. cbv zeta.
      unfold page_request in Ht. rewrite Ht. reflexivity. }
    rewrite (scan_reads_page transport int_of_text fuel acc p st response _ vms next Hg Hp).
    rewrite Hn. destruct vms as [|v vms]; [now contradiction Hv |].
    cbn [truthy negb orb]. unfold bind, lift. rewrite Hi. apply IH. }
  split; [exact Hs |].
  assert (Hg : forall fuel st,
             get_all_vms transport int_of_text fuel false st = OutOfFuel).
  { intros fuel st. rewrite get_all_vms_uncached by (now left).
    unfold full_scan, bind. now rewrite Hs. }
  split; [exact Hg |].
  intros fuel now_iso st. unfold generate_infrastructure_report.
  unfold bind at 1. now rewrite Hg.
Qed.

(** A scan that raises leaves the client, and with it the cached list, as
    it was; the requests it issued, the first for page 0, stay issued. *)
Theorem failed_scan_keeps_the_cache (fuel : nat) (use_cache : bool) (st : state)
  (e : pyexc) (st' : state) :
  get_all_vms transport int_of_text fuel use_cache st = Raises e st' ->
  client st' = client st
  /\ exists more,
       sent st' = (sent st ++ page_request (base_url (client st)) 0 :: more)%list.
Proof.
  intro H.
  assert (Hf : full_scan transport int_of_text fuel st = Raises e st').
  { unfold get_all_vms in H.
    destruct use_cache; [destruct (_all_vms_cache (client st)) |];
      try discriminate H; exact H. }
  clear H. unfold full_scan, bind, store_cache, ret in Hf.
  pose proof (scan_pages_sent transport int_of_text fuel [] 0 st) as Hs.
  destruct (scan_pages transport int_of_text fuel [] 0 st) as [l st1 | e1 st1 |];
    try discriminate Hf.
  injection Hf as _ <-. exact Hs.
Qed.

(** A lookup by name cannot tell a failed request from a missing VM: when
    the cache is empty and the first response of the scan is one the guard
    stops at, as it is when the transport fails or the server answers with
    an error object, [find_vm] returns [None] as it does for an unknown name, and
    the empty list it scanned is left in the cache. *)
Theorem name_lookup_reports_a_failed_scan_as_not_found (fuel : nat)
  (identifier : string) (st : state) (response : pyval) (st1 : state) :
  count_char "-" identifier <> 4%nat ->
  _all_vms_cache (client st) = None ->
  get_vms transport (PInt 0) (PInt PAGE_SIZE) st = Returns response st1 ->
  guard_stops response = true ->
  find_vm transport int_of_text str_other (S fuel) identifier st
  = Returns PNone {| client := set_cache (Some []) (client st1); sent := sent st1 |}
  /\ sent st1 = (sent st ++ [page_request (base_url (client st)) 0])%list.
Proof.
  intros Hn Hc Hg Hm. split; [| rewrite (get_vms_logs transport 0 st response st1 Hg);
                                reflexivity].
  unfold find_vm. rewrite split_all_count.
  replace (S (count_char "-" identifier) =? 5)%nat with false
    by (symmetry; apply Nat.eqb_neq; intro E; apply Hn; now injection E).
  unfold bind at 1. rewrite get_all_vms_uncached by (now right).
  unfold full_scan. unfold bind at 1.
  rewrite (scan_stops_at_guard transport int_of_text fuel [] 0 st response st1 Hg Hm).
  reflexivity.
Qed.

(** The report always scans: whenever [generate_infrastructure_report]
    returns, its first request was the one for page 0, whatever the cache
    held, and the cache now holds the list it scanned, which a later
    cached call returns without a request. *)
Theorem report_refreshes_the_cache (fuel : nat) (now_iso : string) (st : state)
  (r : report_result) (st' : state) :
  generate_infrastructure_report transport int_of_text sum_with_float fuel now_iso st
  = Returns r st' ->
  exists l more,
    _all_vms_cache (client st') = Some l
    /\ sent st' = (sent st ++ page_request (base_url (client st)) 0 :: more)%list
    /\ (forall fuel', get_all_vms transport int_of_text fuel' true st' = Returns l st')
    /\ (l = [] <-> r = NoVMsFound).
Proof.
  unfold generate_infrastructure_report. unfold bind at 1.
  rewrite get_all_vms_uncached by (now left).
  pose proof (full_scan_sent transport int_of_text fuel st) as Hsent.
  destruct (full_scan transport int_of_text fuel st) as [l st1 | |] eqn:Ef;
    try discriminate.
  destruct (full_scan_stores transport int_of_text fuel st l st1 Ef) as [Hc _].
  destruct Hsent as [more Hsent].
  unfold bind at 1. unfold get_availability_zones.
  destruct (send_request_logs transport "GET" "/janus/20190725/azs" None None st1)
    as [[v E] | E]; rewrite E; [| discriminate].
  unfold bind at 1.
  destruct (az_list_of v) as [az_list | e]; cbn [lift ret raise]; [| discriminate].
  assert (Hfinal : forall st2,
             st2 = log_request
                     {| rq_method := "GET";
                        rq_url := base_url (client st1) ++ "/janus/20190725/azs";
                        rq_params := None; rq_json := None |} st1 ->
             _all_vms_cache (client st2) = Some l
             /\ sent st2
                = (sent st ++ page_request (base_url (client st)) 0
                     :: (more ++ [{| rq_method := "GET";
                                     rq_url := base_url (client st1)
                                               ++ "/janus/20190725/azs";
                                     rq_params := None; rq_json := None |}]))%list
             /\ (forall fuel',
                    get_all_vms transport int_of_text fuel' true st2 = Returns l st2)).
  { intros st2 ->. unfold log_request. cbn [client sent].
    split; [exact Hc |]. split; [rewrite Hsent, <- app_assoc; reflexivity |].
    intro fuel'. unfold get_all_vms. cbn [client]. rewrite Hc. reflexivity. }
  destruct l as [|x l].
  - intro H. injection H as <- <-.
    destruct (Hfinal _ eq_refl) as (H1 & H2 & H3).
    eexists. eexists. split; [exact H1 |]. split; [exact H2 |].
    split; [exact H3 |]. split; reflexivity.
  - unfold bind.
    destruct (build_report sum_with_float now_iso (x :: l) az_list) as [rep | e];
      cbn [lift ret raise]; [| discriminate].
    intro H. injection H as <- <-.
    destruct (Hfinal _ eq_refl) as (H1 & H2 & H3).
    eexists. eexists. split; [exact H1 |]. split; [exact H2 |].
    split; [exact H3 |]. split; discriminate.
Qed.

End ClientFurther.

(** The scan reads a chain of pages, whatever their sizes, to the end:
    against a backend that serves a table of pages in which every page but
    the last has records and the number of the next page, and the last has
    no token, an uncached [get_all_vms] returns the records of all the
    pages in the order served, has issued one request per page, in page
    order, and has stored the list. *)
Theorem scan_returns_all_pages_in_order (int_of_text : string -> pyres Z)
  (pages : list (list pyval * option Z)) (k : nat) (use_cache : bool) (st : state) :
  chain_ok 0 pages = true ->
  use_cache = false \/ _all_vms_cache (client st) = None ->
  get_all_vms (paged_transport pages) int_of_text (List.length pages + k) use_cache st
  = Returns (List.concat (map fst pages))
      {| client := set_cache (Some (List.concat (map fst pages))) (client st);
         sent := (sent st
                  ++ page_requests (base_url (client st)) 0 (List.length pages))%list |}.
Proof.
  intros Hc Hu. rewrite (get_all_vms_uncached _ _ _ _ _ Hu).
  unfold full_scan, bind.
  pose proof (scan_reads_chain int_of_text pages pages [] k [] st eq_refl Hc) as E.
  cbn [List.length Z.of_nat app] in E. rewrite E. reflexivity.
Qed.

(* ===================================================================== *)
(** * Properties of the report                                            *)
(* ===================================================================== *)

Section ReportProperties.

Variable sum_with_float : list pynum -> pyres pynum.

(** Destructs the head of a chain of binds that is known to succeed. *)
Ltac bind_ok H :=
  repeat match type of H with
         | pbind ?c _ = Ok _ =>
             let E := fresh "E" in
             destruct c eqn:E; cbn [pbind] in H; [| discriminate H]
         end.

Lemma zone_set_keys (k : pyval) (t : totals) (z : zones_t) :
  zone_find k z <> None -> map fst (zone_set k t z) = map fst z.
Proof.
  induction z as [|[k' t'] z IH]; cbn [zone_find zone_set]; intro H.
  - now contradiction H.
  - destruct (key_eq k' k); cbn [map fst]; [reflexivity |].
    now rewrite IH.
Qed.

(** Whether a key is in the table is a matter of the keys alone. *)
Lemma zone_find_keys (k : pyval) (z z' : zones_t) :
  map fst z = map fst z' ->
  match zone_find k z with Some _ => true | None => false end
  = match zone_find k z' with Some _ => true | None => false end.
Proof.
  revert z'; induction z as [|[k1 t1] z IH]; intros [|[k2 t2] z'] H;
    try discriminate; [reflexivity |].
  cbn [map fst] in H. injection H as -> H.
  cbn [zone_find]. destruct (key_eq k2 k); [reflexivity | now apply IH].
Qed.

Lemma zone_excluded_keys (vm : pyval) (z z' : zones_t) :
  map fst z = map fst z' -> zone_excluded z vm = zone_excluded z' vm.
Proof.
  intro H. destruct vm as [| | | | | | d]; try reflexivity.
  cbn [zone_excluded]. destruct (dict_get d "az_name") as [a |]; [| reflexivity].
  pose proof (zone_find_keys a z z' H) as E.
  destruct (zone_find a z), (zone_find a z'); try discriminate; reflexivity.
Qed.

(** The loop body leaves an excluded VM out: the state is returned as it
    is. *)
Lemma account_vm_excluded (rep : report_acc) (vm : pyval) :
  zone_excluded (acc_zones rep) vm = true -> account_vm sum_with_float rep vm = Ok rep.
Proof.
  intro H. destruct vm as [| | | | | | d]; try discriminate.
  cbn [zone_excluded] in H. unfold account_vm. cbn [py_get pbind].
  destruct (dict_get d "az_name") as [a |]; [| reflexivity].
  destruct (truthy a); [| reflexivity].
  cbn [negb orb] in H. apply andb_true_iff in H as [Hh Hf].
  unfold zone_contains. rewrite Hh. cbn [pbind].
  destruct (zone_find a (acc_zones rep)); [discriminate | reflexivity].
Qed.

(** The loop body never adds or removes a zone. *)
Lemma account_vm_keys (rep rep' : report_acc) (vm : pyval) :
  account_vm sum_with_float rep vm = Ok rep' ->
  map fst (acc_zones rep') = map fst (acc_zones rep).
Proof.
  unfold account_vm. intro H.
  destruct (py_get vm "az_name" PNone) as [az_name |]; cbn [pbind] in H;
    [| discriminate].
  destruct (negb (truthy az_name)); [now injection H as <- |].
  unfold zone_contains in H.
  destruct (hashable az_name); cbn [pbind] in H; [| discriminate].
  destruct (zone_find az_name (acc_zones rep)) as [t |] eqn:Ef; cbn [negb] in H;
    [| now injection H as <-].
  bind_ok H. injection H as <-. cbn [acc_zones].
  apply zone_set_keys. now rewrite Ef.
Qed.

(** An excluded VM anywhere in the list changes nothing of the loop's
    result, errors included. *)
Lemma account_vms_excluded (l1 l2 : list pyval) (vm : pyval) :
  forall rep,
    zone_excluded (acc_zones rep) vm = true ->
    account_vms sum_with_float rep (l1 ++ vm :: l2)
    = account_vms sum_with_float rep (l1 ++ l2).
Proof.
  induction l1 as [|x l1 IH]; intros rep H; cbn [app account_vms].
  - now rewrite (account_vm_excluded rep vm H).
  - destruct (account_vm sum_with_float rep x) as [rep' | e] eqn:E; cbn [pbind];
      [| reflexivity].
    apply IH. rewrite <- H. apply zone_excluded_keys.
    exact (account_vm_keys rep rep' x E).
Qed.

Lemma round_zero_totals : round_totals zero_totals = zero_totals.
Proof. vm_compute. reflexivity. Qed.

(** C8: a VM record whose [az_name] is absent, falsy or a key that the
    zone table does not hold is left out by the loop body, which returns
    its state unchanged; the report built from a list with such a VM in it
    is the report built from the list without it, whether that is a report
    or an error raised by another record; and the report built from that VM
    alone is a report whose overall totals are all zero. *)
Theorem C8_excluded_vm_contributes_nothing (now_iso : string) (az_list : pyval)
  (zones : zones_t) (l1 l2 : list pyval) (vm : pyval) :
  report_zones az_list = Ok zones ->
  zone_excluded zones vm = true ->
  (forall rep,
      map fst (acc_zones rep) = map fst zones ->
      account_vm sum_with_float rep vm = Ok rep)
  /\ build_report sum_with_float now_iso (l1 ++ vm :: l2) az_list
     = build_report sum_with_float now_iso (l1 ++ l2) az_list
  /\ build_report sum_with_float now_iso [vm] az_list
     = Ok {| report_generated_at := now_iso;
             overall_totals := zero_totals;
             by_availability_zone :=
               map (fun kt => (fst kt, round_totals (snd kt))) zones |}.
Proof.
  intros Hz Hx. split; [| split].
  - intros rep Hk. apply account_vm_excluded.
    now rewrite (zone_excluded_keys vm _ zones Hk).
  - unfold build_report. rewrite Hz. cbn [pbind].
    now rewrite account_vms_excluded.
  - unfold build_report. rewrite Hz. cbn [pbind account_vms].
    rewrite account_vm_excluded by exact Hx.
    cbn [pbind acc_overall acc_zones]. now rewrite round_zero_totals.
Qed.

(** What [add_provisioned] did when it succeeded: three sums, none of
    them rounded. *)
Lemma add_provisioned_inv (cores memory_mb : pyval) (total_disk_mb : pynum)
  (t t' : totals) :
  add_provisioned cores memory_mb total_disk_mb t = Ok t' ->
  py_add_val (cpu_cores (total_provisioned t)) cores
  = Ok (cpu_cores (total_provisioned t'))
  /\ (exists g, py_truediv memory_mb 1024 = Ok g
                /\ py_add (prov_memory_gb (total_provisioned t)) g
                   = Ok (prov_memory_gb (total_provisioned t')))
  /\ (exists g, num_truediv total_disk_mb (1024 * 1024) = Ok g
                /\ py_add (disk_tb (total_provisioned t)) g
                   = Ok (disk_tb (total_provisioned t'))).
Proof.
  unfold add_provisioned. intro H. bind_ok H. injection H as <-.
  cbn [total_provisioned cpu_cores prov_memory_gb disk_tb].
  split; [reflexivity |]. split; eexists; split; eauto.
Qed.

(** A "used" block leaves the provisioned totals alone. *)
Lemma add_used_block_provisioned (vm : pyval) (field key : string)
  (add : pyval -> totals -> pyres totals) (o a : totals) (oa : totals * totals) :
  (forall v t t', add v t = Ok t' -> total_provisioned t' = total_provisioned t) ->
  add_used_block vm field key add o a = Ok oa ->
  total_provisioned (fst oa) = total_provisioned o
  /\ total_provisioned (snd oa) = total_provisioned a.
Proof.
  intros Hadd H. unfold add_used_block in H. bind_ok H.
  destruct (truthy a0).
  - bind_ok H. injection H as <-. cbn [fst snd]. split; eapply Hadd; eassumption.
  - injection H as <-. split; reflexivity.
Qed.

Lemma add_used_cpu_provisioned (v : pyval) (t t' : totals) :
  add_used_cpu v t = Ok t' -> total_provisioned t' = total_provisioned t.
Proof. unfold add_used_cpu. intro H. bind_ok H. now injection H as <-. Qed.

Lemma add_used_memory_provisioned (v : pyval) (t t' : totals) :
  add_used_memory v t = Ok t' -> total_provisioned t' = total_provisioned t.
Proof. unfold add_used_memory. intro H. bind_ok H. now injection H as <-. Qed.

Lemma add_used_disk_provisioned (v : pyval) (t t' : totals) :
  add_used_disk v t = Ok t' -> total_provisioned t' = total_provisioned t.
Proof. unfold add_used_disk. intro H. bind_ok H. now injection H as <-. Qed.

Lemma no_disks_tb : int_truediv 0 (1024 * 1024) = Ok 0%float.
Proof. vm_compute. reflexivity. Qed.

(** The provisioned totals after a VM that has a memory size only. *)
Lemma add_provisioned_memory (m : Z) (q x : float) (t : totals) :
  int_truediv m 1024 = Ok q ->
  memory_is x t ->
  exists t',
    add_provisioned (PInt 0) (PInt m) (NInt 0) t = Ok t'
    /\ memory_is (x + q)%float t'.
Proof.
  intros Hq (Hm & [c Hc] & [d Hd]). unfold add_provisioned.
  rewrite Hc, Hm, Hd. unfold py_add_val, py_truediv, num_truediv.
  cbn [as_num py_add pbind]. rewrite Hq, no_disks_tb. cbn [pbind py_add].
  eexists. split; [reflexivity |].
  repeat split; cbn [total_provisioned prov_memory_gb cpu_cores disk_tb]; eauto.
Qed.

Lemma memory_is_count (b : status_bucket) (x : float) (t : totals) :
  memory_is x t -> memory_is x (count_vm b t).
Proof. intro H. exact H. Qed.

Lemma memory_is_zero : memory_is 0%float zero_totals.
Proof. repeat split; cbn; eauto. Qed.

(** One iteration on a VM of the only zone that has a memory size only. *)
Lemma account_vm_memory (zone : string) (m : Z) (q x xz : float)
  (o tz : totals) :
  zone <> "" ->
  int_truediv m 1024 = Ok q ->
  memory_is x o ->
  memory_is xz tz ->
  exists o' tz',
    account_vm sum_with_float {| acc_overall := o; acc_zones := [(PStr zone, tz)] |}
      (vm_with_memory zone m)
    = Ok {| acc_overall := o'; acc_zones := [(PStr zone, tz')] |}
    /\ memory_is (x + q)%float o'
    /\ memory_is (xz + q)%float tz'.
Proof.
  intros Hz Hq Ho Ht.
  destruct (add_provisioned_memory m q x (count_vm Other o) Hq
              (memory_is_count Other x o Ho)) as (o' & Eo & Ho').
  destruct (add_provisioned_memory m q xz (count_vm Other tz) Hq
              (memory_is_count Other xz tz Ht)) as (tz' & Et & Ht').
  exists o', tz'. split; [| split; assumption].
  unfold account_vm.
  change (py_get (vm_with_memory zone m) "az_name" PNone) with (Ok (PStr zone)).
  cbn [pbind truthy]. apply String.eqb_neq in Hz. rewrite Hz. cbn [negb].
  unfold zone_contains. cbn [hashable zone_find key_eq acc_zones].
  rewrite String.eqb_refl. cbn [pbind negb].
  change (py_get (vm_with_memory zone m) "status" (PStr "other"))
    with (Ok (PStr "other")).
  change (py_get (vm_with_memory zone m) "cores" (PInt 0)) with (Ok (PInt 0)).
  change (py_get (vm_with_memory zone m) "memory_mb" (PFloat 0)) with (Ok (PInt m)).
  change (py_get (vm_with_memory zone m) "disks" (PList [])) with (Ok (PList [])).
  cbn [pbind py_iter sum_size_mb disk_sizes py_sum int_sum acc_overall].
  change (bucket_of (PStr "other")) with Other.
  rewrite Eo, Et. cbn [pbind].
  unfold add_used_block.
  change (py_get (vm_with_memory zone m) "cpu_status" PNone) with (Ok PNone).
  change (py_get (vm_with_memory zone m) "memory_status" PNone) with (Ok PNone).
  change (py_get (vm_with_memory zone m) "storage_status" PNone) with (Ok PNone).
  cbn [pbind truthy fst snd zone_set key_eq]. rewrite String.eqb_refl.
  reflexivity.
Qed.

(** The loop over VMs of the only zone that have a memory size only: the
    provisioned memory grows by the quotients, added as floats in list
    order; nothing is rounded. *)
Lemma account_vms_memory (zone : string) (ms : list Z) (qs : list float) :
  zone <> "" ->
  Forall2 (fun m q => int_truediv m 1024 = Ok q) ms qs ->
  forall x xz o tz,
    memory_is x o ->
    memory_is xz tz ->
    exists o' tz',
      account_vms sum_with_float {| acc_overall := o; acc_zones := [(PStr zone, tz)] |}
        (map (vm_with_memory zone) ms)
      = Ok {| acc_overall := o'; acc_zones := [(PStr zone, tz')] |}
      /\ memory_is (fold_left PrimFloat.add qs x) o'
      /\ memory_is (fold_left PrimFloat.add qs xz) tz'.
Proof.
  intros Hz HF. induction HF as [|m q ms qs Hq HF IH]; intros x xz o tz Ho Ht.
  - exists o, tz. split; [reflexivity | split; assumption].
  - destruct (account_vm_memory zone m q x xz o tz Hz Hq Ho Ht)
      as (o1 & tz1 & E1 & Ho1 & Ht1).
    destruct (IH _ _ o1 tz1 Ho1 Ht1) as (o' & tz' & E & Ho' & Ht').
    exists o', tz'. cbn [map account_vms fold_left]. rewrite E1. cbn [pbind].
    auto.
Qed.

Lemma report_zones_one (zone : string) :
  zone <> "" -> report_zones (one_zone zone) = Ok [(PStr zone, zero_totals)].
Proof.
  intro Hz. apply String.eqb_neq in Hz.
  unfold report_zones, one_zone. cbn [truthy py_iter pbind init_zones].
  change (py_get (PDict [("name", PStr zone)]) "name" PNone) with (Ok (PStr zone)).
  cbn [pbind truthy hashable zone_set]. rewrite Hz. reflexivity.
Qed.

Lemma add_provisioned_used (cores memory_mb : pyval) (total_disk_mb : pynum)
  (t t' : totals) :
  add_provisioned cores memory_mb total_disk_mb t = Ok t' ->
  total_used t' = total_used t.
Proof. unfold add_provisioned. intro H. bind_ok H. now injection H as <-. Qed.

(** What the three additions to the "used" sums did when they succeeded:
    one sum each, not rounded, and nothing else. *)
Lemma add_used_cpu_inv (v : pyval) (t t' : totals) :
  add_used_cpu v t = Ok t' ->
  total_provisioned t' = total_provisioned t
  /\ plus_mhz v (cpu_mhz (total_used t)) = Ok (cpu_mhz (total_used t'))
  /\ used_memory_gb (total_used t') = used_memory_gb (total_used t)
  /\ disk_gb (total_used t') = disk_gb (total_used t).
Proof.
  unfold add_used_cpu, plus_mhz. intro H. bind_ok H. injection H as <-.
  repeat split.
Qed.

Lemma add_used_memory_inv (v : pyval) (t t' : totals) :
  add_used_memory v t = Ok t' ->
  total_provisioned t' = total_provisioned t
  /\ cpu_mhz (total_used t') = cpu_mhz (total_used t)
  /\ plus_gb_of_mb v (used_memory_gb (total_used t))
     = Ok (used_memory_gb (total_used t'))
  /\ disk_gb (total_used t') = disk_gb (total_used t).
Proof.
  unfold add_used_memory, plus_gb_of_mb. intro H. bind_ok H. injection H as <-.
  cbn [pbind]. rewrite E0. repeat split.
Qed.

Lemma add_used_disk_inv (v : pyval) (t t' : totals) :
  add_used_disk v t = Ok t' ->
  total_provisioned t' = total_provisioned t
  /\ cpu_mhz (total_used t') = cpu_mhz (total_used t)
  /\ used_memory_gb (total_used t') = used_memory_gb (total_used t)
  /\ plus_gb_of_mb v (disk_gb (total_used t)) = Ok (disk_gb (total_used t')).
Proof.
  unfold add_used_disk, plus_gb_of_mb. intro H. bind_ok H. injection H as <-.
  cbn [pbind]. rewrite E0. repeat split.
Qed.

(** A "used" block is the same step on the overall totals and on the
    zone's. *)
Lemma add_used_block_sides (vm : pyval) (field key : string)
  (add : pyval -> totals -> pyres totals) (o a : totals) (oa : totals * totals) :
  add_used_block vm field key add o a = Ok oa ->
  block_step vm field key add o (fst oa) /\ block_step vm field key add a (snd oa).
Proof.
  unfold add_used_block, block_step. intro H. bind_ok H.
  destruct (truthy a0) eqn:Et.
  - bind_ok H. injection H as <-. cbn [fst snd].
    split; eexists; (split; [reflexivity |]); rewrite Et; eauto.
  - injection H as <-. cbn [fst snd].
    split; eexists; (split; [reflexivity |]); rewrite Et; reflexivity.
Qed.

(** The six sums of one of the two totals after one VM: the provisioned
    sums are made first, then the three "used" blocks, each of which
    leaves the other sums alone. *)
Lemma totals_vm_added (vm cores memory_mb disks : pyval) (disk_items : list pyval)
  (total_disk_mb : pynum) (b : status_bucket) (t t2 t3 t4 t5 : totals) :
  py_get vm "cores" (PInt 0) = Ok cores ->
  py_get vm "memory_mb" (PFloat 0) = Ok memory_mb ->
  py_get vm "disks" (PList []) = Ok disks ->
  py_iter disks = Ok disk_items ->
  sum_size_mb sum_with_float disk_items = Ok total_disk_mb ->
  add_provisioned cores memory_mb total_disk_mb (count_vm b t) = Ok t2 ->
  block_step vm "cpu_status" "used_mhz" add_used_cpu t2 t3 ->
  block_step vm "memory_status" "used_mb" add_used_memory t3 t4 ->
  block_step vm "storage_status" "used_mb" add_used_disk t4 t5 ->
  vm_added sum_with_float vm t t5.
Proof.
  intros Hc Hm Hd Hi Hs Hp (s3 & G3 & B3) (s4 & G4 & B4) (s5 & G5 & B5).
  pose proof (add_provisioned_used _ _ _ _ _ Hp) as Hu2.
  apply add_provisioned_inv in Hp as (Pc & (g & Pg & Pm) & (gd & Pgd & Pd)).
  cbn [count_vm total_provisioned total_used] in Pc, Pm, Pd, Hu2.
  assert (F3 : total_provisioned t3 = total_provisioned t2
               /\ used_added vm "cpu_status" "used_mhz" plus_mhz
                    (cpu_mhz (total_used t2)) (cpu_mhz (total_used t3))
               /\ used_memory_gb (total_used t3) = used_memory_gb (total_used t2)
               /\ disk_gb (total_used t3) = disk_gb (total_used t2)).
  { unfold used_added. destruct (truthy s3) eqn:Et.
    - destruct B3 as (v & Gv & Ha). apply add_used_cpu_inv in Ha as (A1 & A2 & A3 & A4).
      repeat split; try assumption.
      exists s3. split; [exact G3 |]. rewrite Et. exists v. now split.
    - subst t3. repeat split. exists s3. split; [exact G3 |]. now rewrite Et. }
  assert (F4 : total_provisioned t4 = total_provisioned t3
               /\ cpu_mhz (total_used t4) = cpu_mhz (total_used t3)
               /\ used_added vm "memory_status" "used_mb" plus_gb_of_mb
                    (used_memory_gb (total_used t3)) (used_memory_gb (total_used t4))
               /\ disk_gb (total_used t4) = disk_gb (total_used t3)).
  { unfold used_added. destruct (truthy s4) eqn:Et.
    - destruct B4 as (v & Gv & Ha).
      apply add_used_memory_inv in Ha as (A1 & A2 & A3 & A4).
      repeat split; try assumption.
      exists s4. split; [exact G4 |]. rewrite Et. exists v. now split.
    - subst t4. repeat split. exists s4. split; [exact G4 |]. now rewrite Et. }
  assert (F5 : total_provisioned t5 = total_provisioned t4
               /\ cpu_mhz (total_used t5) = cpu_mhz (total_used t4)
               /\ used_memory_gb (total_used t5) = used_memory_gb (total_used t4)
               /\ used_added vm "storage_status" "used_mb" plus_gb_of_mb
                    (disk_gb (total_used t4)) (disk_gb (total_used t5))).
  { unfold used_added. destruct (truthy s5) eqn:Et.
    - destruct B5 as (v & Gv & Ha).
      apply add_used_disk_inv in Ha as (A1 & A2 & A3 & A4).
      repeat split; try assumption.
      exists s5. split; [exact G5 |]. rewrite Et. exists v. now split.
    - subst t5. repeat split. exists s5. split; [exact G5 |]. now rewrite Et. }
  destruct F3 as (P3 & U3 & M3 & D3).
  destruct F4 as (P4 & C4 & U4 & D4).
  destruct F5 as (P5 & C5 & M5 & U5).
  unfold vm_added. rewrite P5, P4, P3.
  split; [exists cores; now split |].
  split; [exists memory_mb, g; now repeat split |].
  split; [exists disks, disk_items, total_disk_mb, gd; now repeat split |].
  rewrite C5, C4, M5, <- Hu2.
  split; [exact U3 |].
  rewrite <- M3. split; [exact U4 |].
  rewrite <- D3, <- D4. exact U5.
Qed.

(** One iteration on a VM that is not left out adds the six quantities of
    the VM, none of them rounded, to the overall sums and to the sums of
    the VM's zone, and touches no other zone. *)
Lemma account_vm_adds_all (rep rep' : report_acc) (vm : pyval) :
  account_vm sum_with_float rep vm = Ok rep' ->
  zone_excluded (acc_zones rep) vm = false ->
  vm_added sum_with_float vm (acc_overall rep) (acc_overall rep')
  /\ exists az_name tz tz',
       py_get vm "az_name" PNone = Ok az_name
       /\ zone_find az_name (acc_zones rep) = Some tz
       /\ acc_zones rep' = zone_set az_name tz' (acc_zones rep)
       /\ vm_added sum_with_float vm tz tz'.
Proof.
  intros H Hx. unfold account_vm in H.
  destruct vm as [| | | | | | d]; try discriminate.
  cbn [zone_excluded] in Hx.
  destruct (py_get (PDict d) "az_name" PNone) as [a |] eqn:Ea; [| discriminate].
  cbn [py_get] in Ea. injection Ea as Ea.
  destruct (dict_get d "az_name") as [a0 |]; [subst a0 | discriminate].
  cbn [pbind] in H.
  apply orb_false_iff in Hx as [Ht Hx]. rewrite Ht in H.
  unfold zone_contains in H.
  destruct (hashable a); cbn [pbind andb] in H, Hx; [| discriminate].
  destruct (zone_find a (acc_zones rep)) as [tz |] eqn:Ez; [| discriminate].
  cbn [negb pbind] in H.
  destruct (py_get (PDict d) "status" (PStr "other")) as [status |] eqn:Est;
    cbn [pbind] in H; [| discriminate].
  destruct (py_get (PDict d) "cores" (PInt 0)) as [cores |] eqn:Ec;
    cbn [pbind] in H; [| discriminate].
  destruct (py_get (PDict d) "memory_mb" (PFloat 0)) as [memory_mb |] eqn:Em;
    cbn [pbind] in H; [| discriminate].
  destruct (py_get (PDict d) "disks" (PList [])) as [disks |] eqn:Ed;
    cbn [pbind] in H; [| discriminate].
  destruct (py_iter disks) as [disk_items |] eqn:Ei; cbn [pbind] in H;
    [| discriminate].
  destruct (sum_size_mb sum_with_float disk_items) as [total_disk_mb |] eqn:Es;
    cbn [pbind] in H; [| discriminate].
  destruct (add_provisioned cores memory_mb total_disk_mb
              (count_vm (bucket_of status) (acc_overall rep))) as [o2 |] eqn:Eo;
    cbn [pbind] in H; [| discriminate].
  destruct (add_provisioned cores memory_mb total_disk_mb
              (count_vm (bucket_of status) tz)) as [a2 |] eqn:Eaz;
    cbn [pbind] in H; [| discriminate].
  destruct (add_used_block (PDict d) "cpu_status" "used_mhz" add_used_cpu o2 a2)
    as [oa3 |] eqn:E3; cbn [pbind] in H; [| discriminate].
  destruct (add_used_block (PDict d) "memory_status" "used_mb" add_used_memory
              (fst oa3) (snd oa3)) as [oa4 |] eqn:E4; cbn [pbind] in H;
    [| discriminate].
  destruct (add_used_block (PDict d) "storage_status" "used_mb" add_used_disk
              (fst oa4) (snd oa4)) as [oa5 |] eqn:E5; cbn [pbind] in H;
    [| discriminate].
  injection H as <-. cbn [acc_overall acc_zones].
  apply add_used_block_sides in E3 as [O3 A3].
  apply add_used_block_sides in E4 as [O4 A4].
  apply add_used_block_sides in E5 as [O5 A5].
  split.
  - exact (totals_vm_added _ _ _ _ _ _ _ _ _ _ _ _ Ec Em Ed Ei Es Eo O3 O4 O5).
  - exists a, tz, (snd oa5). split; [reflexivity |]. split; [exact Ez |].
    split; [reflexivity |].
    exact (totals_vm_added _ _ _ _ _ _ _ _ _ _ _ _ Ec Em Ed Ei Es Eaz A3 A4 A5).
Qed.

(** C3 (as amended): every sum of the report is accumulated as it is and
    rounded to two decimals once, in the final pass.  Each VM that is
    counted adds its six quantities (cores, [memory_mb / 1024], the disk
    total over [1024 * 1024], and the used MHz, memory and storage),
    unrounded, to the overall sums and to the sums of its zone; a VM that
    is left out changes nothing; the report, which is the one
    [generate_infrastructure_report] returns, holds, for the overall totals
    and for every zone, the rounding of the six sums the loop ended with.
    So the provisioned memory of VMs with a memory size only is the
    rounding of the float sum of the quotients; for the three VMs with
    1536, 2048 and 513 MB it is exactly 4.0 GB.  Two VMs whose float
    quantities each round to 0.0 give 0.01 for each of the five float
    sums. *)
Theorem C3_memory_rounded_once_at_the_end :
  (forall rep vm rep',
      account_vm sum_with_float rep vm = Ok rep' ->
      zone_excluded (acc_zones rep) vm = false ->
      vm_added sum_with_float vm (acc_overall rep) (acc_overall rep')
      /\ exists az_name tz tz',
           py_get vm "az_name" PNone = Ok az_name
           /\ zone_find az_name (acc_zones rep) = Some tz
           /\ acc_zones rep' = zone_set az_name tz' (acc_zones rep)
           /\ vm_added sum_with_float vm tz tz')
  /\ (forall rep vm,
         zone_excluded (acc_zones rep) vm = true ->
         account_vm sum_with_float rep vm = Ok rep)
  /\ (forall now_iso all_vms az_list r,
         build_report sum_with_float now_iso all_vms az_list = Ok r ->
         exists zones acc,
           report_zones az_list = Ok zones
           /\ account_vms sum_with_float
                {| acc_overall := zero_totals; acc_zones := zones |} all_vms
              = Ok acc
           /\ overall_totals r = round_totals (acc_overall acc)
           /\ by_availability_zone r
              = map (fun kt => (fst kt, round_totals (snd kt))) (acc_zones acc))
  /\ (forall transport int_of_text fuel now_iso st r st',
         generate_infrastructure_report transport int_of_text sum_with_float fuel
           now_iso st
         = Returns (Report r) st' ->
         exists all_vms az_list,
           build_report sum_with_float now_iso all_vms az_list = Ok r)
  /\ (forall t,
         total_provisioned (round_totals t)
         = {| cpu_cores := py_round2 (cpu_cores (total_provisioned t));
              prov_memory_gb := py_round2 (prov_memory_gb (total_provisioned t));
              disk_tb := py_round2 (disk_tb (total_provisioned t)) |}
         /\ total_used (round_totals t)
            = {| cpu_mhz := py_round2 (cpu_mhz (total_used t));
                 used_memory_gb := py_round2 (used_memory_gb (total_used t));
                 disk_gb := py_round2 (disk_gb (total_used t)) |})
  /\ (forall (now_iso zone : string) (ms : list Z) (qs : list float),
         zone <> "" ->
         Forall2 (fun m q => int_truediv m 1024 = Ok q) ms qs ->
         exists r tz,
           build_report sum_with_float now_iso (map (vm_with_memory zone) ms)
             (one_zone zone) = Ok r
           /\ prov_memory_gb (total_provisioned (overall_totals r))
              = NFloat (float_round2 (fold_left PrimFloat.add qs 0%float))
           /\ by_availability_zone r = [(PStr zone, tz)]
           /\ prov_memory_gb (total_provisioned tz)
              = NFloat (float_round2 (fold_left PrimFloat.add qs 0%float)))
  /\ Forall2 (fun m q => int_truediv m 1024 = Ok q)
       [1536; 2048; 513] [1.5%float; 2%float; 0.5009765625%float]
  /\ fold_left PrimFloat.add [1.5%float; 2%float; 0.5009765625%float] 0%float
     = 4.0009765625%float
  /\ float_round2 4.0009765625%float = 4%float
  /\ (exists r,
         build_report sum_with_float "2025-03-07T04:05:06" three_vms (one_zone "az1")
         = Ok r
         /\ prov_memory_gb (total_provisioned (overall_totals r)) = NFloat 4%float)
  /\ (exists r tz,
         build_report sum_with_float "2025-03-07T04:05:06" [small_vm] (one_zone "az1")
         = Ok r
         /\ sums_are 2 0%float (overall_totals r)
         /\ by_availability_zone r = [(PStr "az1", tz)]
         /\ sums_are 2 0%float tz)
  /\ (exists r tz,
         build_report sum_with_float "2025-03-07T04:05:06" [small_vm; small_vm]
           (one_zone "az1")
         = Ok r
         /\ sums_are 4 float_0_01 (overall_totals r)
         /\ by_availability_zone r = [(PStr "az1", tz)]
         /\ sums_are 4 float_0_01 tz).
Proof.
  split; [intros rep vm rep'; apply account_vm_adds_all |].
  split; [exact account_vm_excluded |].
  split.
  { intros now_iso all_vms az_list r H. unfold build_report in H.
    bind_ok H. injection H as <-.
    eexists. eexists. split; [reflexivity |]. split; [eassumption |].
    split; reflexivity. }
  split.
  { intros transport int_of_text fuel now_iso st r st' H.
    unfold generate_infrastructure_report in H. unfold bind at 1 in H.
    destruct (get_all_vms transport int_of_text fuel false st)
      as [all_vms st1 | |]; try discriminate H.
    unfold bind at 1 in H.
    destruct (get_availability_zones transport st1) as [az_response st2 | |];
      try discriminate H.
    unfold bind at 1 in H.
    destruct (az_list_of az_response) as [az_list | e]; cbn [lift ret raise] in H;
      try discriminate H.
    destruct all_vms as [|vm all_vms]; [discriminate H |].
    unfold bind in H.
    destruct (build_report sum_with_float now_iso (vm :: all_vms) az_list)
      as [rep | e] eqn:E; cbn [lift ret raise] in H; try discriminate H.
    injection H as <- _. exists (vm :: all_vms), az_list. exact E. }
  split; [intro t; split; reflexivity |].
  split.
  { intros now_iso zone ms qs Hz HF.
    destruct (account_vms_memory zone ms qs Hz HF 0%float 0%float
                zero_totals zero_totals memory_is_zero memory_is_zero)
      as (o' & tz' & E & (Ho & _) & (Ht & _)).
    unfold build_report. rewrite (report_zones_one zone Hz). cbn [pbind].
    rewrite E. cbn [pbind].
    exists {| report_generated_at := now_iso;
              overall_totals := round_totals o';
              by_availability_zone := [(PStr zone, round_totals tz')] |},
      (round_totals tz').
    split; [reflexivity |].
    cbn [overall_totals by_availability_zone acc_overall acc_zones map fst snd
         round_totals total_provisioned prov_memory_gb].
    rewrite Ho, Ht. repeat split. }
  split; [repeat constructor |].
  split; [vm_compute; reflexivity |].
  split; [vm_compute; reflexivity |].
  split; [eexists; split; vm_compute; reflexivity |].
  split; eexists; eexists; (split; [vm_compute; reflexivity |]);
    (split; [split; vm_compute; reflexivity |]);
    (split; [vm_compute; reflexivity |]); split; vm_compute; reflexivity.
Qed.

(* ===================================================================== *)
(** * Further properties of the report                                    *)
(* ===================================================================== *)

Lemma add_provisioned_counts (cores memory_mb : pyval) (total_disk_mb : pynum)
  (t t' : totals) :
  add_provisioned cores memory_mb total_disk_mb t = Ok t' -> same_counts t t'.
Proof.
  unfold add_provisioned. intro H. bind_ok H. injection H as <-. split; reflexivity.
Qed.

Lemma add_used_cpu_counts (v : pyval) (t t' : totals) :
  add_used_cpu v t = Ok t' -> same_counts t t'.
Proof.
  unfold add_used_cpu. intro H. bind_ok H. injection H as <-. split; reflexivity.
Qed.

Lemma add_used_memory_counts (v : pyval) (t t' : totals) :
  add_used_memory v t = Ok t' -> same_counts t t'.
Proof.
  unfold add_used_memory. intro H. bind_ok H. injection H as <-. split; reflexivity.
Qed.

Lemma add_used_disk_counts (v : pyval) (t t' : totals) :
  add_used_disk v t = Ok t' -> same_counts t t'.
Proof.
  unfold add_used_disk. intro H. bind_ok H. injection H as <-. split; reflexivity.
Qed.

Lemma same_counts_trans (a b c : totals) :
  same_counts a b -> same_counts b c -> same_counts a c.
Proof. intros [H1 H2] [H3 H4]. split; congruence. Qed.

Lemma add_used_block_counts (vm : pyval) (field key : string)
  (add : pyval -> totals -> pyres totals) (o a : totals) (oa : totals * totals) :
  (forall v t t', add v t = Ok t' -> same_counts t t') ->
  add_used_block vm field key add o a = Ok oa ->
  same_counts o (fst oa) /\ same_counts a (snd oa).
Proof.
  intros Hadd H. unfold add_used_block in H. bind_ok H.
  destruct (truthy a0).
  - bind_ok H. injection H as <-. cbn [fst snd]. split; eapply Hadd; eassumption.
  - injection H as <-. repeat split.
Qed.

(** One iteration on a VM that is not left out: the VM is counted once in
    the overall totals and once in the totals of its zone, under the same
    status, and no other zone is touched. *)
Lemma account_vm_counted (rep rep' : report_acc) (vm : pyval) :
  account_vm sum_with_float rep vm = Ok rep' ->
  zone_excluded (acc_zones rep) vm = false ->
  exists a tz tz' b,
    zone_find a (acc_zones rep) = Some tz
    /\ acc_zones rep' = zone_set a tz' (acc_zones rep)
    /\ same_counts (count_vm b (acc_overall rep)) (acc_overall rep')
    /\ same_counts (count_vm b tz) tz'.
Proof.
  intros H Hx. unfold account_vm in H.
  destruct vm as [| | | | | | d]; try discriminate.
  cbn [py_get pbind] in H. cbn [zone_excluded] in Hx.
  destruct (dict_get d "az_name") as [a |]; [| discriminate].
  apply orb_false_iff in Hx as [Ht Hx]. rewrite Ht in H.
  unfold zone_contains in H.
  destruct (hashable a); cbn [pbind andb] in H, Hx; [| discriminate].
  destruct (zone_find a (acc_zones rep)) as [tz |] eqn:Ef; [| discriminate].
  cbn [negb pbind] in H. bind_ok H. injection H as <-. cbn [acc_overall acc_zones].
  apply add_provisioned_counts in E1, E2.
  apply (add_used_block_counts _ _ _ _ _ _ _ add_used_cpu_counts) in E3 as [A3 B3].
  apply (add_used_block_counts _ _ _ _ _ _ _ add_used_memory_counts) in E4 as [A4 B4].
  apply (add_used_block_counts _ _ _ _ _ _ _ add_used_disk_counts) in E5 as [A5 B5].
  eexists a, tz, (snd a6), _. split; [exact Ef |]. split; [reflexivity |].
  split.
  - exact (same_counts_trans _ _ _ (same_counts_trans _ _ _
             (same_counts_trans _ _ _ E1 A3) A4) A5).
  - exact (same_counts_trans _ _ _ (same_counts_trans _ _ _
             (same_counts_trans _ _ _ E2 B3) B4) B5).
Qed.

(** A property of the running state that every iteration keeps is kept by
    the loop. *)
Lemma account_vms_invariant (P : report_acc -> Prop) :
  (forall rep vm rep', P rep -> account_vm sum_with_float rep vm = Ok rep' -> P rep') ->
  forall vms rep rep', P rep -> account_vms sum_with_float rep vms = Ok rep' -> P rep'.
Proof.
  intro Hstep. induction vms as [|vm vms IH]; intros rep rep' HP H.
  - cbn [account_vms] in H. now injection H as <-.
  - cbn [account_vms] in H. bind_ok H. eapply IH; [| exact H].
    eapply Hstep; eassumption.
Qed.

Lemma count_vm_adds_up (b : status_bucket) (t t' : totals) :
  counts_add_up t -> same_counts (count_vm b t) t' -> counts_add_up t'.
Proof.
  unfold counts_add_up. intros H [H1 H2]. rewrite H1, H2.
  destruct b; cbn [count_vm total_vms vms_by_status running stopped other]; lia.
Qed.

Lemma zone_find_Forall (P : totals -> Prop) (k : pyval) (z : zones_t) (t : totals) :
  Forall (fun kt => P (snd kt)) z -> zone_find k z = Some t -> P t.
Proof.
  induction z as [|[k' t'] z IH]; cbn [zone_find]; intros HF H; [discriminate |].
  inversion HF as [|? ? Hh Ht]; subst.
  destruct (key_eq k' k); [injection H as <-; exact Hh | now apply IH].
Qed.

Lemma zone_set_Forall (P : totals -> Prop) (k : pyval) (t : totals) (z : zones_t) :
  Forall (fun kt => P (snd kt)) z -> P t ->
  Forall (fun kt => P (snd kt)) (zone_set k t z).
Proof.
  induction z as [|[k' t'] z IH]; cbn [zone_set]; intros HF Ht.
  - constructor; [exact Ht | constructor].
  - inversion HF as [|? ? Hh Hr]; subst.
    destruct (key_eq k' k); constructor; auto.
Qed.

Lemma zone_set_sum (k : pyval) (t t' : totals) (z : zones_t) :
  zone_find k z = Some t ->
  zone_vm_sum (zone_set k t' z) = zone_vm_sum z - total_vms t + total_vms t'.
Proof.
  induction z as [|[k0 t0] z IH]; cbn [zone_find zone_set]; intro H; [discriminate |].
  destruct (key_eq k0 k); cbn [zone_vm_sum].
  - injection H as <-. lia.
  - rewrite (IH H). lia.
Qed.

(** The zone entries of a fresh report are all zero, and their keys are
    truthy, hashable and pairwise different. *)
Lemma zone_set_keys_forallb (P : pyval -> bool) (k : pyval) (t : totals) (z : zones_t) :
  forallb P (map fst z) = true -> P k = true ->
  forallb P (map fst (zone_set k t z)) = true.
Proof.
  induction z as [|[k' t'] z IH]; cbn [zone_set map fst forallb]; intros HF Hk.
  - now rewrite Hk.
  - apply andb_true_iff in HF as [H1 H2].
    destruct (key_eq k' k); cbn [map fst forallb]; rewrite H1; cbn [andb]; auto.
Qed.

Lemma zone_set_distinct (k : pyval) (t : totals) (z : zones_t) :
  keys_distinct (map fst z) = true ->
  keys_distinct (map fst (zone_set k t z)) = true.
Proof.
  induction z as [|[k' t'] z IH]; cbn [zone_set map fst keys_distinct]; intro H;
    [reflexivity |].
  apply andb_true_iff in H as [H1 H2].
  destruct (key_eq k' k) eqn:E; cbn [map fst keys_distinct].
  - now rewrite H1, H2.
  - rewrite (IH H2), andb_true_r.
    apply zone_set_keys_forallb; [exact H1 | now rewrite E].
Qed.

Lemma init_zones_fresh (azs : list pyval) :
  forall z z',
    init_zones azs z = Ok z' ->
    Forall (fun kt => snd kt = zero_totals) z ->
    forallb zone_key_ok (map fst z) = true ->
    keys_distinct (map fst z) = true ->
    Forall (fun kt => snd kt = zero_totals) z'
    /\ forallb zone_key_ok (map fst z') = true
    /\ keys_distinct (map fst z') = true.
Proof.
  induction azs as [|az azs IH]; intros z z' H HZ HK HD.
  - cbn [init_zones] in H. injection H as <-. auto.
  - cbn [init_zones] in H.
    destruct (py_get az "name" PNone) as [az_name |]; cbn [pbind] in H;
      [| discriminate].
    destruct (truthy az_name) eqn:Et; [| eapply IH; eassumption].
    destruct (hashable az_name) eqn:Eh; [| discriminate].
    eapply IH; [exact H | | |].
    + now apply (zone_set_Forall (fun t => t = zero_totals)).
    + apply zone_set_keys_forallb; [exact HK |].
      unfold zone_key_ok. now rewrite Et, Eh.
    + now apply zone_set_distinct.
Qed.

Lemma report_zones_fresh (az_list : pyval) (zones : zones_t) :
  report_zones az_list = Ok zones ->
  Forall (fun kt => snd kt = zero_totals) zones
  /\ forallb zone_key_ok (map fst zones) = true
  /\ keys_distinct (map fst zones) = true.
Proof.
  unfold report_zones. destruct (truthy az_list).
  - intro H. bind_ok H.
    eapply init_zones_fresh; [exact H | constructor | reflexivity | reflexivity].
  - intro H. injection H as <-. repeat split. constructor.
Qed.

Lemma zone_vm_sum_zero (z : zones_t) :
  Forall (fun kt => snd kt = zero_totals) z -> zone_vm_sum z = 0.
Proof.
  induction z as [|[k t] z IH]; intro H; [reflexivity |].
  inversion H as [|? ? Hh Hr]; subst. cbn [snd] in Hh. subst t.
  cbn [zone_vm_sum]. rewrite (IH Hr). reflexivity.
Qed.

Lemma zone_vm_sum_round (z : zones_t) :
  zone_vm_sum (map (fun kt => (fst kt, round_totals (snd kt))) z) = zone_vm_sum z.
Proof.
  induction z as [|[k t] z IH]; [reflexivity |].
  cbn [map fst snd zone_vm_sum]. now rewrite IH.
Qed.

(** What [build_report] returned, taken apart. *)
Lemma build_report_inv (now_iso : string) (all_vms : list pyval) (az_list : pyval)
  (r : report) :
  build_report sum_with_float now_iso all_vms az_list = Ok r ->
  exists zones acc,
    report_zones az_list = Ok zones
    /\ account_vms sum_with_float
         {| acc_overall := zero_totals; acc_zones := zones |} all_vms
       = Ok acc
    /\ r = {| report_generated_at := now_iso;
              overall_totals := round_totals (acc_overall acc);
              by_availability_zone :=
                map (fun kt => (fst kt, round_totals (snd kt))) (acc_zones acc) |}.
Proof.
  unfold build_report. intro H. bind_ok H. injection H as <-.
  eexists. eexists. split; [reflexivity |]. split; [eassumption | reflexivity].
Qed.

(** Counts of the report: in the overall totals and in the totals of every
    zone the three status counts add up to the VM count, and the overall
    VM count is the sum of the VM counts of the zones. *)
Theorem report_counts_are_consistent (now_iso : string) (all_vms : list pyval)
  (az_list : pyval) (r : report) :
  build_report sum_with_float now_iso all_vms az_list = Ok r ->
  counts_add_up (overall_totals r)
  /\ Forall (fun kt => counts_add_up (snd kt)) (by_availability_zone r)
  /\ total_vms (overall_totals r) = zone_vm_sum (by_availability_zone r).
Proof.
  intro H. apply build_report_inv in H as (zones & acc & Hz & Ha & ->).
  destruct (report_zones_fresh az_list zones Hz) as (HZ & _ & _).
  cbn [overall_totals by_availability_zone].
  set (P := fun rep : report_acc =>
              counts_add_up (acc_overall rep)
              /\ Forall (fun kt => counts_add_up (snd kt)) (acc_zones rep)
              /\ total_vms (acc_overall rep) = zone_vm_sum (acc_zones rep)).
  assert (HP : P acc).
  { apply (account_vms_invariant P) with (vms := all_vms)
      (rep := {| acc_overall := zero_totals; acc_zones := zones |}); [| | exact Ha].
    - intros rep vm rep' (H1 & H2 & H3) E.
      destruct (zone_excluded (acc_zones rep) vm) eqn:Ex.
      + rewrite (account_vm_excluded rep vm Ex) in E. injection E as <-.
        repeat split; assumption.
      + destruct (account_vm_counted rep rep' vm E Ex)
          as (a & tz & tz' & b & Hf & Hs & Ho & Ht).
        pose proof (zone_find_Forall counts_add_up a _ tz H2 Hf) as Htz.
        split; [exact (count_vm_adds_up b _ _ H1 Ho) |].
        split.
        * rewrite Hs. apply (zone_set_Forall counts_add_up); [exact H2 |].
          exact (count_vm_adds_up b _ _ Htz Ht).
        * rewrite Hs, (zone_set_sum a tz tz' _ Hf).
          destruct Ho as [Ho _]. destruct Ht as [Ht _].
          rewrite Ho, Ht. cbn [count_vm total_vms]. lia.
    - unfold P. cbn [acc_overall acc_zones].
      split; [reflexivity |]. split.
      + eapply Forall_impl; [| exact HZ]. intros [k t] E. cbn [snd] in *. now subst t.
      + now rewrite (zone_vm_sum_zero zones HZ). }
  destruct HP as (H1 & H2 & H3).
  split; [exact H1 |]. split.
  - apply Forall_map. eapply Forall_impl; [| exact H2]. intros [k t] E. exact E.
  - rewrite zone_vm_sum_round. exact H3.
Qed.

Lemma map_fst_round (z : zones_t) :
  map fst (map (fun kt => (fst kt, round_totals (snd kt))) z) = map fst z.
Proof.
  induction z as [|[k t] z IH]; [reflexivity |]. cbn [map fst]. now rewrite IH.
Qed.

Lemma account_vms_keys (vms : list pyval) (rep rep' : report_acc) :
  account_vms sum_with_float rep vms = Ok rep' ->
  map fst (acc_zones rep') = map fst (acc_zones rep).
Proof.
  intro H.
  apply (account_vms_invariant
           (fun x => map fst (acc_zones x) = map fst (acc_zones rep)))
    with (vms := vms) (rep := rep); [| reflexivity | exact H].
  intros r vm r' Hr E. rewrite <- Hr. exact (account_vm_keys r r' vm E).
Qed.

(** The zones of the report are those of the zone list: the keys are the
    ones created from the zone list before any VM is read, pairwise
    different also when the list repeats a name, each truthy and hashable;
    no VM adds, removes or reorders an entry. *)
Theorem report_zones_are_those_of_the_zone_list (now_iso : string)
  (all_vms : list pyval) (az_list : pyval) (r : report) :
  build_report sum_with_float now_iso all_vms az_list = Ok r ->
  exists zones,
    report_zones az_list = Ok zones
    /\ map fst (by_availability_zone r) = map fst zones
    /\ forallb zone_key_ok (map fst (by_availability_zone r)) = true
    /\ keys_distinct (map fst (by_availability_zone r)) = true.
Proof.
  intro H. apply build_report_inv in H as (zones & acc & Hz & Ha & ->).
  destruct (report_zones_fresh az_list zones Hz) as (_ & HK & HD).
  exists zones. split; [exact Hz |].
  cbn [by_availability_zone]. rewrite map_fst_round.
  rewrite (account_vms_keys all_vms _ acc Ha). cbn [acc_zones].
  repeat split; assumption.
Qed.

Lemma counted_vms_keys (z z' : zones_t) (vms : list pyval) :
  map fst z = map fst z' -> counted_vms z vms = counted_vms z' vms.
Proof.
  intro H. unfold counted_vms. apply filter_ext. intro vm.
  now rewrite (zone_excluded_keys vm z z' H).
Qed.

Lemma account_vms_count (vms : list pyval) :
  forall rep rep',
    account_vms sum_with_float rep vms = Ok rep' ->
    total_vms (acc_overall rep')
    = total_vms (acc_overall rep)
      + Z.of_nat (List.length (counted_vms (acc_zones rep) vms)).
Proof.
  induction vms as [|vm vms IH]; intros rep rep' H; cbn [account_vms] in H.
  - injection H as <-. cbn [counted_vms filter List.length Z.of_nat]. lia.
  - bind_ok H. rename a into rep1.
    rewrite (IH rep1 rep' H).
    rewrite (counted_vms_keys _ _ vms (account_vm_keys rep rep1 vm E)).
    unfold counted_vms at 2. cbn [filter]. fold (counted_vms (acc_zones rep) vms).
    destruct (zone_excluded (acc_zones rep) vm) eqn:Ex; cbn [negb].
    + rewrite (account_vm_excluded rep vm Ex) in E. now injection E as <-.
    + destruct (account_vm_counted rep rep1 vm E Ex)
        as (a & tz & tz' & b & _ & _ & [Ho _] & _).
      rewrite Ho. cbn [count_vm total_vms List.length]. lia.
Qed.

(** The overall VM count of the report is the number of VMs in the list
    whose zone is in the zone table; it is not the length of the list. *)
Theorem report_counts_the_vms_of_known_zones (now_iso : string)
  (all_vms : list pyval) (az_list : pyval) (r : report) :
  build_report sum_with_float now_iso all_vms az_list = Ok r ->
  exists zones,
    report_zones az_list = Ok zones
    /\ total_vms (overall_totals r)
       = Z.of_nat (List.length (counted_vms zones all_vms))
    /\ (List.length (counted_vms zones all_vms) <= List.length all_vms)%nat.
Proof.
  intro H. apply build_report_inv in H as (zones & acc & Hz & Ha & ->).
  exists zones. split; [exact Hz |]. cbn [overall_totals round_totals total_vms].
  split; [| apply filter_length_le].
  rewrite (account_vms_count all_vms _ acc Ha). reflexivity.
Qed.

Lemma account_vms_all_excluded (vms : list pyval) (rep : report_acc) :
  Forall (fun vm => zone_excluded (acc_zones rep) vm = true) vms ->
  account_vms sum_with_float rep vms = Ok rep.
Proof.
  induction vms as [|vm vms IH]; intro H; [reflexivity |].
  inversion H as [|? ? Hv Hr]; subst. cbn [account_vms].
  rewrite (account_vm_excluded rep vm Hv). cbn [pbind]. exact (IH Hr).
Qed.

(** Without zones nothing is counted: when the zone list is empty or was
    not delivered (the zone request failed), every VM record with a zone
    name is left out, and the report, which is not an error, has zero
    totals and no zone entry although the VM list is not empty. *)
Theorem report_without_zones_counts_nothing (now_iso : string)
  (all_vms : list pyval) (az_list : pyval) :
  truthy az_list = false ->
  Forall (fun vm => zone_excluded [] vm = true) all_vms ->
  build_report sum_with_float now_iso all_vms az_list
  = Ok {| report_generated_at := now_iso;
          overall_totals := zero_totals;
          by_availability_zone := [] |}
  /\ az_list_of PNone = Ok (PList [])
  /\ truthy (PList []) = false.
Proof.
  intros Hz Hall. split; [| split; reflexivity].
  unfold build_report, report_zones. rewrite Hz. cbn [pbind].
  rewrite account_vms_all_excluded by exact Hall.
  cbn [pbind acc_overall acc_zones map]. now rewrite round_zero_totals.
Qed.

(** One iteration on a counted VM whose [cores] is a string raises. *)
Lemma account_vm_cores_text (rep : report_acc) (d : list (string * pyval))
  (s : string) :
  zone_excluded (acc_zones rep) (PDict d) = false ->
  dict_get d "cores" = Some (PStr s) ->
  exists e, account_vm sum_with_float rep (PDict d) = Err e.
Proof.
  intros Hx Hc. unfold account_vm. cbn [py_get pbind]. cbn [zone_excluded] in Hx.
  destruct (dict_get d "az_name") as [a |]; [| discriminate].
  apply orb_false_iff in Hx as [Ht Hx]. rewrite Ht.
  unfold zone_contains.
  destruct (hashable a); cbn [pbind andb] in Hx |- *; [| eexists; reflexivity].
  destruct (zone_find a (acc_zones rep)) as [tz |]; [| discriminate].
  cbn [negb pbind]. rewrite Hc.
  destruct (py_iter _) as [items | e]; cbn [pbind]; [| eexists; reflexivity].
  destruct (sum_size_mb sum_with_float items) as [total | e]; cbn [pbind];
    [| eexists; reflexivity].
  unfold add_provisioned at 1. unfold py_add_val at 1. cbn [as_num pbind].
  eexists. reflexivity.
Qed.

(** A single unreadable number fails the whole report: when a VM of a
    known zone has a string as its [cores], [build_report] raises for
    every list that holds that VM, whatever the other records are; no
    partial report is returned.  With no [disks] entry in the record and
    readable records before it, the exception is [TypeError]. *)
Theorem unreadable_cores_fail_the_report (now_iso : string) (az_list : pyval)
  (zones : zones_t) (l1 l2 : list pyval) (d : list (string * pyval)) (s : string) :
  report_zones az_list = Ok zones ->
  zone_excluded zones (PDict d) = false ->
  dict_get d "cores" = Some (PStr s) ->
  (exists e, build_report sum_with_float now_iso (l1 ++ PDict d :: l2) az_list = Err e)
  /\ (dict_get d "disks" = None ->
      build_report sum_with_float now_iso (PDict d :: l2) az_list = Err TypeError).
Proof.
  intros Hz Hx Hc. split.
  - unfold build_report. rewrite Hz. cbn [pbind].
    assert (H : forall rep,
               map fst (acc_zones rep) = map fst zones ->
               exists e, account_vms sum_with_float rep (l1 ++ PDict d :: l2) = Err e).
    { induction l1 as [|x l1 IH]; intros rep Hk; cbn [app account_vms].
      - destruct (account_vm_cores_text rep d s) as [e E];
          [now rewrite (zone_excluded_keys _ _ zones Hk) | exact Hc |].
        rewrite E. eexists. reflexivity.
      - destruct (account_vm sum_with_float rep x) as [rep' | e] eqn:E; cbn [pbind];
          [| eexists; reflexivity].
        apply IH. now rewrite (account_vm_keys rep rep' x E). }
    destruct (H {| acc_overall := zero_totals; acc_zones := zones |} eq_refl)
      as [e E].
    rewrite E. eexists. reflexivity.
  - intro Hd. unfold build_report. rewrite Hz. cbn [pbind account_vms].
    unfold account_vm. cbn [py_get pbind acc_zones acc_overall].
    cbn [zone_excluded] in Hx.
    destruct (dict_get d "az_name") as [a |]; [| discriminate].
    apply orb_false_iff in Hx as [Ht Hx]. rewrite Ht.
    unfold zone_contains.
    destruct (hashable a); cbn [pbind andb] in Hx |- *; [| reflexivity].
    destruct (zone_find a zones) as [tz |]; [| discriminate].
    cbn [negb pbind]. rewrite Hc, Hd. cbn [py_iter pbind sum_size_mb disk_sizes py_sum int_sum].
    reflexivity.
Qed.

(** One iteration on a counted VM adds its [cores] to the overall core
    count. *)
Lemma account_vm_adds_cores (rep rep' : report_acc) (vm : pyval) :
  account_vm sum_with_float rep vm = Ok rep' ->
  zone_excluded (acc_zones rep) vm = false ->
  exists cores,
    py_get vm "cores" (PInt 0) = Ok cores
    /\ py_add_val (cpu_cores (total_provisioned (acc_overall rep))) cores
       = Ok (cpu_cores (total_provisioned (acc_overall rep'))).
Proof.
  intros H Hx. unfold account_vm in H.
  destruct vm as [| | | | | | d]; try discriminate.
  cbn [py_get pbind] in H. cbn [zone_excluded] in Hx.
  destruct (dict_get d "az_name") as [a |]; [| discriminate].
  apply orb_false_iff in Hx as [Ht Hx]. rewrite Ht in H.
  unfold zone_contains in H.
  destruct (hashable a); cbn [pbind andb] in H, Hx; [| discriminate].
  destruct (zone_find a (acc_zones rep)) as [tz |]; [| discriminate].
  cbn [negb pbind] in H. bind_ok H. injection H as <-. cbn [acc_overall].
  apply (add_used_block_provisioned _ _ _ _ _ _ _ add_used_cpu_provisioned)
    in E3 as [E3 _].
  apply (add_used_block_provisioned _ _ _ _ _ _ _ add_used_memory_provisioned)
    in E4 as [E4 _].
  apply (add_used_block_provisioned _ _ _ _ _ _ _ add_used_disk_provisioned)
    in E5 as [E5 _].
  apply add_provisioned_inv in E1 as (Hc & _ & _).
  eexists. split; [reflexivity |]. rewrite E5, E4, E3. exact Hc.
Qed.

Lemma account_vms_cores (vms : list pyval) :
  forall rep rep' c,
    account_vms sum_with_float rep vms = Ok rep' ->
    cpu_cores (total_provisioned (acc_overall rep)) = NInt c ->
    (forall vm, In vm (counted_vms (acc_zones rep) vms) -> int_cores vm <> None) ->
    cpu_cores (total_provisioned (acc_overall rep'))
    = NInt (c + sum_cores (counted_vms (acc_zones rep) vms)).
Proof.
  induction vms as [|vm vms IH]; intros rep rep' c H Hc Hall; cbn [account_vms] in H.
  - injection H as <-. rewrite Hc. cbn [counted_vms filter sum_cores].
    now rewrite Z.add_0_r.
  - bind_ok H. rename a into rep1.
    pose proof (counted_vms_keys _ _ vms (account_vm_keys rep rep1 vm E)) as Hk.
    unfold counted_vms in Hall |- *. cbn [filter] in Hall |- *.
    fold (counted_vms (acc_zones rep) vms) in Hall |- *.
    destruct (zone_excluded (acc_zones rep) vm) eqn:Ex; cbn [negb] in Hall |- *.
    + rewrite (account_vm_excluded rep vm Ex) in E. injection E as <-.
      exact (IH rep rep' c H Hc Hall).
    + destruct (account_vm_adds_cores rep rep1 vm E Ex) as (cores & Hg & Ha).
      assert (Hi : int_cores vm <> None) by (apply Hall; now left).
      destruct vm as [| | | | | | d]; try discriminate.
      cbn [py_get] in Hg. injection Hg as <-.
      cbn [sum_cores int_cores] in Hi |- *. rewrite Hc in Ha.
      unfold py_add_val in Ha.
      destruct (dict_get d "cores") as [v |].
      * destruct (as_num v) as [[z | f] |]; try (now contradiction Hi).
        cbn [py_add] in Ha. injection Ha as Ha.
        rewrite (IH rep1 rep' (c + z) H (eq_sym Ha)).
        -- rewrite Hk. f_equal. lia.
        -- intros x Hx. apply Hall. right. now rewrite <- Hk.
      * cbn [as_num py_add] in Ha. injection Ha as Ha.
        rewrite (IH rep1 rep' (c + 0) H (eq_sym Ha)).
        -- rewrite Hk. f_equal. lia.
        -- intros x Hx. apply Hall. right. now rewrite <- Hk.
Qed.

(** The core count is exact: when the [cores] of every counted VM is an
    int (or absent, which counts as 0), the overall [cpu_cores] of the
    report is the int sum of these values; it is not turned into a float
    and the final rounding leaves it as it is. *)
Theorem report_core_count_is_the_exact_sum (now_iso : string)
  (all_vms : list pyval) (az_list : pyval) (zones : zones_t) (r : report) :
  build_report sum_with_float now_iso all_vms az_list = Ok r ->
  report_zones az_list = Ok zones ->
  (forall vm, In vm (counted_vms zones all_vms) -> int_cores vm <> None) ->
  cpu_cores (total_provisioned (overall_totals r))
  = NInt (sum_cores (counted_vms zones all_vms)).
Proof.
  intros H Hz Hall. apply build_report_inv in H as (zones' & acc & Hz' & Ha & ->).
  rewrite Hz in Hz'. injection Hz' as <-.
  cbn [overall_totals round_totals total_provisioned cpu_cores].
  rewrite (account_vms_cores all_vms _ acc 0 Ha eq_refl Hall).
  reflexivity.
Qed.

End ReportProperties.

(* ===================================================================== *)
(** * Closed instances                                                    *)
(* ===================================================================== *)

(** C1, as the claim words it, fails: on 7 March 2025 the date stamp is
    [2025m07]; it is not [2025%07]. *)
Lemma C1_datestamp_is_not_year_percent_day :
  datestamp_of march_7 = Some "2025m07"
  /\ datestamp_of march_7 <> Some "2025%07".
Proof.
  split; [reflexivity |]. vm_compute. discriminate.
Qed.

(** C3, as the claim words it, fails: the three VMs give 4.0 GB, which is
    not the float 3.99. *)
Lemma C3_three_vms_total_is_not_3_99 :
  (exists r,
      build_report plain_sum "2025-03-07T04:05:06" three_vms (one_zone "az1") = Ok r
      /\ prov_memory_gb (total_provisioned (overall_totals r)) = NFloat 4%float)
  /\ NFloat 4%float <> NFloat float_3_99
  /\ PrimFloat.eqb 4%float float_3_99 = false.
Proof.
  split; [eexists; split; vm_compute; reflexivity |].
  split; [| vm_compute; reflexivity].
  intro H.
  pose proof (f_equal (fun n => match n with
                                | NFloat f => PrimFloat.eqb f 4%float
                                | NInt _ => false
                                end) H) as E.
  vm_compute in E. discriminate E.
Qed.

(** C3 at the three VMs of the claim, and one step of the loop at a VM
    that has all the quantities. *)
Lemma C3_witness :
  "az1" <> ""
  /\ Forall2 (fun m q => int_truediv m 1024 = Ok q)
       [1536; 2048; 513] [1.5%float; 2%float; 0.5009765625%float]
  /\ (exists r tz,
         build_report plain_sum "now" (map (vm_with_memory "az1") [1536; 2048; 513])
           (one_zone "az1") = Ok r
         /\ prov_memory_gb (total_provisioned (overall_totals r))
            = NFloat (float_round2
                        (fold_left PrimFloat.add
                           [1.5%float; 2%float; 0.5009765625%float] 0%float))
         /\ by_availability_zone r = [(PStr "az1", tz)]
         /\ prov_memory_gb (total_provisioned tz)
            = NFloat (float_round2
                        (fold_left PrimFloat.add
                           [1.5%float; 2%float; 0.5009765625%float] 0%float)))
  /\ zone_excluded [(PStr "az1", zero_totals)] small_vm = false
  /\ exists rep',
       account_vm plain_sum {| acc_overall := zero_totals;
                     acc_zones := [(PStr "az1", zero_totals)] |} small_vm
       = Ok rep'
       /\ vm_added plain_sum small_vm zero_totals (acc_overall rep').
Proof.
  assert (Hz : "az1" <> "") by discriminate.
  assert (HF : Forall2 (fun m q => int_truediv m 1024 = Ok q)
                 [1536; 2048; 513] [1.5%float; 2%float; 0.5009765625%float])
    by (repeat constructor).
  split; [exact Hz |]. split; [exact HF |].
  split.
  { exact (proj1 (proj2 (proj2 (proj2 (proj2 (proj2
               (C3_memory_rounded_once_at_the_end plain_sum))))))
             "now" "az1" _ _ Hz HF). }
  split; [reflexivity |].
  destruct (account_vm plain_sum {| acc_overall := zero_totals;
                          acc_zones := [(PStr "az1", zero_totals)] |} small_vm)
    as [rep' | e] eqn:E; [| vm_compute in E; discriminate E].
  exists rep'. split; [reflexivity |].
  exact (proj1 (proj1 (C3_memory_rounded_once_at_the_end plain_sum) _ small_vm rep' E eq_refl)).
Defined.

(** C4 at the VM list URL, with and without a query string. *)
Lemma C4_witness :
  contains "?" servers_url = false
  /\ contains "#" servers_url = false
  /\ exists sg,
       sign_request toy_sha256 toy_hmac toy_auth march_7
         (servers_request (Some "page_num=0&page_size=100")) = Ok sg
       /\ sign_request toy_sha256 toy_hmac toy_auth march_7
            (servers_request None) = Ok sg
       /\ sg_canonical_querystring sg = "".
Proof.
  split; [reflexivity |]. split; [reflexivity |].
  destruct (C4_signature_ignores_query toy_sha256 toy_hmac toy_auth march_7
              "GET" [("Accept", "*/*")] BodyNone servers_url
              (Some "page_num=0&page_size=100") None eq_refl eq_refl)
    as (sg & H1 & H2 & H3 & _).
  exists sg. split; [exact H1 |]. split; [exact H2 | exact H3].
Defined.

(** C8 at a VM of an unknown zone between two VMs of the known one. *)
Lemma C8_witness :
  report_zones (one_zone "az1") = Ok [(PStr "az1", zero_totals)]
  /\ zone_excluded [(PStr "az1", zero_totals)] stray_vm = true
  /\ build_report plain_sum "now"
       ([vm_with_memory "az1" 1536] ++ stray_vm :: [vm_with_memory "az1" 513])
       (one_zone "az1")
     = build_report plain_sum "now"
         ([vm_with_memory "az1" 1536] ++ [vm_with_memory "az1" 513])
         (one_zone "az1")
  /\ build_report plain_sum "now" [stray_vm] (one_zone "az1")
     = Ok {| report_generated_at := "now";
             overall_totals := zero_totals;
             by_availability_zone :=
               map (fun kt => (fst kt, round_totals (snd kt)))
                 [(PStr "az1", zero_totals)] |}.
Proof.
  split; [reflexivity |]. split; [reflexivity |].
  exact (proj2 (C8_excluded_vm_contributes_nothing plain_sum "now" (one_zone "az1")
                  [(PStr "az1", zero_totals)]
                  [vm_with_memory "az1" 1536] [vm_with_memory "az1" 513]
                  stray_vm eq_refl eq_refl)).
Defined.

(** C5 on the backend of four pages: the second cached call returns the
    list of the first and leaves the four requests of the first as they
    are. *)
Lemma C5_witness :
  exists st',
    get_all_vms (paged_transport four_pages) no_int 4 true fresh_state
    = Returns (vm_records 0 237) st'
    /\ List.length (sent st') = 4%nat
    /\ get_all_vms (paged_transport four_pages) no_int 0 true st'
       = Returns (vm_records 0 237) st'.
Proof.
  eexists. split; [vm_compute; reflexivity |]. split; [reflexivity |].
  refine (proj1 (proj2 (proj2 (C5_cached_list_is_reused (paged_transport four_pages) no_int))
            4%nat 0%nat fresh_state _ _ _)).
  vm_compute. reflexivity.
Defined.

(** C10 on a transport that never connects. *)
Lemma C10_witness :
  get_all_vms dead_transport no_int 1 true fresh_state
  = Returns []
      {| client := set_cache (Some []) fresh_client;
         sent := [page_request "https://scp.example" 0] |}
  /\ _all_vms_cache (set_cache (Some []) fresh_client) = Some []
  /\ get_all_vms dead_transport no_int 7 true
       {| client := set_cache (Some []) fresh_client;
          sent := [page_request "https://scp.example" 0] |}
     = Returns []
         {| client := set_cache (Some []) fresh_client;
            sent := [page_request "https://scp.example" 0] |}.
Proof.
  assert (E : get_all_vms dead_transport no_int 1 true fresh_state
              = Returns []
                  {| client := set_cache (Some []) fresh_client;
                     sent := [page_request "https://scp.example" 0] |})
    by reflexivity.
  destruct (proj1 (C10_empty_scan_is_cached dead_transport no_int)
              1%nat true fresh_state _ (or_intror eq_refl) E)
    as (H1 & H2 & _).
  split; [exact E |]. split; [exact H1 | exact (H2 7%nat)].
Defined.

(** C7, as the claim words it, fails: [vm-205] is not an identifier of
    five segments and the backend has a VM of that name, but with a
    populated cache, here one that holds the first three records,
    [find_vm] requests no page: it returns [None] and the request log is
    as empty as it was. *)
Lemma C7_cached_name_lookup_does_not_scan :
  List.length (split_all "-" "vm-205") = 2%nat
  /\ _all_vms_cache (client (cached_state (vm_records 0 3))) = Some (vm_records 0 3)
  /\ find_vm (paged_transport four_pages) no_int no_str 4 "vm-205"
       (cached_state (vm_records 0 3))
     = Returns PNone (cached_state (vm_records 0 3))
  /\ sent (cached_state (vm_records 0 3)) = []
  /\ has_name "vm-205" (vm_record 205) = true
  /\ nth_error (vm_records 200 37) 5 = Some (vm_record 205).
Proof. repeat split; vm_compute; reflexivity. Qed.

(** C7 at the two identifiers of the specification and at a name the
    backend of four pages has. *)
Lemma C7_witness :
  find_vm (paged_transport four_pages) no_int no_str 4
    "550e8400-e29b-41d4-a716-446655440000" fresh_state
  = send_request (paged_transport four_pages) "GET"
      "/janus/20190725/servers/550e8400-e29b-41d4-a716-446655440000"
      None None fresh_state
  /\ chain_ok 0 four_pages = true
  /\ List.length (split_all "-" "web-server-01") <> 5%nat
  /\ find_vm (paged_transport four_pages) no_int no_str 4 "web-server-01" fresh_state
     = lookup_by_name (paged_transport four_pages) no_str "web-server-01"
         (vm_records 0 237)
         {| client := set_cache (Some (vm_records 0 237)) fresh_client;
            sent := map (page_request "https://scp.example") [0; 1; 2; 3] |}
  /\ lookup_by_name (paged_transport four_pages) no_str "web-server-01"
       (vm_records 0 237)
       {| client := set_cache (Some (vm_records 0 237)) fresh_client;
          sent := map (page_request "https://scp.example") [0; 1; 2; 3] |}
     = Returns PNone
         {| client := set_cache (Some (vm_records 0 237)) fresh_client;
            sent := map (page_request "https://scp.example") [0; 1; 2; 3] |}.
Proof.
  assert (Hn : List.length (split_all "-" "web-server-01") <> 5%nat)
    by (vm_compute; discriminate).
  split.
  { exact (proj1 C7_find_vm_routing (paged_transport four_pages) no_int no_str
             4%nat "550e8400-e29b-41d4-a716-446655440000" fresh_state eq_refl). }
  split; [reflexivity |]. split; [exact Hn |].
  split.
  { exact (proj1 (proj2 (proj2 (proj2 (proj2 (proj2 C7_find_vm_routing)))))
             no_int no_str four_pages 0%nat "web-server-01" fresh_state
             eq_refl Hn eq_refl). }
  vm_compute. reflexivity.
Defined.

(** C9 at the empty id and at an id. *)
Lemma C9_witness :
  get_vm_details dead_transport no_str (PStr "") fresh_state
  = Raises ValueError fresh_state
  /\ get_vm_snapshots dead_transport no_str (PStr "vm-1") fresh_state
     = send_request dead_transport "GET" "/janus/20190725/servers/vm-1/snapshots"
         None None fresh_state.
Proof.
  split.
  - exact (proj1 (proj1 (C9_vm_id_required dead_transport no_str (PStr "") fresh_state)
                    eq_refl)).
  - exact (proj1 (proj2 (proj1 (proj2
             (C9_vm_id_required dead_transport no_str (PStr "vm-1") fresh_state))
             eq_refl))).
Defined.

(* ===================================================================== *)
(** * Closed instances of the further properties                          *)
(* ===================================================================== *)

(** 7 March and 7 April 2025 share their signing key. *)
Lemma signing_key_ignores_the_month_witness :
  year march_7 = year april_7
  /\ day march_7 = day april_7
  /\ exists sg1 sg2,
       sign_request toy_sha256 toy_hmac toy_auth march_7 (servers_request None)
       = Ok sg1
       /\ sign_request toy_sha256 toy_hmac toy_auth april_7 (servers_request None)
          = Ok sg2
       /\ sg_datestamp sg1 = sg_datestamp sg2
       /\ sg_credential_scope sg1 = sg_credential_scope sg2
       /\ sg_signing_key sg1 = sg_signing_key sg2.
Proof.
  split; [reflexivity |]. split; [reflexivity |].
  exact (signing_key_ignores_the_month toy_sha256 toy_hmac toy_auth march_7 april_7
           (servers_request None) (servers_request None) eq_refl eq_refl).
Defined.

(** The VM list URL: host [scp.example], path [/janus/20190725/servers]. *)
Lemma signed_host_and_uri_witness :
  is_scheme "https" = true
  /\ is_authority "scp.example" = true
  /\ is_plain_path "/janus/20190725/servers" = true
  /\ exists sg,
       sign_request toy_sha256 toy_hmac toy_auth march_7 (servers_request None)
       = Ok sg
       /\ sg_canonical_uri sg = "/janus/20190725/servers"
       /\ ci_getitem "Host" (sg_headers sg) = Ok "scp.example".
Proof.
  split; [reflexivity |]. split; [reflexivity |]. split; [reflexivity |].
  destruct (signed_host_and_uri toy_sha256 toy_hmac toy_auth march_7 "GET"
              "https" "scp.example" "/janus/20190725/servers"
              [("Accept", "*/*")] BodyNone eq_refl eq_refl eq_refl)
    as (sg & amzdate & H1 & _ & H3 & _ & H5 & _).
  exists sg. split; [exact H1 |]. split; [exact H3 | exact H5].
Defined.

(** A VM named [my-web-server-01-prod] is in the cache, and [find_vm] of
    that name asks for the VM with that id. *)
Lemma find_vm_takes_four_hyphens_for_an_id_witness :
  count_char "-" "my-web-server-01-prod" = 4%nat
  /\ has_name "my-web-server-01-prod" hyphened_vm = true
  /\ find_vm dead_transport no_int no_str 3 "my-web-server-01-prod"
       (cached_state [hyphened_vm])
     = send_request dead_transport "GET"
         "/janus/20190725/servers/my-web-server-01-prod" None None
         (cached_state [hyphened_vm]).
Proof.
  split; [reflexivity |]. split; [reflexivity |].
  exact (find_vm_takes_four_hyphens_for_an_id dead_transport no_int no_str 3%nat
           "my-web-server-01-prod" (cached_state [hyphened_vm]) eq_refl).
Defined.

(** A cached list of three records and the name of the second. *)
Lemma find_vm_by_name_reads_the_cache_witness :
  count_char "-" "vm-1" <> 4%nat
  /\ _all_vms_cache (client (cached_state (vm_records 0 3))) = Some (vm_records 0 3)
  /\ find_vm dead_transport no_int no_str 0 "vm-1" (cached_state (vm_records 0 3))
     = get_vm_details dead_transport no_str (PStr "id-1")
         (cached_state (vm_records 0 3)).
Proof.
  assert (Hn : count_char "-" "vm-1" <> 4%nat) by discriminate.
  split; [exact Hn |]. split; [reflexivity |].
  refine (proj2 (find_vm_by_name_reads_the_cache dead_transport no_int no_str 0%nat "vm-1"
                   (cached_state (vm_records 0 3)) (vm_records 0 3) Hn eq_refl)
            [vm_record 0] (vm_record 1) [vm_record 2] eq_refl _ eq_refl).
  intros x [<- | []]. split; reflexivity.
Defined.

Lemma looping_transport_always_more : always_more looping_transport no_int.
Proof.
  intros hist rq. exists 200, (page_response [vm_record 0] (Some 1)),
    [vm_record 0], (PInt 1), 1.
  repeat split. discriminate.
Defined.

(** The backend that serves the same page with the token 1 for ever. *)
Lemma pagination_never_ends_on_endless_pages_witness :
  always_more looping_transport no_int
  /\ forall fuel, get_all_vms looping_transport no_int fuel false fresh_state = OutOfFuel.
Proof.
  split; [exact looping_transport_always_more |].
  intro fuel.
  exact (proj1 (proj2 (pagination_never_ends_on_endless_pages looping_transport no_int plain_sum
                         looping_transport_always_more)) fuel fresh_state).
Defined.

(** The first iteration on the backend of four pages: the first request
    is the one for page 0, and the loop goes on at page 1 with the hundred
    records of page 0. *)
Lemma pagination_stop_rules_witness :
  get_vms (paged_transport four_pages) (PInt 0) (PInt PAGE_SIZE) fresh_state
  = Returns (page_response (vm_records 0 100) (Some 1))
      (log_request (page_request "https://scp.example" 0) fresh_state)
  /\ page_of (page_response (vm_records 0 100) (Some 1))
     = Some (vm_records 0 100, PInt 1)
  /\ scan_pages (paged_transport four_pages) no_int 4 [] 0 fresh_state
     = scan_pages (paged_transport four_pages) no_int 3 ([] ++ vm_records 0 100) 1
         (log_request (page_request "https://scp.example" 0) fresh_state).
Proof.
  assert (Hg : get_vms (paged_transport four_pages) (PInt 0) (PInt PAGE_SIZE)
                 fresh_state
               = Returns (page_response (vm_records 0 100) (Some 1))
                   (log_request (page_request "https://scp.example" 0) fresh_state))
    by reflexivity.
  assert (Hp : page_of (page_response (vm_records 0 100) (Some 1))
               = Some (vm_records 0 100, PInt 1)) by reflexivity.
  split; [exact Hg |]. split; [exact Hp |].
  refine (proj1 (proj2 (proj2 (proj2 (proj2 (proj2
            (pagination_stop_rules (paged_transport four_pages) no_int))))))
            3%nat [] 0 fresh_state _ _ (vm_records 0 100) (PInt 1) 1 Hg Hp _ eq_refl eq_refl).
  discriminate.
Defined.

(** A backend that answers with an array, and a cache that holds a list. *)
Lemma failed_scan_keeps_the_cache_witness :
  get_all_vms array_transport no_int 2 false (cached_state (vm_records 0 3))
  = Raises AttributeError
      (log_request (page_request "https://scp.example" 0)
         (cached_state (vm_records 0 3)))
  /\ _all_vms_cache
       (client (log_request (page_request "https://scp.example" 0)
                  (cached_state (vm_records 0 3))))
     = Some (vm_records 0 3).
Proof.
  assert (E : get_all_vms array_transport no_int 2 false (cached_state (vm_records 0 3))
              = Raises AttributeError
                  (log_request (page_request "https://scp.example" 0)
                     (cached_state (vm_records 0 3)))) by reflexivity.
  split; [exact E |].
  rewrite (proj1 (failed_scan_keeps_the_cache array_transport no_int 2%nat false
                    (cached_state (vm_records 0 3)) AttributeError _ E)).
  reflexivity.
Defined.

(** A transport that never connects and the name [web-server-01]. *)
Lemma name_lookup_reports_a_failed_scan_as_not_found_witness :
  count_char "-" "web-server-01" <> 4%nat
  /\ guard_stops PNone = true
  /\ find_vm dead_transport no_int no_str 1 "web-server-01" fresh_state
     = Returns PNone
         {| client := set_cache (Some []) fresh_client;
            sent := [page_request "https://scp.example" 0] |}.
Proof.
  assert (Hn : count_char "-" "web-server-01" <> 4%nat) by discriminate.
  split; [exact Hn |]. split; [reflexivity |].
  exact (proj1 (name_lookup_reports_a_failed_scan_as_not_found dead_transport no_int no_str
                  0%nat "web-server-01" fresh_state PNone
                  (log_request (page_request "https://scp.example" 0) fresh_state)
                  Hn eq_refl eq_refl eq_refl)).
Defined.

(** The report on the backend of four pages, from a cache that holds
    another list. *)
Lemma report_refreshes_the_cache_witness :
  exists r st',
    generate_infrastructure_report (paged_transport four_pages) no_int plain_sum 4 "now"
      (cached_state [hyphened_vm]) = Returns r st'
    /\ _all_vms_cache (client st') = Some (vm_records 0 237)
    /\ get_all_vms (paged_transport four_pages) no_int 0 true st'
       = Returns (vm_records 0 237) st'.
Proof.
  destruct (generate_infrastructure_report (paged_transport four_pages) no_int plain_sum 4 "now"
              (cached_state [hyphened_vm])) as [r st' | e st' |] eqn:E;
    [| vm_compute in E; discriminate E | vm_compute in E; discriminate E].
  exists r, st'. split; [reflexivity |].
  destruct (report_refreshes_the_cache (paged_transport four_pages) no_int plain_sum 4%nat "now"
              (cached_state [hyphened_vm]) r st' E) as (l & more & Hc & _ & Hg & _).
  assert (El : Some l = Some (vm_records 0 237)).
  { rewrite <- Hc. vm_compute in E. injection E as _ <-. reflexivity. }
  injection El as ->. split; [exact Hc | exact (Hg 0%nat)].
Defined.

(** The table of four pages is a chain. *)
Lemma scan_returns_all_pages_in_order_witness :
  chain_ok 0 four_pages = true
  /\ get_all_vms (paged_transport four_pages) no_int (List.length four_pages + 0) true
       fresh_state
     = Returns (List.concat (map fst four_pages))
         {| client := set_cache (Some (List.concat (map fst four_pages)))
                        (client fresh_state);
            sent := (sent fresh_state
                     ++ page_requests (base_url (client fresh_state)) 0
                          (List.length four_pages))%list |}.
Proof.
  split; [reflexivity |].
  exact (scan_returns_all_pages_in_order no_int four_pages 0%nat true fresh_state
           eq_refl (or_intror eq_refl)).
Defined.

(** The report of the five mixed VMs counts three of them. *)
Lemma report_counts_are_consistent_witness :
  exists r,
    build_report plain_sum "now" mixed_vms zone_list_with_repeat = Ok r
    /\ counts_add_up (overall_totals r)
    /\ Forall (fun kt => counts_add_up (snd kt)) (by_availability_zone r)
    /\ total_vms (overall_totals r) = zone_vm_sum (by_availability_zone r).
Proof.
  destruct (build_report plain_sum "now" mixed_vms zone_list_with_repeat) as [r | e] eqn:E;
    [| vm_compute in E; discriminate E].
  exists r. split; [reflexivity |].
  exact (report_counts_are_consistent plain_sum "now" mixed_vms zone_list_with_repeat r E).
Defined.

(** The zone list that names [az1] twice gives the two zones [az1], [az2]. *)
Lemma report_zones_are_those_of_the_zone_list_witness :
  exists r,
    build_report plain_sum "now" mixed_vms zone_list_with_repeat = Ok r
    /\ map fst (by_availability_zone r) = [PStr "az1"; PStr "az2"].
Proof.
  destruct (build_report plain_sum "now" mixed_vms zone_list_with_repeat) as [r | e] eqn:E;
    [| vm_compute in E; discriminate E].
  exists r. split; [reflexivity |].
  destruct (report_zones_are_those_of_the_zone_list plain_sum "now" mixed_vms
              zone_list_with_repeat r E) as (zones & Hz & Hk & _).
  rewrite Hk. vm_compute in Hz. injection Hz as <-. reflexivity.
Defined.

(** Of the five mixed VMs three are of a known zone. *)
Lemma report_counts_the_vms_of_known_zones_witness :
  exists r,
    build_report plain_sum "now" mixed_vms zone_list_with_repeat = Ok r
    /\ total_vms (overall_totals r) = 3
    /\ List.length mixed_vms = 5%nat.
Proof.
  destruct (build_report plain_sum "now" mixed_vms zone_list_with_repeat) as [r | e] eqn:E;
    [| vm_compute in E; discriminate E].
  exists r. split; [reflexivity |]. split; [| reflexivity].
  destruct (report_counts_the_vms_of_known_zones plain_sum "now" mixed_vms
              zone_list_with_repeat r E) as (zones & Hz & Hc & _).
  rewrite Hc. vm_compute in Hz. injection Hz as <-. reflexivity.
Defined.

(** The five mixed VMs and no zone list. *)
Lemma report_without_zones_counts_nothing_witness :
  truthy PNone = false
  /\ Forall (fun vm => zone_excluded [] vm = true) mixed_vms
  /\ build_report plain_sum "now" mixed_vms PNone
     = Ok {| report_generated_at := "now";
             overall_totals := zero_totals;
             by_availability_zone := [] |}.
Proof.
  assert (HF : Forall (fun vm => zone_excluded [] vm = true) mixed_vms)
    by (repeat constructor).
  split; [reflexivity |]. split; [exact HF |].
  exact (proj1 (report_without_zones_counts_nothing plain_sum "now" mixed_vms PNone eq_refl HF)).
Defined.

(** A VM of [az1] with the cores ["four"], after a readable one. *)
Lemma unreadable_cores_fail_the_report_witness :
  report_zones (one_zone "az1") = Ok [(PStr "az1", zero_totals)]
  /\ zone_excluded [(PStr "az1", zero_totals)] (vm_with_cores_text "az1" "four") = false
  /\ (exists e,
        build_report plain_sum "now"
          ([vm_with_memory "az1" 1536] ++ vm_with_cores_text "az1" "four" :: [])
          (one_zone "az1") = Err e)
  /\ build_report plain_sum "now" [vm_with_cores_text "az1" "four"] (one_zone "az1")
     = Err TypeError.
Proof.
  split; [reflexivity |]. split; [reflexivity |].
  destruct (unreadable_cores_fail_the_report plain_sum "now" (one_zone "az1")
              [(PStr "az1", zero_totals)] [vm_with_memory "az1" 1536] []
              [("az_name", PStr "az1"); ("cores", PStr "four")] "four"
              eq_refl eq_refl eq_refl) as [H1 H2].
  split; [exact H1 | exact (H2 eq_refl)].
Defined.

(** The five mixed VMs: the cores 4 of the first and 0 for the other two
    counted. *)
Lemma report_core_count_is_the_exact_sum_witness :
  exists r,
    build_report plain_sum "now" mixed_vms zone_list_with_repeat = Ok r
    /\ report_zones zone_list_with_repeat
       = Ok [(PStr "az1", zero_totals); (PStr "az2", zero_totals)]
    /\ cpu_cores (total_provisioned (overall_totals r)) = NInt 4.
Proof.
  destruct (build_report plain_sum "now" mixed_vms zone_list_with_repeat) as [r | e] eqn:E;
    [| vm_compute in E; discriminate E].
  exists r. split; [reflexivity |]. split; [reflexivity |].
  rewrite (report_core_count_is_the_exact_sum plain_sum "now" mixed_vms zone_list_with_repeat
             [(PStr "az1", zero_totals); (PStr "az2", zero_totals)] r E eq_refl).
  - reflexivity.
  - intros vm Hin. vm_compute in Hin.
    destruct Hin as [<- | [<- | [<- | []]]]; discriminate.
Defined.
